(** * Ferguson Livestock: the wait-list subscription endpoints

    A shallow embedding of the two [POST] handlers of the subscription
    route (the client-subscription variant and the profile-upsert
    variant) together with the phone normalisation and the postcode
    check they share, followed by the properties of the integration
    contract.

    Conventions of the embedding.
    - A JavaScript string is the list of its UTF-16 code units.
    - A value obtained from [JSON.parse] (or handed to [JSON.stringify])
      is a [jsval] tree.
    - The handlers are programs of a small free monad whose operations
      are the effects the source performs: [fetch], [new Date()],
      [setTimeout] and [console]; [throw] and [try]/[catch] are the
      monad's exception structure.
    - A run of a program is determined by a [world]: the readings of
      the clock and the outcome the remote API gives to every outbound
      call. *)

From Stdlib Require Import List String Ascii Bool ZArith NArith Lia.
From ExtLib Require Import Structures.Monad Structures.MonadExc.
Import ListNotations.
Import MonadNotation.
Local Open Scope monad_scope.
Local Open Scope list_scope.

Set Implicit Arguments.

(* ===================================================================== *)
(** ** JavaScript strings *)
(* ===================================================================== *)

Module JsString.

(** A string is its sequence of UTF-16 code units. *)
Definition jsstring := list N.

(** The code units of an ASCII literal of the source. *)
Definition lit (s : string) : jsstring :=
  map N_of_ascii (list_ascii_of_string s).

Fixpoint eqb (a b : jsstring) : bool :=
  match a, b with
  | [], [] => true
  | x :: a', y :: b' => N.eqb x y && eqb a' b'
  | _, _ => false
  end.

(** [\d] : the ten ASCII digits. *)
Definition is_digit (c : N) : bool := (48 <=? c)%N && (c <=? 57)%N.

(** [\s] : ECMAScript WhiteSpace and LineTerminator code points. *)
Definition is_space (c : N) : bool :=
  ((9 <=? c)%N && (c <=? 13)%N)
  || (c =? 32)%N || (c =? 160)%N || (c =? 5760)%N
  || ((8192 <=? c)%N && (c <=? 8202)%N)
  || (c =? 8232)%N || (c =? 8233)%N || (c =? 8239)%N
  || (c =? 8287)%N || (c =? 12288)%N || (c =? 65279)%N.

(** [[^\d+]] : anything that is neither a digit nor the plus sign. *)
Definition is_not_digit_or_plus (c : N) : bool :=
  negb (is_digit c || (c =? 43)%N).

(** [s.replace(/C/g, '')] and [s.replace(/C+/g, '')] for a character
    class [C]: every maximal run of matching code units is replaced by
    the empty string, so exactly the matching units disappear. *)
Definition delete_class (C : N -> bool) (s : jsstring) : jsstring :=
  filter (fun c => negb (C c)) s.

(** [s.startsWith(p)] *)
Fixpoint startsWith (p s : jsstring) : bool :=
  match p, s with
  | [], _ => true
  | x :: p', y :: s' => N.eqb x y && startsWith p' s'
  | _ :: _, [] => false
  end.

(** [s.slice(n)] for a non-negative [n]. *)
Definition slice (n : nat) (s : jsstring) : jsstring := skipn n s.

(** [/^\d{4}$/.test(s)] (no [m] flag: [$] is the end of the input). *)
Definition test_four_digits (s : jsstring) : bool :=
  (List.length s =? 4)%nat && forallb is_digit s.

(** Truthiness of a string: only the empty string is falsy. *)
Definition nonempty (s : jsstring) : bool :=
  match s with [] => false | _ :: _ => true end.

End JsString.
Import JsString.

(* ===================================================================== *)
(** ** Phone normalisation (lines 44-49 and 337-342, textually equal) *)
(* ===================================================================== *)

(** [[
    let formattedPhone = data.phone.replace(/\s+/g, '').replace(/[^\d+]/g, '');
    if (formattedPhone.startsWith('0')) {
        formattedPhone = '+61' + formattedPhone.slice(1);
    } else if (!formattedPhone.startsWith('+')) {
        formattedPhone = '+61' + formattedPhone;
    }
    ]] *)
Definition stripped (phone : jsstring) : jsstring :=
  delete_class is_not_digit_or_plus (delete_class is_space phone).

Definition formattedPhone (phone : jsstring) : jsstring :=
  let formatted := stripped phone in
  if startsWith (lit "0") formatted then lit "+61" ++ slice 1 formatted
  else if negb (startsWith (lit "+") formatted) then lit "+61" ++ formatted
  else formatted.

(** The normalisation as the specification words it: keep only the
    decimal digits and the plus signs; a leading [0] becomes [+61]; a
    result without leading [+] is prefixed with [+61]; a result with a
    leading [+] is kept. *)
Module PhoneSpec.

Definition keep (c : N) : bool := is_digit c || (c =? 43)%N.

Definition strip (phone : jsstring) : jsstring := filter keep phone.

Definition normalize (phone : jsstring) : jsstring :=
  match strip phone with
  | [] => lit "+61"
  | c :: rest =>
      if (c =? 48)%N then lit "+61" ++ rest
      else if (c =? 43)%N then c :: rest
      else lit "+61" ++ c :: rest
  end.

End PhoneSpec.

(* ===================================================================== *)
(** ** JavaScript values, exceptions and completions *)
(* ===================================================================== *)

(** The values [JSON.parse] yields and [JSON.stringify] accepts, with
    [undefined] for a property that is not there.  Numbers are
    integer-valued: the handlers only test a number for truthiness and
    for being positive. *)
#[warnings="-register-all"]
Inductive jsval : Type :=
| JUndefined
| JNull
| JBool (b : bool)
| JNum (z : Z)
| JStr (s : jsstring)
| JArr (items : list jsval)
| JObj (props : list (jsstring * jsval)).

(** What a [throw] carries: an [Error] instance with its [message], or
    any other value. *)
Inductive exn : Type :=
| JsError (message : jsstring)
| NonError (v : jsval).

(** The result of evaluating an expression: a value, or an abrupt
    completion carrying what was thrown. *)
Inductive completion (A : Type) : Type :=
| Normal (a : A)
| Abrupt (e : exn).
Arguments Normal {A} a.
Arguments Abrupt {A} e.

Definition str (s : string) : jsval := JStr (lit s).

Definition prop (k : string) (v : jsval) : jsstring * jsval := (lit k, v).

(** Truthiness ([if (v)], [!v], [a && b]). *)
Definition truthy (v : jsval) : bool :=
  match v with
  | JUndefined | JNull => false
  | JBool b => b
  | JNum z => negb (z =? 0)%Z
  | JStr s => nonempty s
  | JArr _ | JObj _ => true
  end.

Definition nullish (v : jsval) : bool :=
  match v with JUndefined | JNull => true | _ => false end.

Fixpoint lookup (k : jsstring) (props : list (jsstring * jsval)) : jsval :=
  match props with
  | [] => JUndefined
  | (k', v) :: rest => if JsString.eqb k k' then v else lookup k rest
  end.

(** The [TypeError] of a property read on [undefined] or [null] (the
    wording is the engine's). *)
Definition type_error (v : jsval) (k : jsstring) : exn :=
  JsError (lit "Cannot read properties of "
           ++ (match v with JNull => lit "null" | _ => lit "undefined" end)
           ++ lit " (reading '" ++ k ++ lit "')").

(** [v.k] for a property name [k] that is not an array index and not
    inherited from a prototype ([length] apart). *)
Definition get_prop (v : jsval) (k : jsstring) : completion jsval :=
  match v with
  | JUndefined | JNull => Abrupt (type_error v k)
  | JObj props => Normal (lookup k props)
  | JArr items =>
      Normal (if JsString.eqb k (lit "length")
              then JNum (Z.of_nat (List.length items)) else JUndefined)
  | JStr s =>
      Normal (if JsString.eqb k (lit "length")
              then JNum (Z.of_nat (List.length s)) else JUndefined)
  | JBool _ | JNum _ => Normal JUndefined
  end.

(** [v[0]] *)
Definition get_first (v : jsval) : completion jsval :=
  match v with
  | JUndefined | JNull => Abrupt (type_error v (lit "0"))
  | JObj props => Normal (lookup (lit "0") props)
  | JArr items =>
      Normal (match items with x :: _ => x | [] => JUndefined end)
  | JStr s =>
      Normal (match s with c :: _ => JStr [c] | [] => JUndefined end)
  | JBool _ | JNum _ => Normal JUndefined
  end.

(** [v?.k] and [v?.[0]] *)
Definition opt_prop (v : jsval) (k : jsstring) : completion jsval :=
  if nullish v then Normal JUndefined else get_prop v k.

Definition opt_first (v : jsval) : completion jsval :=
  if nullish v then Normal JUndefined else get_first v.

(* ===================================================================== *)
(** ** The inbound request, the environment and the HTTP vocabulary *)
(* ===================================================================== *)

(** [interface SubscribeRequest]: three string fields; a field that the
    body does not carry reads as [undefined], here [None]. *)
Record SubscribeRequest : Type := {
  firstName : option jsstring;
  phone : option jsstring;
  postcode : option jsstring
}.

(** The inbound request: what [await request.json()] completes with. *)
Record inbound : Type := { request_json : completion SubscribeRequest }.

(** [import.meta.env]: a variable is a string or is not set. *)
Record environment : Type := {
  KLAVIYO_PUBLIC_API_KEY : option jsstring;
  KLAVIYO_API_KEY : option jsstring;
  KLAVIYO_LIST_ID : option jsstring
}.

(** [!x] for a string that may be [undefined]. *)
Definition falsy (x : option jsstring) : bool :=
  match x with Some s => negb (nonempty s) | None => true end.

(** A string that may be [undefined], as a value. *)
Definition field_value (x : option jsstring) : jsval :=
  match x with Some s => JStr s | None => JUndefined end.

(** [ToString] of a string that may be [undefined]: what a [RegExp]
    test and a template literal see. *)
Definition to_string (x : option jsstring) : jsstring :=
  match x with Some s => s | None => lit "undefined" end.

Inductive http_method : Type := GET | POST_ | PATCH.

(** The URLs the handlers build, by the template they come from. *)
Inductive endpoint : Type :=
| ClientSubscriptions (company_id : jsstring)
    (* https://a.klaviyo.com/client/subscriptions/?company_id=${publicApiKey} *)
| ProfileSearch (phone_number : jsstring)
    (* https://a.klaviyo.com/api/profiles/?filter=equals(phone_number,"...") *)
| Profiles
    (* https://a.klaviyo.com/api/profiles/ *)
| Profile (id : jsval)
    (* https://a.klaviyo.com/api/profiles/${profileId}/ *)
| ListProfiles (list_id : jsstring)
    (* https://a.klaviyo.com/api/lists/${listId}/relationships/profiles/ *).

(** An outbound call: the arguments of one [fetch]; [req_body] is the
    object handed to [JSON.stringify]. *)
Record request : Type := {
  req_method : http_method;
  req_url : endpoint;
  req_headers : list (jsstring * jsstring);
  req_body : option jsval
}.

(** What the remote API answered: [body_json] is [JSON.parse] of
    [body_text], which throws on malformed text. *)
Record response : Type := {
  status : Z;
  body_text : jsstring;
  body_json : completion jsval
}.

(** [response.ok] *)
Definition ok (r : response) : bool :=
  (200 <=? status r)%Z && (status r <=? 299)%Z.

(** A [fetch] promise resolves with a response or rejects. *)
Inductive fetch_outcome : Type :=
| Resolved (r : response)
| Rejected (e : exn).

(** What the handler answers:
    [new Response(JSON.stringify(body), { status, headers })]. *)
Record http_response : Type := {
  resp_status : Z;
  resp_headers : list (jsstring * jsstring);
  resp_body : jsval
}.

Definition json_response (st : Z) (body : jsval) : http_response :=
  {| resp_status := st;
     resp_headers := [(lit "Content-Type", lit "application/json")];
     resp_body := body |}.

(** The arguments of a [console] call. *)
Inductive log_arg : Type :=
| LStr (s : jsstring)
| LNum (z : Z)
| LVal (v : jsval)
| LUrl (u : endpoint)
| LExn (e : exn).

Inductive log_level : Type := LogInfo | LogError.

(* ===================================================================== *)
(** ** Programs: the effects of a handler *)
(* ===================================================================== *)

Inductive prog (A : Type) : Type :=
| Ret (a : A)
| Throw (e : exn)
| Fetch (rq : request) (k : fetch_outcome -> prog A)
| NewDate (k : jsstring -> prog A)
| SetTimeout (ms : N) (k : prog A)
| Console (lvl : log_level) (args : list log_arg) (k : prog A).
Arguments Ret {A} a.
Arguments Throw {A} e.
Arguments Fetch {A} rq k.
Arguments NewDate {A} k.
Arguments SetTimeout {A} ms k.
Arguments Console {A} lvl args k.

Fixpoint pbind {A B : Type} (p : prog A) (f : A -> prog B) : prog B :=
  match p with
  | Ret a => f a
  | Throw e => Throw e
  | Fetch rq k => Fetch rq (fun o => pbind (k o) f)
  | NewDate k => NewDate (fun t => pbind (k t) f)
  | SetTimeout ms k => SetTimeout ms (pbind k f)
  | Console lvl args k => Console lvl args (pbind k f)
  end.

(** [try { p } catch (e) { h e }] *)
Fixpoint try_catch {A : Type} (p : prog A) (h : exn -> prog A) : prog A :=
  match p with
  | Ret a => Ret a
  | Throw e => h e
  | Fetch rq k => Fetch rq (fun o => try_catch (k o) h)
  | NewDate k => NewDate (fun t => try_catch (k t) h)
  | SetTimeout ms k => SetTimeout ms (try_catch k h)
  | Console lvl args k => Console lvl args (try_catch k h)
  end.

#[export] Instance Monad_prog : Monad prog :=
  {| ret := @Ret; bind := @pbind |}.

#[export] Instance Exc_prog : MonadExc exn prog :=
  {| raise := @Throw; catch := @try_catch |}.

(** [await fetch(url, init)] *)
Definition fetch (rq : request) : prog response :=
  Fetch rq (fun o =>
    match o with Resolved r => Ret r | Rejected e => Throw e end).

(** [new Date().toISOString()] *)
Definition now : prog jsstring := NewDate (fun t => Ret t).

(** [await new Promise(resolve => setTimeout(resolve, ms))] *)
Definition sleep (ms : N) : prog unit := SetTimeout ms (Ret tt).

Definition console_log (args : list log_arg) : prog unit :=
  Console LogInfo args (Ret tt).

Definition console_error (args : list log_arg) : prog unit :=
  Console LogError args (Ret tt).

(** An expression that may throw, as a program. *)
Definition eval {A : Type} (c : completion A) : prog A :=
  match c with Normal a => Ret a | Abrupt e => Throw e end.

(** [await response.json()] and [await response.text()] *)
Definition json (r : response) : prog jsval := eval (body_json r).
Definition text (r : response) : prog jsstring := Ret (body_text r).

(* ===================================================================== *)
(** ** Running a program in a world *)
(* ===================================================================== *)

(** The world of one request: what the [n]-th reading of the clock
    gives, and how the remote API answers a call, given every call
    issued so far (the last one being the call to answer). *)
Record world : Type := {
  clock : nat -> jsstring;
  remote : list request -> fetch_outcome
}.

(** What a run leaves behind. *)
Record effects : Type := {
  calls : list request;
  console : list (log_level * list log_arg);
  date_reads : nat;
  slept : N
}.

Definition no_effects : effects :=
  {| calls := []; console := []; date_reads := 0; slept := 0 |}.

Fixpoint run {A : Type} (w : world) (p : prog A) (fx : effects)
  : completion A * effects :=
  match p with
  | Ret a => (Normal a, fx)
  | Throw e => (Abrupt e, fx)
  | Fetch rq k =>
      let issued := calls fx ++ [rq] in
      run w (k (remote w issued))
          {| calls := issued; console := console fx;
             date_reads := date_reads fx; slept := slept fx |}
  | NewDate k =>
      run w (k (clock w (date_reads fx)))
          {| calls := calls fx; console := console fx;
             date_reads := S (date_reads fx); slept := slept fx |}
  | SetTimeout ms k =>
      run w k
          {| calls := calls fx; console := console fx;
             date_reads := date_reads fx; slept := (slept fx + ms)%N |}
  | Console lvl args k =>
      run w k
          {| calls := calls fx; console := console fx ++ [(lvl, args)];
             date_reads := date_reads fx; slept := slept fx |}
  end.

(** One invocation of a handler: it starts with nothing issued and
    nothing logged. *)
Definition invoke {A : Type} (w : world) (p : prog A)
  : completion A * effects :=
  run w p no_effects.

(* ===================================================================== *)
(** ** The pieces both handlers share word for word *)
(* ===================================================================== *)

(** ['Authorization': `Klaviyo-API-Key ${key}`] and the other headers
    of a call to the private API. *)
Definition api_headers (key : jsstring) : list (jsstring * jsstring) :=
  [ (lit "Authorization", lit "Klaviyo-API-Key " ++ key);
    (lit "Content-Type", lit "application/json");
    (lit "revision", lit "2024-02-15") ].

Definition missing_fields_response : http_response :=
  json_response 400
    (JObj [ prop "success" (JBool false);
            prop "error" (str "Missing required fields") ]).

Definition invalid_postcode_response : http_response :=
  json_response 400
    (JObj [ prop "success" (JBool false);
            prop "error" (str "Invalid postcode format") ]).

Definition configuration_error_response : http_response :=
  json_response 500
    (JObj [ prop "success" (JBool false);
            prop "error" (str "Server configuration error") ]).

Definition subscribed_response : http_response :=
  json_response 200
    (JObj [ prop "success" (JBool true);
            prop "message" (str "Successfully subscribed to the wait list!") ]).

(** [data.phone.replace(...)...] : the method call throws when the
    field is not a string. *)
Definition format_phone_field (x : option jsstring) : prog jsstring :=
  match x with
  | Some p => ret (formattedPhone p)
  | None => raise (type_error JUndefined (lit "replace"))
  end.

(** The body of the call that adds a profile to the list. *)
Definition list_payload (profileId : jsval) : jsval :=
  JObj [ prop "data"
           (JArr [ JObj [ prop "type" (str "profile");
                          prop "id" profileId ] ]) ].

Definition list_request (key listId : jsstring) (profileId : jsval)
  : request :=
  {| req_method := POST_;
     req_url := ListProfiles listId;
     req_headers := api_headers key;
     req_body := Some (list_payload profileId) |}.

(* ===================================================================== *)
(** ** The profile-upsert handler (lines 304-489) *)
(* ===================================================================== *)

Module ProfileUpsert.

(** [profilePayload] (lines 362-379) *)
Definition profilePayload (formatted : jsstring) (data : SubscribeRequest)
    (signup_date : jsstring) : jsval :=
  JObj [ prop "data"
    (JObj [ prop "type" (str "profile");
            prop "attributes"
              (JObj [ prop "phone_number" (JStr formatted);
                      prop "first_name" (field_value (firstName data));
                      prop "location"
                        (JObj [ prop "zip" (field_value (postcode data));
                                prop "country" (str "Australia") ]);
                      prop "properties"
                        (JObj [ prop "postcode" (field_value (postcode data));
                                prop "source" (str "Ferguson Livestock Website");
                                prop "signup_date" (JStr signup_date) ]) ]) ]) ].

(** The create-profile call (lines 381-389). *)
Definition create_request (apiKey formatted : jsstring)
    (data : SubscribeRequest) (signup_date : jsstring) : request :=
  {| req_method := POST_;
     req_url := Profiles;
     req_headers := api_headers apiKey;
     req_body := Some (profilePayload formatted data signup_date) |}.

(** The body of the update call (lines 413-430). *)
Definition updatePayload (profileId : jsval) (data : SubscribeRequest)
    (last_updated : jsstring) : jsval :=
  JObj [ prop "data"
    (JObj [ prop "type" (str "profile");
            prop "id" profileId;
            prop "attributes"
              (JObj [ prop "first_name" (field_value (firstName data));
                      prop "location"
                        (JObj [ prop "zip" (field_value (postcode data));
                                prop "country" (str "Australia") ]);
                      prop "properties"
                        (JObj [ prop "postcode" (field_value (postcode data));
                                prop "source" (str "Ferguson Livestock Website");
                                prop "last_updated" (JStr last_updated) ]) ]) ]) ].

(** The update call (lines 406-431). *)
Definition update_request (apiKey : jsstring) (profileId : jsval)
    (data : SubscribeRequest) (last_updated : jsstring) : request :=
  {| req_method := PATCH;
     req_url := Profile profileId;
     req_headers := api_headers apiKey;
     req_body := Some (updatePayload profileId data last_updated) |}.

(** [errorData.errors?.[0]?.meta?.duplicate_profile_id] (line 400) *)
Definition duplicate_profile_id (errorData : jsval) : completion jsval :=
  match get_prop errorData (lit "errors") with
  | Abrupt e => Abrupt e
  | Normal errors =>
      match opt_first errors with
      | Abrupt e => Abrupt e
      | Normal first =>
          match opt_prop first (lit "meta") with
          | Abrupt e => Abrupt e
          | Normal meta => opt_prop meta (lit "duplicate_profile_id")
          end
      end
  end.

(** [profileData.data.id] (line 396) *)
Definition created_profile_id (profileData : jsval) : completion jsval :=
  match get_prop profileData (lit "data") with
  | Abrupt e => Abrupt e
  | Normal d => get_prop d (lit "id")
  end.

Definition generic_error_response : http_response :=
  json_response 500
    (JObj [ prop "success" (JBool false);
            prop "error" (str "An error occurred. Please try again.") ]).

(** Step 1 (lines 361-439): create the profile, or update the one
    that exists; the result is [profileId]. *)
Definition create_or_update (apiKey formatted : jsstring)
    (data : SubscribeRequest) : prog jsval :=
  signup_date <- now ;;
  profileResponse <- fetch (create_request apiKey formatted data signup_date) ;;
  if (status profileResponse =? 201)%Z then
    profileData <- json profileResponse ;;
    eval (created_profile_id profileData)
  else if (status profileResponse =? 409)%Z then
    errorData <- json profileResponse ;;
    existingId <- eval (duplicate_profile_id errorData) ;;
    if truthy existingId then
      last_updated <- now ;;
      _ <- fetch (update_request apiKey existingId data last_updated) ;;
      ret existingId
    else
      raise (JsError (lit "Could not get existing profile ID"))
  else
    errorText <- text profileResponse ;;
    console_error [ LStr (lit "Klaviyo profile creation failed:");
                    LStr errorText ] ;;
    raise (JsError (lit "Failed to create profile")).

(** Step 2 and the answer (lines 441-474): add the profile to the
    list; a refusal is logged and nothing more. *)
Definition add_to_list (apiKey listId : jsstring) (profileId : jsval)
  : prog http_response :=
  listResponse <- fetch (list_request apiKey listId profileId) ;;
  (if negb (ok listResponse) && negb (status listResponse =? 204)%Z then
     errorText <- text listResponse ;;
     console_error [ LStr (lit "Klaviyo list subscription failed:");
                     LStr errorText ]
   else ret tt) ;;
  ret subscribed_response.

(** Lines 361-474: what follows the configuration check. *)
Definition upsert_and_subscribe (apiKey listId formatted : jsstring)
    (data : SubscribeRequest) : prog http_response :=
  profileId <- create_or_update apiKey formatted data ;;
  add_to_list apiKey listId profileId.

(** The [try] block (lines 306-474). *)
Definition POST_try (env : environment) (request : inbound)
  : prog http_response :=
  data <- eval (request_json request) ;;
  if falsy (firstName data) || falsy (phone data) || falsy (postcode data)
  then ret missing_fields_response
  else if negb (test_four_digits (to_string (postcode data)))
  then ret invalid_postcode_response
  else
    formatted <- format_phone_field (phone data) ;;
    let apiKey := KLAVIYO_API_KEY env in
    let listId := KLAVIYO_LIST_ID env in
    if falsy apiKey || falsy listId then
      console_error [ LStr (lit "Missing Klaviyo configuration") ] ;;
      ret configuration_error_response
    else
      upsert_and_subscribe (to_string apiKey) (to_string listId)
                           formatted data.

(** The [catch] block (lines 476-488). *)
Definition POST_catch (error : exn) : prog http_response :=
  console_error [ LStr (lit "Subscribe error:"); LExn error ] ;;
  ret generic_error_response.

(** [export const POST: APIRoute = async ({ request }) => { ... }] *)
Definition POST (env : environment) (request : inbound)
  : prog http_response :=
  catch (POST_try env request) POST_catch.

End ProfileUpsert.

(* ===================================================================== *)
(** ** The client-subscription handler (lines 11-280) *)
(* ===================================================================== *)

Module ClientSubscribe.

Section Handler.

(** [ToNumber(v) > 0] for a string or an array [v]: the numeric
    reading of a string is the engine's and is not fixed here. *)
Variable text_gt_zero : jsval -> bool.

(** [v > 0] *)
Definition gt_zero (v : jsval) : bool :=
  match v with
  | JUndefined | JNull | JObj _ => false
  | JBool b => b
  | JNum z => (0 <? z)%Z
  | JStr _ | JArr _ => text_gt_zero v
  end.

(** [payload] (lines 70-84) *)
Definition payload (listId formatted : jsstring)
    (data : SubscribeRequest) (signup_date : jsstring) : jsval :=
  JObj [ prop "data"
    (JObj [ prop "type" (str "subscription");
            prop "attributes"
              (JObj [ prop "list_id" (JStr listId);
                      prop "custom_source" (str "Ferguson Livestock Website");
                      prop "phone_number" (JStr formatted);
                      prop "properties"
                        (JObj [ prop "first_name" (field_value (firstName data));
                                prop "postcode" (field_value (postcode data));
                                prop "signup_date" (JStr signup_date) ]) ]) ]) ].

(** The client-subscription call (lines 88-95). *)
Definition subscription_request (publicApiKey listId formatted : jsstring)
    (data : SubscribeRequest) (signup_date : jsstring) : request :=
  {| req_method := POST_;
     req_url := ClientSubscriptions publicApiKey;
     req_headers := [ (lit "Content-Type", lit "application/json");
                      (lit "revision", lit "2023-06-15") ];
     req_body := Some (payload listId formatted data signup_date) |}.

(** The profile search (lines 108-118). *)
Definition search_request (privateApiKey formatted : jsstring) : request :=
  {| req_method := GET;
     req_url := ProfileSearch formatted;
     req_headers := api_headers privateApiKey;
     req_body := None |}.

(** [updatePayload] (lines 133-145) *)
Definition updatePayload (profileId : jsval) (data : SubscribeRequest)
  : jsval :=
  JObj [ prop "data"
    (JObj [ prop "type" (str "profile");
            prop "id" profileId;
            prop "attributes"
              (JObj [ prop "first_name" (field_value (firstName data));
                      prop "properties"
                        (JObj [ prop "postcode" (field_value (postcode data));
                                prop "source" (str "Ferguson Livestock Website") ]) ]) ]) ].

(** The update call (lines 149-157). *)
Definition update_request (privateApiKey : jsstring) (profileId : jsval)
    (data : SubscribeRequest) : request :=
  {| req_method := PATCH;
     req_url := Profile profileId;
     req_headers := api_headers privateApiKey;
     req_body := Some (updatePayload profileId data) |}.

(** [createPayload] (lines 189-202) *)
Definition createPayload (formatted : jsstring) (data : SubscribeRequest)
    (signup_date : jsstring) : jsval :=
  JObj [ prop "data"
    (JObj [ prop "type" (str "profile");
            prop "attributes"
              (JObj [ prop "phone_number" (JStr formatted);
                      prop "first_name" (field_value (firstName data));
                      prop "properties"
                        (JObj [ prop "postcode" (field_value (postcode data));
                                prop "source" (str "Ferguson Livestock Website");
                                prop "signup_date" (JStr signup_date) ]) ]) ]) ].

(** The create-profile call (lines 206-214). *)
Definition create_request (privateApiKey formatted : jsstring)
    (data : SubscribeRequest) (signup_date : jsstring) : request :=
  {| req_method := POST_;
     req_url := Profiles;
     req_headers := api_headers privateApiKey;
     req_body := Some (createPayload formatted data signup_date) |}.

(** [searchData.data && searchData.data.length > 0] (line 126) *)
Definition profile_found (searchData : jsval) : completion bool :=
  match get_prop searchData (lit "data") with
  | Abrupt e => Abrupt e
  | Normal d =>
      if truthy d then
        match get_prop d (lit "length") with
        | Abrupt e => Abrupt e
        | Normal len => Normal (gt_zero len)
        end
      else Normal false
  end.

(** [searchData.data[0].id] (lines 127 and 130) *)
Definition found_profile_id (searchData : jsval) : completion jsval :=
  match get_prop searchData (lit "data") with
  | Abrupt e => Abrupt e
  | Normal d =>
      match get_first d with
      | Abrupt e => Abrupt e
      | Normal first => get_prop first (lit "id")
      end
  end.

(** [createData.data.id] (line 221) *)
Definition new_profile_id (createData : jsval) : completion jsval :=
  match get_prop createData (lit "data") with
  | Abrupt e => Abrupt e
  | Normal d => get_prop d (lit "id")
  end.

(** The profile exists (lines 127-183): update it, add it to the
    list. *)
Definition update_found (privateApiKey listId : jsstring)
    (data : SubscribeRequest) (searchData : jsval) : prog unit :=
  found <- eval (found_profile_id searchData) ;;
  console_log [ LStr (lit "Step 2 - Profile FOUND:"); LVal found ] ;;
  profileId <- eval (found_profile_id searchData) ;;
  console_log [ LStr (lit "Step 3 - Updating profile:");
                LVal (updatePayload profileId data) ] ;;
  updateResponse <- fetch (update_request privateApiKey profileId data) ;;
  console_log [ LStr (lit "Step 3 - Profile update response:");
                LNum (status updateResponse) ] ;;
  console_log [ LStr (lit "Step 4 - Adding to list:"); LStr listId ] ;;
  listResponse <- fetch (list_request privateApiKey listId profileId) ;;
  console_log [ LStr (lit "Step 4 - Add to list response:");
                LNum (status listResponse) ].

(** The profile does not exist (lines 186-246): create it, add it
    to the list. *)
Definition create_missing (privateApiKey listId formatted : jsstring)
    (data : SubscribeRequest) : prog unit :=
  console_log [ LStr (lit "Step 2 - Profile NOT found, creating new one...") ] ;;
  signup_date <- now ;;
  console_log [ LStr (lit "Step 3 - Creating profile:");
                LVal (createPayload formatted data signup_date) ] ;;
  createResponse <-
    fetch (create_request privateApiKey formatted data signup_date) ;;
  createText <- text createResponse ;;
  console_log [ LStr (lit "Step 3 - Create profile response:");
                LNum (status createResponse); LStr createText ] ;;
  if ok createResponse || (status createResponse =? 201)%Z then
    createData <- eval (body_json createResponse) ;;
    newProfileId <- eval (new_profile_id createData) ;;
    console_log [ LStr (lit "Step 4 - Adding new profile to list:");
                  LStr listId ] ;;
    listResponse <- fetch (list_request privateApiKey listId newProfileId) ;;
    console_log [ LStr (lit "Step 4 - Add to list response:");
                  LNum (status listResponse) ]
  else ret tt.

(** Step 2 (lines 101-254): with a private key, look the profile
    up and update or create it. *)
Definition verify_profile (privateApiKey : option jsstring)
    (listId formatted : jsstring) (data : SubscribeRequest) : prog unit :=
  if negb (falsy privateApiKey) then
    let key := to_string privateApiKey in
    console_log [ LStr (lit "Step 2 - Checking if profile exists...") ] ;;
    sleep 1000 ;;
    console_log [ LStr (lit "Step 2 - Search URL:");
                  LUrl (ProfileSearch formatted) ] ;;
    searchResponse <- fetch (search_request key formatted) ;;
    searchText <- text searchResponse ;;
    console_log [ LStr (lit "Step 2 - Profile search response:");
                  LNum (status searchResponse); LStr searchText ] ;;
    if ok searchResponse then
      catch
        (searchData <- eval (body_json searchResponse) ;;
         found <- eval (profile_found searchData) ;;
         if (found : bool)
         then update_found key listId data searchData
         else create_missing key listId formatted data)
        (fun e =>
           console_error [ LStr (lit "Error parsing search response:");
                           LExn e ])
    else ret tt
  else
    console_log [ LStr (lit "No private API key - skipping verification") ].

(** Lines 69-265: what follows the configuration check. *)
Definition subscribe_and_verify (publicApiKey : jsstring)
    (privateApiKey : option jsstring) (listId formatted : jsstring)
    (data : SubscribeRequest) : prog http_response :=
  signup_date <- now ;;
  console_log [ LStr (lit "Step 1 - Client subscription payload:");
                LVal (payload listId formatted data signup_date) ] ;;
  response <-
    fetch (subscription_request publicApiKey listId formatted data
                                signup_date) ;;
  responseText <- text response ;;
  console_log [ LStr (lit "Step 1 - Client subscription response:");
                LNum (status response); LStr responseText ] ;;
  verify_profile privateApiKey listId formatted data ;;
  ret subscribed_response.

(** The [try] block (lines 13-265). *)
Definition POST_try (env : environment) (request : inbound)
  : prog http_response :=
  data <- eval (request_json request) ;;
  if falsy (firstName data) || falsy (phone data) || falsy (postcode data)
  then ret missing_fields_response
  else if negb (test_four_digits (to_string (postcode data)))
  then ret invalid_postcode_response
  else
    formatted <- format_phone_field (phone data) ;;
    let publicApiKey := KLAVIYO_PUBLIC_API_KEY env in
    let privateApiKey := KLAVIYO_API_KEY env in
    let listId := KLAVIYO_LIST_ID env in
    if falsy publicApiKey || falsy listId then
      console_error [ LStr (lit "Missing Klaviyo configuration") ] ;;
      ret configuration_error_response
    else
      subscribe_and_verify (to_string publicApiKey) privateApiKey
                           (to_string listId) formatted data.

(** [error instanceof Error ? error.message : 'An error occurred'] *)
Definition error_text (error : exn) : jsstring :=
  match error with
  | JsError message => message
  | NonError _ => lit "An error occurred"
  end.

(** The [catch] block (lines 267-279). *)
Definition POST_catch (error : exn) : prog http_response :=
  console_error [ LStr (lit "Subscribe error:"); LExn error ] ;;
  ret (json_response 500
         (JObj [ prop "success" (JBool false);
                 prop "error" (JStr (error_text error)) ])).

(** [export const POST: APIRoute = async ({ request }) => { ... }] *)
Definition POST (env : environment) (request : inbound)
  : prog http_response :=
  catch (POST_try env request) POST_catch.

End Handler.

End ClientSubscribe.

(* ===================================================================== *)
(** ** The vocabulary of the contract *)
(* ===================================================================== *)

Module Contract.

(** A field or a secret that is absent, or is the empty string. *)
Definition absent_or_empty (x : option jsstring) : Prop :=
  x = None \/ x = Some [].

(** A field that is there and is not empty. *)
Definition present (x : option jsstring) : Prop :=
  exists s, x = Some s /\ s <> [].

Definition decimal_digit (c : N) : Prop := (48 <= c <= 57)%N.

(** A string of exactly four decimal digits. *)
Definition four_decimal_digits (s : jsstring) : Prop :=
  exists a b c d,
    s = [a; b; c; d]
    /\ decimal_digit a /\ decimal_digit b
    /\ decimal_digit c /\ decimal_digit d.

(** A submission with a required field missing. *)
Definition missing_required (data : SubscribeRequest) : Prop :=
  absent_or_empty (firstName data)
  \/ absent_or_empty (phone data)
  \/ absent_or_empty (postcode data).

Definition all_present (data : SubscribeRequest) : Prop :=
  present (firstName data) /\ present (phone data)
  /\ present (postcode data).

(** The postcode of the submission is four decimal digits. *)
Definition postcode_well_formed (data : SubscribeRequest) : Prop :=
  exists s, postcode data = Some s /\ four_decimal_digits s.

(** A submission the validation stage accepts. *)
Definition valid (data : SubscribeRequest) : Prop :=
  all_present data /\ postcode_well_formed data.

(** A submission the validation stage rejects. *)
Definition invalid (data : SubscribeRequest) : Prop :=
  missing_required data \/ ~ postcode_well_formed data.









(** The effects of a run, with one more line on the console. *)
Definition with_log (fx : effects) (lvl : log_level) (args : list log_arg)
  : effects :=
  {| calls := calls fx; console := console fx ++ [(lvl, args)];
     date_reads := date_reads fx; slept := slept fx |}.

(** A required secret of the profile-upsert handler, respectively of
    the client-subscription handler, is not configured. *)
Definition upsert_unconfigured (env : environment) : Prop :=
  absent_or_empty (KLAVIYO_API_KEY env)
  \/ absent_or_empty (KLAVIYO_LIST_ID env).

Definition client_unconfigured (env : environment) : Prop :=
  absent_or_empty (KLAVIYO_PUBLIC_API_KEY env)
  \/ absent_or_empty (KLAVIYO_LIST_ID env).

(** A remote API whose answer to a call depends only on how many
    calls were issued: [answers n] is the outcome of the [n]-th. *)
Definition by_position (answers : nat -> fetch_outcome)
  : list request -> fetch_outcome :=
  fun issued => answers (List.length issued).

End Contract.
Import Contract.

(* ===================================================================== *)
(** ** Sample submissions, configurations and remote behaviours *)
(* ===================================================================== *)

Module Samples.

Definition quoted (s : string) : jsstring := [34%N] ++ lit s ++ [34%N].

Definition good : SubscribeRequest :=
  {| firstName := Some (lit "Ann");
     phone := Some (lit "0412 345 678");
     postcode := Some (lit "2650") |}.

Definition nameless : SubscribeRequest :=
  {| firstName := None;
     phone := Some (lit "0412 345 678");
     postcode := Some (lit "2650") |}.

Definition lettered : SubscribeRequest :=
  {| firstName := Some (lit "Ann");
     phone := Some (lit "0412 345 678");
     postcode := Some (lit "ABCD") |}.

Definition carrying (data : SubscribeRequest) : inbound :=
  {| request_json := Normal data |}.

Definition unparsable : inbound :=
  {| request_json := Abrupt (JsError (lit "Unexpected end of JSON input")) |}.

Definition configured : environment :=
  {| KLAVIYO_PUBLIC_API_KEY := Some (lit "pk_sample");
     KLAVIYO_API_KEY := Some (lit "sk_sample");
     KLAVIYO_LIST_ID := Some (lit "LIST01") |}.

Definition unconfigured : environment :=
  {| KLAVIYO_PUBLIC_API_KEY := None;
     KLAVIYO_API_KEY := None;
     KLAVIYO_LIST_ID := None |}.

Definition midnight : nat -> jsstring :=
  fun _ => lit "2025-01-01T00:00:00.000Z".

(** [201] with the identifier of the new profile. *)
Definition created : response :=
  {| status := 201;
     body_text := lit "{" ++ quoted "data" ++ lit ":{" ++ quoted "id"
                  ++ lit ":" ++ quoted "01NEW" ++ lit "}}";
     body_json := Normal (JObj [ prop "data" (JObj [ prop "id" (str "01NEW") ]) ]) |}.

(** [409] with the identifier of the profile that exists. *)
Definition conflict : response :=
  {| status := 409;
     body_text := lit "{" ++ quoted "errors" ++ lit ":[{" ++ quoted "meta"
                  ++ lit ":{" ++ quoted "duplicate_profile_id" ++ lit ":"
                  ++ quoted "01OLD" ++ lit "}}]}";
     body_json :=
       Normal (JObj [ prop "errors"
         (JArr [ JObj [ prop "meta"
           (JObj [ prop "duplicate_profile_id" (str "01OLD") ]) ] ]) ]) |}.

(** [409] without it. *)
Definition bare_conflict : response :=
  {| status := 409;
     body_text := lit "{" ++ quoted "errors" ++ lit ":[]}";
     body_json := Normal (JObj [ prop "errors" (JArr []) ]) |}.

Definition no_content : response :=
  {| status := 204; body_text := []; body_json := Abrupt (JsError (lit "Unexpected end of JSON input")) |}.

Definition not_found : response :=
  {| status := 404;
     body_text := lit "list not found";
     body_json := Abrupt (JsError (lit "Unexpected token l in JSON")) |}.

Definition unavailable : response :=
  {| status := 503;
     body_text := lit "service unavailable";
     body_json := Abrupt (JsError (lit "Unexpected token s in JSON")) |}.

(** A search result with one profile. *)
Definition one_found : response :=
  {| status := 200;
     body_text := lit "{" ++ quoted "data" ++ lit ":[{" ++ quoted "id"
                  ++ lit ":" ++ quoted "01OLD" ++ lit "}]}";
     body_json :=
       Normal (JObj [ prop "data" (JArr [ JObj [ prop "id" (str "01OLD") ] ]) ]) |}.

(** An empty search result. *)
Definition none_found : response :=
  {| status := 200;
     body_text := lit "{" ++ quoted "data" ++ lit ":[]}";
     body_json := Normal (JObj [ prop "data" (JArr []) ]) |}.

Definition accepted : response :=
  {| status := 202; body_text := []; body_json := Abrupt (JsError (lit "Unexpected end of JSON input")) |}.

(** The outcomes of the successive calls of a run, the last one
    standing for every later call. *)
Fixpoint script (outcomes : list fetch_outcome) (last : fetch_outcome)
    (n : nat) : fetch_outcome :=
  match n, outcomes with
  | 1, o :: _ => o
  | S n', _ :: rest => script rest last n'
  | _, _ => last
  end.

Definition offline : fetch_outcome := Rejected (JsError (lit "fetch failed")).

Definition world_of (outcomes : list fetch_outcome) : world :=
  {| clock := midnight; remote := by_position (script outcomes offline) |}.

Definition no_coercion : jsval -> bool := fun _ => false.

End Samples.

(* ===================================================================== *)
(** ** More vocabulary: what a handler sends *)
(* ===================================================================== *)

Module Sent.

(** A code unit the normalised phone may hold: a decimal digit or the
    plus sign. *)
Definition phone_char (c : N) : Prop := decimal_digit c \/ c = 43%N.

(** A code unit the normalisation drops. *)
Definition separator (c : N) : Prop := ~ phone_char c.


(** A secret that is configured. *)
Definition configured_as (x : option jsstring) (key : jsstring) : Prop :=
  x = Some key /\ key <> [].

End Sent.
Import Sent.

(* ===================================================================== *)
(** ** The runtime of the scripts and of the bulk-subscription handler *)
(* ===================================================================== *)

From Stdlib Require DecimalString.

Module Runtime.

(** The content of a file or of a response body ([Buffer],
    [ArrayBuffer]). *)
Definition bytes := list Byte.byte.

(** An absolute path, by its segments. *)
Definition path := list jsstring.

(** The pieces of [s] between the occurrences of [sep]. *)
Fixpoint split_on (sep : N) (s : jsstring) : list jsstring :=
  match s with
  | [] => [[]]
  | c :: rest =>
      match split_on sep rest with
      | seg :: segs =>
          if (c =? sep)%N then [] :: seg :: segs else (c :: seg) :: segs
      | [] => [[c]]
      end
  end.

(** One segment further: [..] goes up (the root is its own parent),
    [.] and an empty segment stay. *)
Definition enter (p : path) (seg : jsstring) : path :=
  if JsString.eqb seg (lit "..") then removelast p
  else if JsString.eqb seg (lit ".") || JsString.eqb seg [] then p
  else p ++ [seg].

(** [path.join(p, rel)] for an absolute [p] (POSIX). *)
Definition join (p : path) (rel : jsstring) : path :=
  fold_left enter (split_on 47 rel) p.

(** The path as a string ([`${p}`]). *)
Definition render (p : path) : jsstring :=
  match p with
  | [] => lit "/"
  | _ => List.concat (map (fun seg => 47%N :: seg) p)
  end.

Fixpoint path_eqb (p q : path) : bool :=
  match p, q with
  | [], [] => true
  | a :: p', b :: q' => JsString.eqb a b && path_eqb p' q'
  | _, _ => false
  end.

(** [String(n)] for an integer [n]. *)
Definition decimal (n : Z) : jsstring :=
  lit (DecimalString.NilZero.string_of_int (Z.to_int n)).

(** The arguments of a [fetch] whose URL is a literal of the source. *)
Record web_request : Type := {
  web_method : http_method;
  web_url : jsstring;
  web_headers : list (jsstring * jsstring);
  web_body : option jsval
}.

(** [fetch(url)] *)
Definition get (url : jsstring) : web_request :=
  {| web_method := GET; web_url := url; web_headers := []; web_body := None |}.

(** A response: its status, its body ([arrayBuffer()]) and the body as
    text ([text()]). *)
Record web_response : Type := {
  web_status : Z;
  web_bytes : bytes;
  web_text : jsstring
}.

(** [response.ok] *)
Definition web_ok (r : web_response) : bool :=
  (200 <=? web_status r)%Z && (web_status r <=? 299)%Z.

Inductive web_outcome : Type :=
| Answered (r : web_response)
| Unreachable (e : exn).

(** Programs over the effects of the runtime. *)
Inductive task (A : Type) : Type :=
| Done (a : A)
| Fail (e : exn)
| WebFetch (rq : web_request) (k : web_outcome -> task A)
| ReadFile (p : path) (k : completion bytes -> task A)
| ReadAll (ps : list path) (k : completion (list bytes) -> task A)
| WriteFile (p : path) (content : bytes) (k : completion unit -> task A)
| MakeDir (p : path) (k : completion unit -> task A)
| Clock (k : jsstring -> task A)
| Print (lvl : log_level) (args : list log_arg) (k : task A).
Arguments Done {A} a.
Arguments Fail {A} e.
Arguments WebFetch {A} rq k.
Arguments ReadFile {A} p k.
Arguments ReadAll {A} ps k.
Arguments WriteFile {A} p content k.
Arguments MakeDir {A} p k.
Arguments Clock {A} k.
Arguments Print {A} lvl args k.

Fixpoint tbind {A B : Type} (t : task A) (f : A -> task B) : task B :=
  match t with
  | Done a => f a
  | Fail e => Fail e
  | WebFetch rq k => WebFetch rq (fun o => tbind (k o) f)
  | ReadFile p k => ReadFile p (fun c => tbind (k c) f)
  | ReadAll ps k => ReadAll ps (fun c => tbind (k c) f)
  | WriteFile p content k => WriteFile p content (fun c => tbind (k c) f)
  | MakeDir p k => MakeDir p (fun c => tbind (k c) f)
  | Clock k => Clock (fun t' => tbind (k t') f)
  | Print lvl args k => Print lvl args (tbind k f)
  end.

(** [try { t } catch (e) { h e }] *)
Fixpoint rescue {A : Type} (t : task A) (h : exn -> task A) : task A :=
  match t with
  | Done a => Done a
  | Fail e => h e
  | WebFetch rq k => WebFetch rq (fun o => rescue (k o) h)
  | ReadFile p k => ReadFile p (fun c => rescue (k c) h)
  | ReadAll ps k => ReadAll ps (fun c => rescue (k c) h)
  | WriteFile p content k => WriteFile p content (fun c => rescue (k c) h)
  | MakeDir p k => MakeDir p (fun c => rescue (k c) h)
  | Clock k => Clock (fun t' => rescue (k t') h)
  | Print lvl args k => Print lvl args (rescue k h)
  end.

#[export] Instance Monad_task : Monad task :=
  {| ret := @Done; bind := @tbind |}.

#[export] Instance Exc_task : MonadExc exn task :=
  {| raise := @Fail; catch := @rescue |}.

(** An expression that may throw, as a task. *)
Definition attempt {A : Type} (c : completion A) : task A :=
  match c with Normal a => Done a | Abrupt e => Fail e end.

(** [await fetch(...)] *)
Definition web_fetch (rq : web_request) : task web_response :=
  WebFetch rq (fun o =>
    match o with Answered r => Done r | Unreachable e => Fail e end).

(** [await readFile(p)] *)
Definition readFile (p : path) : task bytes := ReadFile p attempt.

(** [await Promise.all([readFile(p1), ..., readFile(pn)])] *)
Definition readFiles (ps : list path) : task (list bytes) := ReadAll ps attempt.

(** [await writeFile(p, content)] *)
Definition writeFile (p : path) (content : bytes) : task unit :=
  WriteFile p content attempt.

(** [await mkdir(p, { recursive: true })] *)
Definition mkdir (p : path) : task unit := MakeDir p attempt.

(** [new Date().toISOString()] *)
Definition date_now : task jsstring := Clock (fun t => Done t).

Definition print_log (args : list log_arg) : task unit :=
  Print LogInfo args (Done tt).

Definition print_error (args : list log_arg) : task unit :=
  Print LogError args (Done tt).

(** The platform a task runs on: the clock, how the network answers a
    request given every request sent so far, the error of reading a
    file that is not there, which rejection of a [Promise.all] settles
    first, and the errors of creating a directory and of writing a
    file. *)
Record platform : Type := {
  time : nat -> jsstring;
  web : list web_request -> web_outcome;
  missing : path -> exn;
  first_rejection : list exn -> exn;
  mkdir_error : path -> option exn;
  write_error : path -> option exn
}.

(** The machine: the files, and what the task did so far. *)
Record machine : Type := {
  files : path -> option bytes;
  requested : list web_request;
  printed : list (log_level * list log_arg);
  dates : nat;
  made : list path
}.

(** The files after [content] was written at [p]. *)
Definition written (fs : path -> option bytes) (p : path) (content : bytes)
  : path -> option bytes :=
  fun q => if path_eqb q p then Some content else fs q.

(** Reading one file. *)
Definition read (pf : platform) (fs : path -> option bytes) (p : path)
  : completion bytes :=
  match fs p with
  | Some content => Normal content
  | None => Abrupt (missing pf p)
  end.

(** The contents read and the rejections met, in the order of the
    paths. *)
Fixpoint read_each (pf : platform) (fs : path -> option bytes)
    (ps : list path) : list bytes * list exn :=
  match ps with
  | [] => ([], [])
  | p :: rest =>
      let (contents, errors) := read_each pf fs rest in
      match read pf fs p with
      | Normal content => (content :: contents, errors)
      | Abrupt e => (contents, e :: errors)
      end
  end.

(** [Promise.all] of the reads: every content, or the rejection that
    settled first. *)
Definition read_all (pf : platform) (fs : path -> option bytes)
    (ps : list path) : completion (list bytes) :=
  match read_each pf fs ps with
  | (contents, []) => Normal contents
  | (_, e :: errors) => Abrupt (first_rejection pf (e :: errors))
  end.

Fixpoint exec {A : Type} (pf : platform) (t : task A) (m : machine)
  : completion A * machine :=
  match t with
  | Done a => (Normal a, m)
  | Fail e => (Abrupt e, m)
  | WebFetch rq k =>
      let sent := requested m ++ [rq] in
      exec pf (k (web pf sent))
           {| files := files m; requested := sent; printed := printed m;
              dates := dates m; made := made m |}
  | ReadFile p k => exec pf (k (read pf (files m) p)) m
  | ReadAll ps k => exec pf (k (read_all pf (files m) ps)) m
  | WriteFile p content k =>
      match write_error pf p with
      | Some e => exec pf (k (Abrupt e)) m
      | None =>
          exec pf (k (Normal tt))
               {| files := written (files m) p content;
                  requested := requested m; printed := printed m;
                  dates := dates m; made := made m |}
      end
  | MakeDir p k =>
      match mkdir_error pf p with
      | Some e => exec pf (k (Abrupt e)) m
      | None =>
          exec pf (k (Normal tt))
               {| files := files m; requested := requested m;
                  printed := printed m; dates := dates m;
                  made := made m ++ [p] |}
      end
  | Clock k =>
      exec pf (k (time pf (dates m)))
           {| files := files m; requested := requested m;
              printed := printed m; dates := S (dates m); made := made m |}
  | Print lvl args k =>
      exec pf k
           {| files := files m; requested := requested m;
              printed := printed m ++ [(lvl, args)];
              dates := dates m; made := made m |}
  end.

(** A machine that did nothing yet. *)
Definition fresh (fs : path -> option bytes) : machine :=
  {| files := fs; requested := []; printed := []; dates := 0; made := [] |}.

End Runtime.

(* ===================================================================== *)
(** ** The bulk-subscription handler
       (src/scripts/generate-og-image.mjs, lines 466-611) *)
(* ===================================================================== *)

Module BulkSubscribe.

Import Runtime.

(** [subscribePayload] (lines 534-569) *)
Definition subscribePayload (listId formatted : jsstring)
    (data : SubscribeRequest) (signup_date : jsstring) : jsval :=
  JObj [ prop "data"
    (JObj [ prop "type" (str "profile-subscription-bulk-create-job");
            prop "attributes"
              (JObj [ prop "profiles"
                (JObj [ prop "data"
                  (JArr [ JObj [ prop "type" (str "profile");
                    prop "attributes"
                      (JObj [ prop "phone_number" (JStr formatted);
                              prop "first_name" (field_value (firstName data));
                              prop "location"
                                (JObj [ prop "zip" (field_value (postcode data));
                                        prop "country" (str "Australia") ]);
                              prop "properties"
                                (JObj [ prop "postcode"
                                          (field_value (postcode data));
                                        prop "source"
                                          (str "Ferguson Livestock Website");
                                        prop "signup_date"
                                          (JStr signup_date) ]) ]) ] ]) ]);
                      prop "historical_import" (JBool false) ]);
            prop "relationships"
              (JObj [ prop "list"
                (JObj [ prop "data"
                  (JObj [ prop "type" (str "list");
                          prop "id" (JStr listId) ]) ]) ]) ]) ].

(** The call (lines 571-579). *)
Definition subscribe_request (apiKey listId formatted : jsstring)
    (data : SubscribeRequest) (signup_date : jsstring) : web_request :=
  {| web_method := POST_;
     web_url :=
       lit "https://a.klaviyo.com/api/profile-subscription-bulk-create-jobs";
     web_headers := api_headers apiKey;
     web_body := Some (subscribePayload listId formatted data signup_date) |}.

(** [data.phone.replace(...)...] (lines 509-514) *)
Definition format_phone_field (x : option jsstring) : task jsstring :=
  match x with
  | Some p => ret (formattedPhone p)
  | None => raise (type_error JUndefined (lit "replace"))
  end.

(** Lines 533-596: what follows the configuration check. *)
Definition subscribe (apiKey listId formatted : jsstring)
    (data : SubscribeRequest) : task http_response :=
  signup_date <- date_now ;;
  response <-
    web_fetch (subscribe_request apiKey listId formatted data signup_date) ;;
  if negb (web_ok response) then
    let errorText := web_text response in
    print_error [ LStr (lit "Klaviyo subscription failed:"); LStr errorText ] ;;
    raise (JsError (lit "Failed to subscribe"))
  else
    ret (json_response 200
           (JObj [ prop "success" (JBool true);
                   prop "message"
                     (str "Successfully subscribed to the wait list!") ])).

(** The [try] block (lines 478-596). *)
Definition POST_try (env : environment) (request : inbound)
  : task http_response :=
  data <- attempt (request_json request) ;;
  if falsy (firstName data) || falsy (phone data) || falsy (postcode data)
  then ret (json_response 400
              (JObj [ prop "success" (JBool false);
                      prop "error" (str "Missing required fields") ]))
  else if negb (test_four_digits (to_string (postcode data)))
  then ret (json_response 400
              (JObj [ prop "success" (JBool false);
                      prop "error" (str "Invalid postcode format") ]))
  else
    formatted <- format_phone_field (phone data) ;;
    let apiKey := KLAVIYO_API_KEY env in
    let listId := KLAVIYO_LIST_ID env in
    if falsy apiKey || falsy listId then
      print_error [ LStr (lit "Missing Klaviyo configuration") ] ;;
      ret (json_response 500
             (JObj [ prop "success" (JBool false);
                     prop "error" (str "Server configuration error") ]))
    else
      subscribe (to_string apiKey) (to_string listId) formatted data.

(** The [catch] block (lines 598-610). *)
Definition POST_catch (error : exn) : task http_response :=
  print_error [ LStr (lit "Subscribe error:"); LExn error ] ;;
  ret (json_response 500
         (JObj [ prop "success" (JBool false);
                 prop "error" (str "An error occurred. Please try again.") ])).

(** [export const POST: APIRoute = async ({ request }) => { ... }] *)
Definition POST (env : environment) (request : inbound)
  : task http_response :=
  catch (POST_try env request) POST_catch.

(** One invocation: nothing sent, nothing printed; the handler has no
    use of the files. *)
Definition serve (pf : platform) (t : task http_response)
  : completion http_response * machine :=
  exec pf t (fresh (fun _ => None)).

End BulkSubscribe.

(* ===================================================================== *)
(** ** The preview-image script
       (src/scripts/generate-og-image.mjs, lines 1-464) *)
(* ===================================================================== *)

Module OgImage.

Import Runtime.

(** The tree handed to the renderer: strings, decimal numbers
    ([NNumber 105 2] is [1.05]), arrays and objects. *)
#[warnings="-register-all"]
Inductive node : Type :=
| NText (s : jsstring)
| NNumber (unscaled : Z) (decimals : nat)
| NList (items : list node)
| NRecord (fields : list (jsstring * node)).

Definition ntext (s : string) : node := NText (lit s).

Definition field (k : string) (v : node) : jsstring * node := (lit k, v).

(** [WIDTH], [HEIGHT] (lines 19-20) *)
Definition WIDTH : Z := 1200.
Definition HEIGHT : Z := 630.

(** [colors] (lines 23-29) *)
Module colors.
Definition forest : jsstring := lit "#2d3b2d".
Definition sage : jsstring := lit "#5a7247".
Definition mint : jsstring := lit "#7fd4b5".
Definition cream : jsstring := lit "#faf9f6".
Definition warm : jsstring := lit "#8b6914".
End colors.

(** A font handed to the renderer (lines 62-64). *)
Record font : Type := {
  font_name : jsstring;
  font_data : bytes;
  font_weight : Z;
  font_style : jsstring
}.

(** A font to download (lines 432-448). *)
Record font_source : Type := {
  url : jsstring;
  filename : jsstring
}.

(** The element of lines 86-384. *)
Definition og_card (backgroundBase64 : jsstring) : node :=
  NRecord [
    field "type" (ntext "div");
    field "props"
      (NRecord [
        field "style"
          (NRecord [
            field "width" (ntext "100%");
            field "height" (ntext "100%");
            field "display" (ntext "flex");
            field "flexDirection" (ntext "column");
            field "position" (ntext "relative") ]);
        field "children"
          (NList [
            NRecord [
              field "type" (ntext "img");
              field "props"
                (NRecord [
                  field "src" (NText backgroundBase64);
                  field "style"
                    (NRecord [
                      field "position" (ntext "absolute");
                      field "top" (NNumber 0 0);
                      field "left" (NNumber 0 0);
                      field "width" (ntext "100%");
                      field "height" (ntext "100%");
                      field "objectFit" (ntext "cover") ]) ]) ];
            NRecord [
              field "type" (ntext "div");
              field "props"
                (NRecord [
                  field "style"
                    (NRecord [
                      field "position" (ntext "absolute");
                      field "top" (NNumber 0 0);
                      field "left" (NNumber 0 0);
                      field "right" (NNumber 0 0);
                      field "bottom" (NNumber 0 0);
                      field "background" (ntext "linear-gradient(135deg, rgba(45, 59, 45, 0.85) 0%, rgba(90, 114, 71, 0.75) 50%, rgba(45, 59, 45, 0.85) 100%)") ]) ]) ];
            NRecord [
              field "type" (ntext "div");
              field "props"
                (NRecord [
                  field "style"
                    (NRecord [
                      field "position" (ntext "relative");
                      field "display" (ntext "flex");
                      field "flexDirection" (ntext "column");
                      field "justifyContent" (ntext "center");
                      field "alignItems" (ntext "flex-start");
                      field "height" (ntext "100%");
                      field "padding" (ntext "60px 80px") ]);
                  field "children"
                    (NList [
                      NRecord [
                        field "type" (ntext "div");
                        field "props"
                          (NRecord [
                            field "style"
                              (NRecord [
                                field "display" (ntext "flex");
                                field "alignItems" (ntext "center");
                                field "gap" (ntext "10px");
                                field "backgroundColor" (ntext "rgba(127, 212, 181, 0.2)");
                                field "border" (ntext "2px solid rgba(127, 212, 181, 0.4)");
                                field "padding" (ntext "12px 24px");
                                field "borderRadius" (ntext "50px");
                                field "marginBottom" (ntext "28px") ]);
                            field "children"
                              (NList [
                                NRecord [
                                  field "type" (ntext "span");
                                  field "props"
                                    (NRecord [
                                      field "style"
                                        (NRecord [
                                          field "color" (NText colors.mint);
                                          field "fontSize" (ntext "22px");
                                          field "fontFamily" (ntext "Source Sans 3");
                                          field "fontWeight" (NNumber 600 0);
                                          field "letterSpacing" (ntext "0.05em") ]);
                                      field "children" (NText ([9733%N] ++ lit " PASTURE-RAISED MURRAY GREY BEEF")) ]) ] ]) ]) ];
                      NRecord [
                        field "type" (ntext "div");
                        field "props"
                          (NRecord [
                            field "style"
                              (NRecord [
                                field "fontFamily" (ntext "Cormorant Garamond");
                                field "fontSize" (ntext "96px");
                                field "fontWeight" (NNumber 600 0);
                                field "color" (NText colors.cream);
                                field "lineHeight" (NNumber 105 2);
                                field "marginBottom" (ntext "24px");
                                field "maxWidth" (ntext "950px") ]);
                            field "children" (ntext "Ferguson Livestock") ]) ];
                      NRecord [
                        field "type" (ntext "div");
                        field "props"
                          (NRecord [
                            field "style"
                              (NRecord [
                                field "fontFamily" (ntext "Source Sans 3");
                                field "fontSize" (ntext "36px");
                                field "fontWeight" (NNumber 400 0);
                                field "color" (ntext "rgba(250, 249, 246, 0.9)");
                                field "lineHeight" (NNumber 135 2);
                                field "maxWidth" (ntext "800px");
                                field "marginBottom" (ntext "40px") ]);
                            field "children" (ntext "Premium beef boxes delivered direct from our family farm in Snake Valley, Victoria") ]) ];
                      NRecord [
                        field "type" (ntext "div");
                        field "props"
                          (NRecord [
                            field "style"
                              (NRecord [
                                field "display" (ntext "flex");
                                field "gap" (ntext "40px") ]);
                            field "children"
                              (NList [
                                NRecord [
                                  field "type" (ntext "div");
                                  field "props"
                                    (NRecord [
                                      field "style"
                                        (NRecord [
                                          field "display" (ntext "flex");
                                          field "alignItems" (ntext "center");
                                          field "gap" (ntext "10px") ]);
                                      field "children"
                                        (NList [
                                          NRecord [
                                            field "type" (ntext "span");
                                            field "props"
                                              (NRecord [
                                                field "style"
                                                  (NRecord [
                                                    field "color" (NText colors.mint);
                                                    field "fontSize" (ntext "28px") ]);
                                                field "children" (NText ([10003%N])) ]) ];
                                          NRecord [
                                            field "type" (ntext "span");
                                            field "props"
                                              (NRecord [
                                                field "style"
                                                  (NRecord [
                                                    field "color" (NText colors.cream);
                                                    field "fontFamily" (ntext "Source Sans 3");
                                                    field "fontSize" (ntext "24px");
                                                    field "fontWeight" (NNumber 400 0) ]);
                                                field "children" (ntext "Pasture-Raised") ]) ] ]) ]) ];
                                NRecord [
                                  field "type" (ntext "div");
                                  field "props"
                                    (NRecord [
                                      field "style"
                                        (NRecord [
                                          field "display" (ntext "flex");
                                          field "alignItems" (ntext "center");
                                          field "gap" (ntext "10px") ]);
                                      field "children"
                                        (NList [
                                          NRecord [
                                            field "type" (ntext "span");
                                            field "props"
                                              (NRecord [
                                                field "style"
                                                  (NRecord [
                                                    field "color" (NText colors.mint);
                                                    field "fontSize" (ntext "28px") ]);
                                                field "children" (NText ([10003%N])) ]) ];
                                          NRecord [
                                            field "type" (ntext "span");
                                            field "props"
                                              (NRecord [
                                                field "style"
                                                  (NRecord [
                                                    field "color" (NText colors.cream);
                                                    field "fontFamily" (ntext "Source Sans 3");
                                                    field "fontSize" (ntext "24px");
                                                    field "fontWeight" (NNumber 400 0) ]);
                                                field "children" (ntext "No Hormones") ]) ] ]) ]) ];
                                NRecord [
                                  field "type" (ntext "div");
                                  field "props"
                                    (NRecord [
                                      field "style"
                                        (NRecord [
                                          field "display" (ntext "flex");
                                          field "alignItems" (ntext "center");
                                          field "gap" (ntext "10px") ]);
                                      field "children"
                                        (NList [
                                          NRecord [
                                            field "type" (ntext "span");
                                            field "props"
                                              (NRecord [
                                                field "style"
                                                  (NRecord [
                                                    field "color" (NText colors.mint);
                                                    field "fontSize" (ntext "28px") ]);
                                                field "children" (NText ([10003%N])) ]) ];
                                          NRecord [
                                            field "type" (ntext "span");
                                            field "props"
                                              (NRecord [
                                                field "style"
                                                  (NRecord [
                                                    field "color" (NText colors.cream);
                                                    field "fontFamily" (ntext "Source Sans 3");
                                                    field "fontSize" (ntext "24px");
                                                    field "fontWeight" (NNumber 400 0) ]);
                                                field "children" (ntext "Family Farm") ]) ] ]) ]) ];
                                NRecord [
                                  field "type" (ntext "div");
                                  field "props"
                                    (NRecord [
                                      field "style"
                                        (NRecord [
                                          field "display" (ntext "flex");
                                          field "alignItems" (ntext "center");
                                          field "gap" (ntext "10px") ]);
                                      field "children"
                                        (NList [
                                          NRecord [
                                            field "type" (ntext "span");
                                            field "props"
                                              (NRecord [
                                                field "style"
                                                  (NRecord [
                                                    field "color" (NText colors.mint);
                                                    field "fontSize" (ntext "28px") ]);
                                                field "children" (NText ([10003%N])) ]) ];
                                          NRecord [
                                            field "type" (ntext "span");
                                            field "props"
                                              (NRecord [
                                                field "style"
                                                  (NRecord [
                                                    field "color" (NText colors.cream);
                                                    field "fontFamily" (ntext "Source Sans 3");
                                                    field "fontSize" (ntext "24px");
                                                    field "fontWeight" (NNumber 400 0) ]);
                                                field "children" (ntext "Free Delivery") ]) ] ]) ]) ] ]) ]) ] ]) ]) ];
            NRecord [
              field "type" (ntext "div");
              field "props"
                (NRecord [
                  field "style"
                    (NRecord [
                      field "position" (ntext "absolute");
                      field "bottom" (ntext "36px");
                      field "right" (ntext "70px");
                      field "display" (ntext "flex");
                      field "alignItems" (ntext "center");
                      field "gap" (ntext "12px") ]);
                  field "children"
                    (NList [
                      NRecord [
                        field "type" (ntext "span");
                        field "props"
                          (NRecord [
                            field "style"
                              (NRecord [
                                field "color" (ntext "rgba(250, 249, 246, 0.8)");
                                field "fontFamily" (ntext "Source Sans 3");
                                field "fontSize" (ntext "24px");
                                field "fontWeight" (NNumber 400 0) ]);
                            field "children" (ntext "fergusonlivestock.com.au") ]) ] ]) ]) ] ]) ]) ].

(** The fonts of the download loop (lines 432-448). *)
Definition font_sources : list font_source :=
  [ {| url := lit "https://cdn.jsdelivr.net/fontsource/fonts/source-sans-3@latest/latin-400-normal.ttf";
       filename := lit "SourceSans3-Regular.ttf" |};
    {| url := lit "https://cdn.jsdelivr.net/fontsource/fonts/source-sans-3@latest/latin-700-normal.ttf";
       filename := lit "SourceSans3-Bold.ttf" |};
    {| url := lit "https://cdn.jsdelivr.net/fontsource/fonts/cormorant-garamond@latest/latin-600-normal.ttf";
       filename := lit "CormorantGaramond-SemiBold.ttf" |} ].

(** The body of the loop (lines 451-457). *)
Definition download_one (fontsDir : path) (f : font_source) : task unit :=
  print_log [ LStr ([55357%N; 56549%N] ++ lit " Downloading " ++ filename f
                    ++ lit "...") ] ;;
  response <- web_fetch (get (url f)) ;;
  if negb (web_ok response) then
    raise (JsError (lit "Failed to download " ++ filename f ++ lit ": "
                    ++ decimal (web_status response)))
  else
    let buffer := web_bytes response in
    writeFile (join fontsDir (filename f)) buffer.

(** [for (const font of fonts) { ... }] (lines 450-458) *)
Fixpoint download_each (fontsDir : path) (fonts : list font_source)
  : task unit :=
  match fonts with
  | [] => ret tt
  | f :: rest => download_one fontsDir f ;; download_each fontsDir rest
  end.

Section Script.

(** [__dirname]: the directory of the script. *)
Variable dirname : path.

(** The rendering libraries, each a function of its input that may
    throw: [sharp(input).resize(w, h, {fit: 'cover', position:
    'center'}).png().toBuffer()], [buffer.toString('base64')],
    [satori(element, {width, height, fonts})],
    [new Resvg(svg, {fitTo: {mode: 'width', value}}).render().asPng()]
    and [sharp(input).jpeg({quality}).toBuffer()]. *)
Variable sharp_cover_png : Z -> Z -> bytes -> completion bytes.
Variable base64 : bytes -> jsstring.
Variable satori : node -> Z -> Z -> list font -> completion jsstring.
Variable resvg_png : jsstring -> Z -> completion bytes.
Variable sharp_jpeg : Z -> bytes -> completion bytes.

(** [rootDir] (line 16) *)
Definition rootDir : path := join dirname (lit "..").

(** [downloadFonts] (lines 420-461) *)
Definition downloadFonts : task unit :=
  let fontsDir := join rootDir (lit "scripts/fonts") in
  catch (mkdir fontsDir) (fun _ => ret tt) ;;
  download_each fontsDir font_sources ;;
  print_log [ LStr ([9989%N] ++ lit " Fonts downloaded") ].

Definition fontRegularPath : path :=
  join rootDir (lit "scripts/fonts/SourceSans3-Regular.ttf").
Definition fontBoldPath : path :=
  join rootDir (lit "scripts/fonts/SourceSans3-Bold.ttf").
Definition fontDisplayPath : path :=
  join rootDir (lit "scripts/fonts/CormorantGaramond-SemiBold.ttf").

(** The three reads of lines 55-59 and 71-75 and the fonts made of
    them (lines 61-65 and 77-81). *)
Definition load_fonts : task (list font) :=
  contents <- readFiles [fontRegularPath; fontBoldPath; fontDisplayPath] ;;
  let fontRegular := nth 0 contents [] in
  let fontBold := nth 1 contents [] in
  let fontDisplay := nth 2 contents [] in
  ret [ {| font_name := lit "Source Sans 3"; font_data := fontRegular;
           font_weight := 400; font_style := lit "normal" |};
        {| font_name := lit "Source Sans 3"; font_data := fontBold;
           font_weight := 700; font_style := lit "normal" |};
        {| font_name := lit "Cormorant Garamond"; font_data := fontDisplay;
           font_weight := 600; font_style := lit "normal" |} ].

Definition backgroundImagePath : path :=
  join rootDir (lit "src/assets/images/cows-1.webp").

Definition outputPath : path := join rootDir (lit "public/og-image.jpg").

(** [generateOGImage] (lines 31-418) *)
Definition generateOGImage : task unit :=
  print_log [ LStr ([55357%N; 56764%N; 65039%N]
                    ++ lit "  Generating OG image...") ] ;;
  backgroundBuffer <- readFile backgroundImagePath ;;
  pngBuffer <- attempt (sharp_cover_png WIDTH HEIGHT backgroundBuffer) ;;
  let backgroundBase64 := lit "data:image/png;base64," ++ base64 pngBuffer in
  fonts <-
    catch load_fonts
      (fun _ =>
         print_log [ LStr ([9888%N; 65039%N]
                           ++ lit "  Custom fonts not found, downloading...") ] ;;
         downloadFonts ;;
         load_fonts) ;;
  svg <- attempt (satori (og_card backgroundBase64) WIDTH HEIGHT fonts) ;;
  print_log [ LStr ([9989%N] ++ lit " SVG generated") ] ;;
  pngOutputBuffer <- attempt (resvg_png svg WIDTH) ;;
  print_log [ LStr ([9989%N] ++ lit " PNG rendered") ] ;;
  jpegBuffer <- attempt (sharp_jpeg 90 pngOutputBuffer) ;;
  writeFile outputPath jpegBuffer ;;
  print_log [ LStr ([9989%N] ++ lit " OG image saved to: "
                    ++ render outputPath) ] ;;
  print_log [ LStr ([55357%N; 56528%N] ++ lit " Dimensions: " ++ decimal WIDTH
                    ++ lit "x" ++ decimal HEIGHT ++ lit "px") ].

(** [generateOGImage().catch(console.error)] (line 464) *)
Definition main : task unit :=
  catch generateOGImage (fun e => print_error [ LExn e ]).

End Script.

End OgImage.

(* ===================================================================== *)
(** ** The vocabulary of the script's traces *)
(* ===================================================================== *)

Module Traces.

Import Runtime.

(** The machine after the request for a font was sent and announced:
    one more request, one more line, the files as they were. *)
Definition after_request (m : machine) (f : OgImage.font_source) : machine :=
  {| files := files m;
     requested := requested m ++ [get (OgImage.url f)];
     printed :=
       printed m ++
       [ (LogInfo, [ LStr ([55357%N; 56549%N] ++ lit " Downloading "
                           ++ OgImage.filename f ++ lit "...") ]) ];
     dates := dates m;
     made := made m |}.

(** Where the loop writes a font. *)
Definition target (fontsDir : path) (f : OgImage.font_source) : path :=
  join fontsDir (OgImage.filename f).

(** The request for a font. *)
Definition request_for (f : OgImage.font_source) : web_request :=
  get (OgImage.url f).

(** The four paths the script writes to. *)
Definition script_targets (dirname : path) : list path :=
  [ OgImage.fontRegularPath dirname; OgImage.fontBoldPath dirname;
    OgImage.fontDisplayPath dirname; OgImage.outputPath dirname ].

(** The fonts handed to the renderer, given their data. *)
Definition fonts_with (regular bold display : bytes) : list OgImage.font :=
  [ {| OgImage.font_name := lit "Source Sans 3";
       OgImage.font_data := regular;
       OgImage.font_weight := 400;
       OgImage.font_style := lit "normal" |};
    {| OgImage.font_name := lit "Source Sans 3";
       OgImage.font_data := bold;
       OgImage.font_weight := 700;
       OgImage.font_style := lit "normal" |};
    {| OgImage.font_name := lit "Cormorant Garamond";
       OgImage.font_data := display;
       OgImage.font_weight := 600;
       OgImage.font_style := lit "normal" |} ].

End Traces.

(* ===================================================================== *)
(** ** Sample platforms and file systems *)
(* ===================================================================== *)

Module MoreSamples.

Import Runtime.

(** A configuration without the private key. *)
Definition public_only : environment :=
  {| KLAVIYO_PUBLIC_API_KEY := Some (lit "pk_sample");
     KLAVIYO_API_KEY := None;
     KLAVIYO_LIST_ID := Some (lit "LIST01") |}.

(** The answers of the successive requests, the network being out of
    reach afterwards. *)
Fixpoint replies (outcomes : list web_outcome) (n : nat) : web_outcome :=
  match n, outcomes with
  | 1, o :: _ => o
  | S n', _ :: rest => replies rest n'
  | _, _ => Unreachable (JsError (lit "fetch failed"))
  end.

Definition enoent (p : path) : exn :=
  JsError (lit "ENOENT: no such file or directory, open '" ++ render p
           ++ lit "'").

(** A platform on which directories can be made and files written. *)
Definition platform_of (outcomes : list web_outcome) : platform :=
  {| time := Samples.midnight;
     web := fun sent => replies outcomes (List.length sent);
     missing := enoent;
     first_rejection := fun errors => hd (JsError []) errors;
     mkdir_error := fun _ => None;
     write_error := fun _ => None |}.

Definition job_accepted : web_response :=
  {| web_status := 202; web_bytes := []; web_text := [] |}.

Definition throttled : web_response :=
  {| web_status := 429; web_bytes := []; web_text := lit "throttled" |}.

Definition font_file (b : Byte.byte) : web_response :=
  {| web_status := 200; web_bytes := [b; b]; web_text := [] |}.

Definition gone : web_response :=
  {| web_status := 404; web_bytes := []; web_text := lit "Not Found" |}.

(** Where the script lives, and a checkout that holds the background
    image and no font. *)
Definition scripts_dir : path := [lit "site"; lit "scripts"].

Definition checkout : path -> option bytes :=
  written (fun _ => None)
          [lit "site"; lit "src"; lit "assets"; lit "images"; lit "cows-1.webp"]
          [Byte.x52; Byte.x49; Byte.x46; Byte.x46].

(** Stand-ins for the rendering libraries: each keeps its input
    recognisable. *)
Definition cover_png (w h : Z) (input : bytes) : completion bytes :=
  Normal (Byte.x89 :: input).

Definition as_base64 (input : bytes) : jsstring :=
  map (fun b => N_of_ascii (Ascii.ascii_of_byte b)) input.

Definition render_svg (element : OgImage.node) (w h : Z)
    (fonts : list OgImage.font) : completion jsstring :=
  Normal (lit "<svg>"
          ++ List.concat (map (fun f => as_base64 (OgImage.font_data f)) fonts)
          ++ lit "</svg>").

Definition svg_to_png (svg : jsstring) (w : Z) : completion bytes :=
  Normal (map (fun c => Ascii.byte_of_ascii (ascii_of_N c)) svg).

Definition to_jpeg (quality : Z) (input : bytes) : completion bytes :=
  Normal (Byte.xff :: Byte.xd8 :: input).

End MoreSamples.

(* ===================================================================== *)
(** * Properties *)
(* ===================================================================== *)

(** ** Strings and the phone normalisation *)

Section PhoneFacts.

Lemma space_is_not_kept (c : N) :
  is_space c = true -> PhoneSpec.keep c = false.
Proof.
  unfold is_space, PhoneSpec.keep, is_digit.
  repeat rewrite orb_true_iff. repeat rewrite andb_true_iff.
  repeat rewrite N.leb_le. repeat rewrite N.eqb_eq.
  intros H.
  apply orb_false_iff; split.
  - apply andb_false_iff.
    destruct (N.leb_spec 48 c); [right | left; reflexivity].
    apply N.leb_gt. lia.
  - apply N.eqb_neq. lia.
Qed.

Lemma not_digit_or_plus_keep (c : N) :
  negb (is_not_digit_or_plus c) = PhoneSpec.keep c.
Proof.
  unfold is_not_digit_or_plus, PhoneSpec.keep. apply negb_involutive.
Qed.

(** The two replacements of the source together keep exactly the
    digits and the plus signs: the first one is subsumed. *)
Lemma stripped_is_strip (phone : jsstring) :
  stripped phone = PhoneSpec.strip phone.
Proof.
  unfold stripped, delete_class, PhoneSpec.strip.
  induction phone as [| c rest IH]; simpl; [reflexivity |].
  destruct (is_space c) eqn:Hsp; simpl.
  - rewrite (space_is_not_kept c Hsp). exact IH.
  - rewrite not_digit_or_plus_keep.
    destruct (PhoneSpec.keep c); [f_equal |]; exact IH.
Qed.

Lemma formattedPhone_cases (phone : jsstring) :
  formattedPhone phone =
  match stripped phone with
  | [] => lit "+61"
  | c :: rest =>
      if (c =? 48)%N then lit "+61" ++ rest
      else if (c =? 43)%N then c :: rest
      else lit "+61" ++ c :: rest
  end.
Proof.
  unfold formattedPhone.
  destruct (stripped phone) as [| c rest]; [reflexivity |].
  change (lit "0") with [48%N]. change (lit "+") with [43%N].
  cbn [startsWith slice skipn].
  rewrite !andb_true_r, (N.eqb_sym 48 c), (N.eqb_sym 43 c).
  destruct (c =? 48)%N; [reflexivity |].
  destruct (c =? 43)%N; reflexivity.
Qed.

End PhoneFacts.

(** C2: for every phone string the normalisation of the handlers is the
    one the specification words: whitespace and every code unit other
    than a decimal digit or a plus sign are dropped; then a leading [0]
    is replaced by [+61], a result without leading [+] is prefixed with
    [+61], and a result with a leading [+] is kept as it is.  In
    particular "0412 345 678" gives "+61412345678", "+61412345678" is
    unchanged and "412345678" gives "+61412345678". *)
Theorem C2_phone_normalisation :
  (forall phone, stripped phone = PhoneSpec.strip phone)
  /\ (forall phone, formattedPhone phone = PhoneSpec.normalize phone)
  /\ formattedPhone (lit "0412 345 678") = lit "+61412345678"
  /\ formattedPhone (lit "+61412345678") = lit "+61412345678"
  /\ formattedPhone (lit "412345678") = lit "+61412345678".
Proof.
  split; [exact stripped_is_strip |].
  split; [| repeat split; reflexivity].
  intros phone. rewrite formattedPhone_cases, stripped_is_strip.
  reflexivity.
Qed.

(** C9: for every input string the normalised phone begins with the
    plus sign, and an input that strips to the empty string gives
    "+61". *)
Theorem C9_normalised_phone_starts_with_plus :
  (forall phone, startsWith (lit "+") (formattedPhone phone) = true)
  /\ (forall phone, stripped phone = [] -> formattedPhone phone = lit "+61").
Proof.
  split; intros phone.
  - rewrite formattedPhone_cases.
    destruct (stripped phone) as [| c rest]; [reflexivity |].
    destruct (c =? 48)%N; [reflexivity |].
    destruct (N.eqb_spec c 43) as [-> | _]; reflexivity.
  - intros H. rewrite formattedPhone_cases, H. reflexivity.
Qed.

Lemma C9_witness :
  stripped (lit "(n/a) ") = []
  /\ formattedPhone (lit "(n/a) ") = lit "+61"
  /\ startsWith (lit "+") (formattedPhone (lit "(n/a) ")) = true.
Proof.
  split; [reflexivity |].
  split.
  - apply (proj2 C9_normalised_phone_starts_with_plus). reflexivity.
  - apply (proj1 C9_normalised_phone_starts_with_plus).
Defined.

(** ** Running programs *)

Section RunFacts.

Context {A B : Type} (w : world).

(** A run of [p ;; f] is a run of [p] followed, unless [p] throws, by
    a run of [f]. *)
Lemma run_bind (p : prog A) (f : A -> prog B) (fx : effects) :
  run w (bind p f) fx =
  match run w p fx with
  | (Normal a, fx') => run w (f a) fx'
  | (Abrupt e, fx') => (Abrupt e, fx')
  end.
Proof.
  revert fx. induction p as [a | e | rq k IH | k IH | ms k IH | lvl args k IH];
    intros fx; cbn; try reflexivity.
  - apply IH.
  - apply IH.
  - apply IH.
  - apply IH.
Qed.

(** A run of [try { p } catch (e) { h e }] is a run of [p] followed,
    when [p] throws, by a run of the handler. *)
Lemma run_catch (p : prog A) (h : exn -> prog A) (fx : effects) :
  run w (catch p h) fx =
  match run w p fx with
  | (Normal a, fx') => (Normal a, fx')
  | (Abrupt e, fx') => run w (h e) fx'
  end.
Proof.
  revert fx. induction p as [a | e | rq k IH | k IH | ms k IH | lvl args k IH];
    intros fx; cbn; try reflexivity.
  - apply IH.
  - apply IH.
  - apply IH.
  - apply IH.
Qed.

End RunFacts.

(** ** The validation stage *)

Section ValidationFacts.

Lemma falsy_iff (x : option jsstring) :
  falsy x = true <-> absent_or_empty x.
Proof.
  unfold absent_or_empty.
  destruct x as [[| c s] |]; simpl; split; intros H;
    try reflexivity; try discriminate; auto.
  destruct H; discriminate.
Qed.

Lemma present_not_falsy (x : option jsstring) :
  present x -> falsy x = false.
Proof.
  intros (s & -> & Hs). destruct s; [contradiction | reflexivity].
Qed.

Lemma not_falsy_present (x : option jsstring) :
  falsy x = false -> present x.
Proof.
  destruct x as [[| c s] |]; simpl; try discriminate.
  intros _. exists (c :: s). split; [reflexivity | discriminate].
Qed.

Lemma is_digit_iff (c : N) : is_digit c = true <-> decimal_digit c.
Proof.
  unfold is_digit, decimal_digit.
  rewrite andb_true_iff, !N.leb_le. reflexivity.
Qed.

Lemma test_four_digits_iff (s : jsstring) :
  test_four_digits s = true <-> four_decimal_digits s.
Proof.
  unfold test_four_digits, four_decimal_digits. split.
  - intros H. apply andb_true_iff in H. destruct H as [Hlen Hall].
    apply Nat.eqb_eq in Hlen.
    destruct s as [| a [| b [| c [| d [| x s]]]]]; try discriminate.
    simpl in Hall. rewrite !andb_true_iff, !is_digit_iff in Hall.
    exists a, b, c, d. tauto.
  - intros (a & b & c & d & -> & Ha & Hb & Hc & Hd).
    apply is_digit_iff in Ha, Hb, Hc, Hd.
    simpl. rewrite Ha, Hb, Hc, Hd. reflexivity.
Qed.

Lemma missing_required_iff (data : SubscribeRequest) :
  falsy (firstName data) || falsy (phone data) || falsy (postcode data)
  = true <-> missing_required data.
Proof.
  unfold missing_required. rewrite !orb_true_iff, !falsy_iff. tauto.
Qed.

Lemma all_present_checks (data : SubscribeRequest) :
  all_present data ->
  falsy (firstName data) || falsy (phone data) || falsy (postcode data)
  = false.
Proof.
  intros (Hf & Hp & Hc).
  rewrite (present_not_falsy Hf), (present_not_falsy Hp),
    (present_not_falsy Hc). reflexivity.
Qed.

Lemma all_present_or_missing (data : SubscribeRequest) :
  all_present data \/ missing_required data.
Proof.
  destruct (falsy (firstName data) || falsy (phone data)
            || falsy (postcode data)) eqn:E.
  - right. apply missing_required_iff. exact E.
  - left. apply orb_false_iff in E. destruct E as [E Hc].
    apply orb_false_iff in E. destruct E as [Hf Hp].
    repeat split; apply not_falsy_present; assumption.
Qed.

Lemma postcode_check_iff (data : SubscribeRequest) :
  present (postcode data) ->
  (test_four_digits (to_string (postcode data)) = true
   <-> postcode_well_formed data).
Proof.
  intros (s & Hs & _). unfold postcode_well_formed. rewrite Hs. simpl.
  rewrite test_four_digits_iff. split.
  - intros H. exists s. split; [reflexivity | exact H].
  - intros (s' & Heq & H). injection Heq as ->. exact H.
Qed.

Lemma postcode_check_fails (data : SubscribeRequest) :
  present (postcode data) -> ~ postcode_well_formed data ->
  test_four_digits (to_string (postcode data)) = false.
Proof.
  intros Hp Hn.
  destruct (test_four_digits (to_string (postcode data))) eqn:E;
    [| reflexivity].
  exfalso. apply Hn. apply (postcode_check_iff data Hp). exact E.
Qed.

Lemma valid_checks (data : SubscribeRequest) :
  valid data ->
  exists p,
    phone data = Some p
    /\ falsy (firstName data) || falsy (phone data)
       || falsy (postcode data) = false
    /\ test_four_digits (to_string (postcode data)) = true.
Proof.
  intros (Hall & Hpc).
  destruct Hall as (Hf & (p & Hp & Hne) & Hc).
  exists p. split; [exact Hp |]. split.
  - apply all_present_checks. repeat split; try assumption.
    exists p. split; assumption.
  - apply (postcode_check_iff data Hc). exact Hpc.
Qed.

End ValidationFacts.

(** ** The stages of the two handlers, as equations on programs *)

(** Unfolds the validation stage of a handler on a parsed body. *)
Ltac enter_try Hjson :=
  unfold ProfileUpsert.POST_try, ClientSubscribe.POST_try;
  rewrite Hjson; cbn [eval bind ret Monad_prog pbind].

Section StageFacts.

Variable text_gt_zero : jsval -> bool.
Variables (env : environment) (request : inbound) (data : SubscribeRequest).
Hypothesis Hjson : request_json request = Normal data.

Lemma upsert_try_missing :
  missing_required data ->
  ProfileUpsert.POST_try env request = Ret missing_fields_response.
Proof.
  intros H. apply missing_required_iff in H.
  enter_try Hjson. rewrite H. reflexivity.
Qed.

Lemma client_try_missing :
  missing_required data ->
  ClientSubscribe.POST_try text_gt_zero env request
  = Ret missing_fields_response.
Proof.
  intros H. apply missing_required_iff in H.
  enter_try Hjson. rewrite H. reflexivity.
Qed.

Lemma upsert_try_bad_postcode :
  all_present data -> ~ postcode_well_formed data ->
  ProfileUpsert.POST_try env request = Ret invalid_postcode_response.
Proof.
  intros Hall Hpc. enter_try Hjson.
  rewrite (all_present_checks Hall).
  rewrite (postcode_check_fails (proj2 (proj2 Hall)) Hpc).
  reflexivity.
Qed.

Lemma client_try_bad_postcode :
  all_present data -> ~ postcode_well_formed data ->
  ClientSubscribe.POST_try text_gt_zero env request
  = Ret invalid_postcode_response.
Proof.
  intros Hall Hpc. enter_try Hjson.
  rewrite (all_present_checks Hall).
  rewrite (postcode_check_fails (proj2 (proj2 Hall)) Hpc).
  reflexivity.
Qed.

(** Past the validation stage the handlers are at their
    configuration check. *)
Lemma upsert_try_valid (p : jsstring) :
  valid data -> phone data = Some p ->
  ProfileUpsert.POST_try env request =
  if falsy (KLAVIYO_API_KEY env) || falsy (KLAVIYO_LIST_ID env) then
    console_error [ LStr (lit "Missing Klaviyo configuration") ] ;;
    ret configuration_error_response
  else
    ProfileUpsert.upsert_and_subscribe
      (to_string (KLAVIYO_API_KEY env)) (to_string (KLAVIYO_LIST_ID env))
      (formattedPhone p) data.
Proof.
  intros Hv Hp. destruct (valid_checks Hv) as (p' & Hp' & Hm & Hc).
  enter_try Hjson. rewrite Hm, Hc, Hp. reflexivity.
Qed.

Lemma client_try_valid (p : jsstring) :
  valid data -> phone data = Some p ->
  ClientSubscribe.POST_try text_gt_zero env request =
  if falsy (KLAVIYO_PUBLIC_API_KEY env) || falsy (KLAVIYO_LIST_ID env) then
    console_error [ LStr (lit "Missing Klaviyo configuration") ] ;;
    ret configuration_error_response
  else
    ClientSubscribe.subscribe_and_verify text_gt_zero
      (to_string (KLAVIYO_PUBLIC_API_KEY env)) (KLAVIYO_API_KEY env)
      (to_string (KLAVIYO_LIST_ID env)) (formattedPhone p) data.
Proof.
  intros Hv Hp. destruct (valid_checks Hv) as (p' & Hp' & Hm & Hc).
  enter_try Hjson. rewrite Hm, Hc, Hp. reflexivity.
Qed.

End StageFacts.

(** ** The validation stage of the endpoints *)

(** C6: for every submission in which one of [firstName], [phone],
    [postcode] is absent or is the empty string, the endpoint (either
    handler) answers HTTP 400 with the body
    [{success: false, error: "Missing required fields"}]; nothing is
    called and nothing is logged. *)
Theorem C6_missing_fields_rejected (text_gt_zero : jsval -> bool)
    (w : world) (env : environment) (request : inbound)
    (data : SubscribeRequest) :
  request_json request = Normal data ->
  missing_required data ->
  let answer :=
    {| resp_status := 400;
       resp_headers := [(lit "Content-Type", lit "application/json")];
       resp_body := JObj [ (lit "success", JBool false);
                           (lit "error", JStr (lit "Missing required fields")) ] |}
  in
  invoke w (ProfileUpsert.POST env request) = (Normal answer, no_effects)
  /\ invoke w (ClientSubscribe.POST text_gt_zero env request)
     = (Normal answer, no_effects).
Proof.
  intros Hjson Hmiss answer. split.
  - unfold ProfileUpsert.POST.
    rewrite (upsert_try_missing env request Hjson Hmiss). reflexivity.
  - unfold ClientSubscribe.POST.
    rewrite (client_try_missing text_gt_zero env request Hjson Hmiss).
    reflexivity.
Qed.

Lemma C6_witness :
  missing_required Samples.nameless
  /\ fst (invoke (Samples.world_of [])
            (ProfileUpsert.POST Samples.configured
               (Samples.carrying Samples.nameless)))
     = Normal missing_fields_response.
Proof.
  assert (Hmiss : missing_required Samples.nameless)
    by (left; left; reflexivity).
  split; [exact Hmiss |].
  rewrite (proj1 (@C6_missing_fields_rejected Samples.no_coercion
                    (Samples.world_of []) Samples.configured
                    (Samples.carrying Samples.nameless) Samples.nameless
                    eq_refl Hmiss)).
  reflexivity.
Defined.

Section AnswerFacts.

Variable text_gt_zero : jsval -> bool.
Variable w : world.

Lemma run_bind_normal {A B : Type} (p : prog A) (f : A -> prog B)
    (fx fx' : effects) (b : B) :
  run w (bind p f) fx = (Normal b, fx') ->
  exists a fx1,
    run w p fx = (Normal a, fx1) /\ run w (f a) fx1 = (Normal b, fx').
Proof.
  rewrite run_bind. destruct (run w p fx) as [[a | e] fx1]; intros H.
  - exists a, fx1. split; [reflexivity | exact H].
  - discriminate.
Qed.

(** Peels the statements of a block off a run that ends normally. *)
Ltac to_last_statement H :=
  repeat (apply run_bind_normal in H; destruct H as (? & ? & _ & H)).

(** Whenever the upsert stage ends without throwing, the answer is
    the success answer. *)
Lemma upsert_and_subscribe_normal (apiKey listId formatted : jsstring)
    (data : SubscribeRequest) (fx fx' : effects) (r : http_response) :
  run w (ProfileUpsert.upsert_and_subscribe apiKey listId formatted data) fx
  = (Normal r, fx') ->
  r = subscribed_response.
Proof.
  unfold ProfileUpsert.upsert_and_subscribe, ProfileUpsert.add_to_list.
  intros H. to_last_statement H. cbn in H. congruence.
Qed.

Lemma subscribe_and_verify_normal (publicApiKey : jsstring)
    (privateApiKey : option jsstring) (listId formatted : jsstring)
    (data : SubscribeRequest) (fx fx' : effects) (r : http_response) :
  run w (ClientSubscribe.subscribe_and_verify text_gt_zero publicApiKey
           privateApiKey listId formatted data) fx
  = (Normal r, fx') ->
  r = subscribed_response.
Proof.
  unfold ClientSubscribe.subscribe_and_verify.
  intros H. to_last_statement H. cbn in H. congruence.
Qed.

Variables (env : environment) (request : inbound) (data : SubscribeRequest).
Hypothesis Hjson : request_json request = Normal data.

(** A valid submission is answered with 200 or with 500. *)
Lemma upsert_valid_status :
  valid data ->
  exists r fx,
    invoke w (ProfileUpsert.POST env request) = (Normal r, fx)
    /\ (resp_status r = 200 \/ resp_status r = 500)%Z.
Proof.
  intros Hv. destruct (valid_checks Hv) as (p & Hp & _ & _).
  unfold invoke, ProfileUpsert.POST. rewrite run_catch.
  rewrite (upsert_try_valid env request Hjson Hv Hp).
  destruct (falsy (KLAVIYO_API_KEY env) || falsy (KLAVIYO_LIST_ID env)).
  - cbn. eexists _, _. split; [reflexivity | right; reflexivity].
  - destruct (run w (ProfileUpsert.upsert_and_subscribe _ _ _ _) no_effects)
      as [[r | e] fx] eqn:E.
    + apply upsert_and_subscribe_normal in E. subst r.
      eexists _, _. split; [reflexivity | left; reflexivity].
    + cbn. eexists _, _. split; [reflexivity | right; reflexivity].
Qed.

Lemma client_valid_status :
  valid data ->
  exists r fx,
    invoke w (ClientSubscribe.POST text_gt_zero env request) = (Normal r, fx)
    /\ (resp_status r = 200 \/ resp_status r = 500)%Z.
Proof.
  intros Hv. destruct (valid_checks Hv) as (p & Hp & _ & _).
  unfold invoke, ClientSubscribe.POST. rewrite run_catch.
  rewrite (client_try_valid text_gt_zero env request Hjson Hv Hp).
  destruct (falsy (KLAVIYO_PUBLIC_API_KEY env)
            || falsy (KLAVIYO_LIST_ID env)).
  - cbn. eexists _, _. split; [reflexivity | right; reflexivity].
  - destruct (run w (ClientSubscribe.subscribe_and_verify _ _ _ _ _ _)
                no_effects) as [[r | e] fx] eqn:E.
    + apply subscribe_and_verify_normal in E. subst r.
      eexists _, _. split; [reflexivity | left; reflexivity].
    + cbn. eexists _, _. split; [reflexivity | right; reflexivity].
Qed.

End AnswerFacts.

Lemma validation_cases (data : SubscribeRequest) :
  missing_required data
  \/ (all_present data /\ ~ postcode_well_formed data)
  \/ valid data.
Proof.
  destruct (all_present_or_missing data) as [Hall | Hmiss]; [| left; exact Hmiss].
  right.
  destruct (test_four_digits (to_string (postcode data))) eqn:E.
  - right. split; [exact Hall |].
    apply (postcode_check_iff data (proj2 (proj2 Hall))). exact E.
  - left. split; [exact Hall |]. intros Hpc.
    apply (postcode_check_iff data (proj2 (proj2 Hall))) in Hpc. congruence.
Qed.

(** C7: for every submission whose three fields are present and not
    empty but whose postcode is not a string of exactly four decimal
    digits (such as "ABCD", "123" and "12345"), the endpoint (either
    handler) answers HTTP 400 with the body
    [{success: false, error: "Invalid postcode format"}]; a submission
    whose postcode is four decimal digits passes the check: it is not
    answered with 400. *)
Theorem C7_postcode_format (text_gt_zero : jsval -> bool) (w : world)
    (env : environment) (request : inbound) (data : SubscribeRequest) :
  request_json request = Normal data ->
  all_present data ->
  let answer :=
    {| resp_status := 400;
       resp_headers := [(lit "Content-Type", lit "application/json")];
       resp_body := JObj [ (lit "success", JBool false);
                           (lit "error", JStr (lit "Invalid postcode format")) ] |}
  in
  (~ postcode_well_formed data ->
     invoke w (ProfileUpsert.POST env request) = (Normal answer, no_effects)
     /\ invoke w (ClientSubscribe.POST text_gt_zero env request)
        = (Normal answer, no_effects))
  /\ (postcode_well_formed data ->
        (exists r fx,
            invoke w (ProfileUpsert.POST env request) = (Normal r, fx)
            /\ resp_status r <> 400%Z)
        /\ (exists r fx,
              invoke w (ClientSubscribe.POST text_gt_zero env request)
              = (Normal r, fx)
              /\ resp_status r <> 400%Z))
  /\ ~ four_decimal_digits (lit "ABCD")
  /\ ~ four_decimal_digits (lit "123")
  /\ ~ four_decimal_digits (lit "12345").
Proof.
  intros Hjson Hall answer. split; [| split].
  - intros Hpc. split.
    + unfold ProfileUpsert.POST.
      rewrite (upsert_try_bad_postcode env request Hjson Hall Hpc).
      reflexivity.
    + unfold ClientSubscribe.POST.
      rewrite (client_try_bad_postcode text_gt_zero env request Hjson Hall Hpc).
      reflexivity.
  - intros Hpc. assert (Hv : valid data) by (split; assumption). split.
    + destruct (upsert_valid_status w env request Hjson Hv)
        as (r & fx & Hrun & Hst).
      exists r, fx. split; [exact Hrun | lia].
    + destruct (client_valid_status text_gt_zero w env request Hjson Hv)
        as (r & fx & Hrun & Hst).
      exists r, fx. split; [exact Hrun | lia].
  - repeat split; intros H; apply test_four_digits_iff in H; discriminate.
Qed.

Lemma C7_witness :
  all_present Samples.lettered
  /\ ~ postcode_well_formed Samples.lettered
  /\ fst (invoke (Samples.world_of [])
            (ProfileUpsert.POST Samples.configured
               (Samples.carrying Samples.lettered)))
     = Normal invalid_postcode_response.
Proof.
  assert (Hall : all_present Samples.lettered).
  { repeat split; eexists; (split; [reflexivity | discriminate]). }
  assert (Hpc : ~ postcode_well_formed Samples.lettered).
  { intros (s & Hs & H4). injection Hs as <-.
    apply test_four_digits_iff in H4. discriminate. }
  split; [exact Hall |]. split; [exact Hpc |].
  destruct (@C7_postcode_format Samples.no_coercion (Samples.world_of [])
              Samples.configured (Samples.carrying Samples.lettered)
              Samples.lettered eq_refl Hall) as (Hbad & _).
  rewrite (proj1 (Hbad Hpc)). reflexivity.
Defined.

(** C10: the validation stages of the two handlers are equivalent: for
    every submission rejected as invalid (a required field missing or
    empty, or a malformed postcode) both answer with the same HTTP
    status, 400, and the same body, and neither issues an outbound
    call, whatever the configuration and the remote API. *)
Theorem C10_validation_stages_agree (text_gt_zero : jsval -> bool)
    (w w' : world) (env env' : environment) (request : inbound)
    (data : SubscribeRequest) :
  request_json request = Normal data ->
  invalid data ->
  exists (answer : http_response) (fx fx' : effects),
    invoke w (ClientSubscribe.POST text_gt_zero env request)
    = (Normal answer, fx)
    /\ invoke w' (ProfileUpsert.POST env' request) = (Normal answer, fx')
    /\ resp_status answer = 400%Z
    /\ calls fx = [] /\ calls fx' = [].
Proof.
  intros Hjson Hinv.
  destruct (validation_cases data) as [Hmiss | [[Hall Hpc] | Hv]].
  - exists missing_fields_response, no_effects, no_effects.
    unfold ClientSubscribe.POST, ProfileUpsert.POST.
    rewrite (client_try_missing text_gt_zero env request Hjson Hmiss).
    rewrite (upsert_try_missing env' request Hjson Hmiss).
    repeat split.
  - exists invalid_postcode_response, no_effects, no_effects.
    unfold ClientSubscribe.POST, ProfileUpsert.POST.
    rewrite (client_try_bad_postcode text_gt_zero env request Hjson Hall Hpc).
    rewrite (upsert_try_bad_postcode env' request Hjson Hall Hpc).
    repeat split.
  - exfalso. destruct Hinv as [Hmiss | Hpc].
    + apply missing_required_iff in Hmiss.
      destruct (valid_checks Hv) as (_ & _ & Hm & _). congruence.
    + apply Hpc. exact (proj2 Hv).
Qed.

Lemma C10_witness :
  invalid Samples.nameless
  /\ fst (invoke (Samples.world_of [])
            (ClientSubscribe.POST Samples.no_coercion Samples.unconfigured
               (Samples.carrying Samples.nameless)))
     = fst (invoke (Samples.world_of [Resolved Samples.created])
              (ProfileUpsert.POST Samples.configured
                 (Samples.carrying Samples.nameless))).
Proof.
  assert (Hinv : invalid Samples.nameless)
    by (left; left; left; reflexivity).
  split; [exact Hinv |].
  destruct (@C10_validation_stages_agree Samples.no_coercion
              (Samples.world_of []) (Samples.world_of [Resolved Samples.created])
              Samples.unconfigured Samples.configured
              (Samples.carrying Samples.nameless) Samples.nameless
              eq_refl Hinv) as (answer & fx & fx' & Ha & Hb & _).
  rewrite Ha, Hb. reflexivity.
Defined.

(** ** The configuration stage *)

Section ConfigurationFacts.

Lemma unconfigured_check (a b : option jsstring) :
  absent_or_empty a \/ absent_or_empty b -> falsy a || falsy b = true.
Proof.
  intros [H | H]; apply falsy_iff in H; rewrite H;
    [reflexivity | apply orb_true_r].
Qed.

Variable text_gt_zero : jsval -> bool.
Variables (w : world) (env : environment) (request : inbound).

(** Without its configuration a handler calls nothing, whatever the
    request. *)
Lemma upsert_unconfigured_silent :
  upsert_unconfigured env ->
  calls (snd (invoke w (ProfileUpsert.POST env request))) = [].
Proof.
  intros Hc. apply unconfigured_check in Hc.
  unfold invoke, ProfileUpsert.POST. rewrite run_catch.
  destruct (request_json request) as [data | e] eqn:Hjson.
  - destruct (validation_cases data) as [Hmiss | [[Hall Hpc] | Hv]].
    + rewrite (upsert_try_missing env request Hjson Hmiss). reflexivity.
    + rewrite (upsert_try_bad_postcode env request Hjson Hall Hpc).
      reflexivity.
    + destruct (valid_checks Hv) as (p & Hp & _ & _).
      rewrite (upsert_try_valid env request Hjson Hv Hp), Hc. reflexivity.
  - unfold ProfileUpsert.POST_try. rewrite Hjson. reflexivity.
Qed.

Lemma client_unconfigured_silent :
  client_unconfigured env ->
  calls (snd (invoke w (ClientSubscribe.POST text_gt_zero env request))) = [].
Proof.
  intros Hc. apply unconfigured_check in Hc.
  unfold invoke, ClientSubscribe.POST. rewrite run_catch.
  destruct (request_json request) as [data | e] eqn:Hjson.
  - destruct (validation_cases data) as [Hmiss | [[Hall Hpc] | Hv]].
    + rewrite (client_try_missing text_gt_zero env request Hjson Hmiss).
      reflexivity.
    + rewrite (client_try_bad_postcode text_gt_zero env request Hjson Hall Hpc).
      reflexivity.
    + destruct (valid_checks Hv) as (p & Hp & _ & _).
      rewrite (client_try_valid text_gt_zero env request Hjson Hv Hp), Hc.
      reflexivity.
  - unfold ClientSubscribe.POST_try. rewrite Hjson. reflexivity.
Qed.

End ConfigurationFacts.

(** C4, as stated, fails: the configuration is only looked at once the
    submission has passed the validation stage.  With no secret
    configured, a submission without [firstName] is answered 400
    "Missing required fields", not 500. *)
Lemma C4_counterexample :
  upsert_unconfigured Samples.unconfigured
  /\ client_unconfigured Samples.unconfigured
  /\ invoke (Samples.world_of [])
       (ProfileUpsert.POST Samples.unconfigured
          (Samples.carrying Samples.nameless))
     = (Normal missing_fields_response, no_effects)
  /\ invoke (Samples.world_of [])
       (ClientSubscribe.POST Samples.no_coercion Samples.unconfigured
          (Samples.carrying Samples.nameless))
     = (Normal missing_fields_response, no_effects)
  /\ resp_status missing_fields_response = 400%Z
  /\ ~ (forall w env request,
          upsert_unconfigured env ->
          exists r fx,
            invoke w (ProfileUpsert.POST env request) = (Normal r, fx)
            /\ resp_status r = 500%Z /\ calls fx = []).
Proof.
  assert (Hu : upsert_unconfigured Samples.unconfigured)
    by (left; left; reflexivity).
  split; [exact Hu |].
  split; [left; left; reflexivity |].
  split; [reflexivity |]. split; [reflexivity |]. split; [reflexivity |].
  intros Hclaim.
  destruct (Hclaim (Samples.world_of []) Samples.unconfigured
              (Samples.carrying Samples.nameless) Hu)
    as (r & fx & Hrun & Hst & _).
  vm_compute in Hrun. injection Hrun as <- _. discriminate.
Qed.

(** C4 (amended): for every request whose submission passes the
    validation stage and for which a required secret (the API
    credential or the list identifier) is absent from the environment
    or empty, the endpoint answers HTTP 500 with the body
    [{success: false, error: "Server configuration error"}], logs
    "Missing Klaviyo configuration" and issues no outbound call; and
    whatever the request, no outbound call is issued under such a
    configuration. *)
Theorem C4_missing_configuration (text_gt_zero : jsval -> bool) (w : world)
    (env : environment) (request : inbound) :
  let answer :=
    {| resp_status := 500;
       resp_headers := [(lit "Content-Type", lit "application/json")];
       resp_body := JObj [ (lit "success", JBool false);
                           (lit "error", JStr (lit "Server configuration error")) ] |}
  in
  let logged :=
    with_log no_effects LogError [ LStr (lit "Missing Klaviyo configuration") ]
  in
  (forall data,
      request_json request = Normal data -> valid data ->
      (upsert_unconfigured env ->
         invoke w (ProfileUpsert.POST env request) = (Normal answer, logged))
      /\ (client_unconfigured env ->
            invoke w (ClientSubscribe.POST text_gt_zero env request)
            = (Normal answer, logged)))
  /\ (upsert_unconfigured env ->
        calls (snd (invoke w (ProfileUpsert.POST env request))) = [])
  /\ (client_unconfigured env ->
        calls (snd (invoke w (ClientSubscribe.POST text_gt_zero env request)))
        = []).
Proof.
  intros answer logged. split; [| split].
  - intros data Hjson Hv. destruct (valid_checks Hv) as (p & Hp & _ & _).
    split; intros Hc; apply unconfigured_check in Hc.
    + unfold ProfileUpsert.POST.
      rewrite (upsert_try_valid env request Hjson Hv Hp), Hc. reflexivity.
    + unfold ClientSubscribe.POST.
      rewrite (client_try_valid text_gt_zero env request Hjson Hv Hp), Hc.
      reflexivity.
  - apply upsert_unconfigured_silent.
  - apply client_unconfigured_silent.
Qed.

Lemma C4_witness :
  valid Samples.good
  /\ upsert_unconfigured Samples.unconfigured
  /\ invoke (Samples.world_of [Resolved Samples.created])
       (ProfileUpsert.POST Samples.unconfigured (Samples.carrying Samples.good))
     = (Normal configuration_error_response,
        with_log no_effects LogError
          [ LStr (lit "Missing Klaviyo configuration") ]).
Proof.
  assert (Hv : valid Samples.good).
  { split.
    - repeat split; eexists; (split; [reflexivity | discriminate]).
    - eexists. split; [reflexivity |].
      apply test_four_digits_iff. reflexivity. }
  assert (Hu : upsert_unconfigured Samples.unconfigured)
    by (left; left; reflexivity).
  split; [exact Hv |]. split; [exact Hu |].
  destruct (@C4_missing_configuration Samples.no_coercion
              (Samples.world_of [Resolved Samples.created])
              Samples.unconfigured (Samples.carrying Samples.good))
    as (Hvalid & _).
  exact (proj1 (Hvalid Samples.good eq_refl Hv) Hu).
Defined.

(** ** Symbolic runs *)

(** Runs a handler symbolically: unfolds the effects and splits on
    whatever the next step depends on. *)
Ltac unfold_effects :=
  unfold json, text, eval, fetch, now, sleep, console_log, console_error,
    no_effects, by_position;
  cbn [run pbind try_catch bind ret raise catch Monad_prog Exc_prog
       calls console date_reads slept app fst snd
       remote clock by_position List.length].

Ltac split_run :=
  repeat (unfold_effects;
          match goal with
          | |- context [match ?o with Resolved _ => _ | Rejected _ => _ end] =>
              destruct o eqn:?
          | |- context [match body_json ?r with _ => _ end] =>
              destruct (body_json r) eqn:?
          | |- context [match ?f ?x with Normal _ => _ | Abrupt _ => _ end] =>
              destruct (f x) eqn:?
          | |- context [if ?b then _ else _] => destruct b eqn:?
          end);
  unfold_effects.

(** ** The upsert stage of the profile-upsert handler *)

Section UpsertFacts.

Variables (w : world) (env : environment) (request : inbound).
Variables (data : SubscribeRequest) (apiKey listId p : jsstring).
Hypothesis Hjson : request_json request = Normal data.
Hypothesis Hvalid : valid data.
Hypothesis Hphone : phone data = Some p.
Hypothesis HapiKey : KLAVIYO_API_KEY env = Some apiKey.
Hypothesis HapiKey_set : apiKey <> [].
Hypothesis HlistId : KLAVIYO_LIST_ID env = Some listId.
Hypothesis HlistId_set : listId <> [].

(** A valid submission under a complete configuration reaches the
    upsert stage, and the answer is the one of that stage, or the one
    of the [catch] block when the stage throws. *)
Lemma upsert_reached :
  invoke w (ProfileUpsert.POST env request) =
  match run w (ProfileUpsert.upsert_and_subscribe apiKey listId
                 (formattedPhone p) data) no_effects with
  | (Normal a, fx) => (Normal a, fx)
  | (Abrupt e, fx) => run w (ProfileUpsert.POST_catch e) fx
  end.
Proof.
  unfold invoke, ProfileUpsert.POST. rewrite run_catch.
  rewrite (upsert_try_valid env request Hjson Hvalid Hphone).
  rewrite HapiKey, HlistId.
  destruct apiKey; [contradiction |]. destruct listId; [contradiction |].
  reflexivity.
Qed.

(** The handler's test of the list call's answer is the test of
    [response.ok]: 204 is a success status. *)
Lemma refusal_test (r : response) :
  negb (ok r) && negb (status r =? 204)%Z = negb (ok r).
Proof.
  unfold ok.
  destruct ((200 <=? status r)%Z && (status r <=? 299)%Z) eqn:E;
    [reflexivity |].
  destruct (Z.eqb_spec (status r) 204) as [H | H]; [| reflexivity].
  rewrite H in E. discriminate E.
Qed.

End UpsertFacts.

Section IdentifierFacts.

(** What [errorData.errors?.[0]?.meta?.duplicate_profile_id] evaluates
    to, read by read. *)
Lemma duplicate_profile_id_reads (errorData id : jsval) :
  ProfileUpsert.duplicate_profile_id errorData = Normal id <->
  exists errors first meta,
    get_prop errorData (lit "errors") = Normal errors
    /\ opt_first errors = Normal first
    /\ opt_prop first (lit "meta") = Normal meta
    /\ opt_prop meta (lit "duplicate_profile_id") = Normal id.
Proof.
  unfold ProfileUpsert.duplicate_profile_id. split.
  - destruct (get_prop errorData (lit "errors")) as [errors |] eqn:Herrors;
      [| discriminate].
    destruct (opt_first errors) as [first |] eqn:Hfirst; [| discriminate].
    destruct (opt_prop first (lit "meta")) as [meta |] eqn:Hmeta;
      [| discriminate].
    intros H. exists errors, first, meta.
    split; [reflexivity |]. split; [exact Hfirst |].
    split; [exact Hmeta | exact H].
  - intros (errors & first & meta & -> & -> & -> & H). exact H.
Qed.

(** What [profileData.data.id] evaluates to, read by read. *)
Lemma created_profile_id_reads (profileData id : jsval) :
  ProfileUpsert.created_profile_id profileData = Normal id <->
  exists d,
    get_prop profileData (lit "data") = Normal d
    /\ get_prop d (lit "id") = Normal id.
Proof.
  unfold ProfileUpsert.created_profile_id. split.
  - destruct (get_prop profileData (lit "data")) as [d |] eqn:Hd;
      [| discriminate].
    intros H. exists d. split; [reflexivity | exact H].
  - intros (d & -> & H). exact H.
Qed.

End IdentifierFacts.

(** C1: for every valid submission (under a complete configuration)
    the upsert stage follows the three-branch flow on the answer to the
    create-profile call, a POST on the profiles collection that carries
    the normalised phone.  On 201 the identifier read from the answer
    ([data.id] of its body) is the one used: the list call carries it.
    On 409 with a truthy [duplicate_profile_id] in the error payload
    ([errors[0].meta.duplicate_profile_id]) the update call is issued
    against that identifier, a PATCH on the profile of that identifier
    carrying it and the new field values; once that call got a response,
    whatever its status, the list call follows with the same identifier
    and the request succeeds with HTTP 200.  On 409 without the
    identifier, and on any other status, the endpoint answers HTTP 500
    and only the create call was issued.  A follow-up call that is
    rejected (it gets no response) ends the request with HTTP 500,
    nothing being issued after it. *)
Theorem C1_upsert_three_branches (w : world) (env : environment)
    (request : inbound) (data : SubscribeRequest)
    (apiKey listId name p code : jsstring) (r : response) :
  request_json request = Normal data ->
  valid data ->
  firstName data = Some name ->
  phone data = Some p ->
  postcode data = Some code ->
  KLAVIYO_API_KEY env = Some apiKey -> apiKey <> [] ->
  KLAVIYO_LIST_ID env = Some listId -> listId <> [] ->
  let headers :=
    [ (lit "Authorization", lit "Klaviyo-API-Key " ++ apiKey);
      (lit "Content-Type", lit "application/json");
      (lit "revision", lit "2024-02-15") ] in
  let location :=
    JObj [ prop "zip" (JStr code); prop "country" (str "Australia") ] in
  let create :=
    {| req_method := POST_;
       req_url := Profiles;
       req_headers := headers;
       req_body :=
         Some (JObj [ prop "data"
           (JObj [ prop "type" (str "profile");
                   prop "attributes"
                     (JObj [ prop "phone_number" (JStr (formattedPhone p));
                             prop "first_name" (JStr name);
                             prop "location" location;
                             prop "properties"
                               (JObj [ prop "postcode" (JStr code);
                                       prop "source"
                                         (str "Ferguson Livestock Website");
                                       prop "signup_date"
                                         (JStr (clock w 0)) ]) ]) ]) ]) |} in
  let update (id : jsval) :=
    {| req_method := PATCH;
       req_url := Profile id;
       req_headers := headers;
       req_body :=
         Some (JObj [ prop "data"
           (JObj [ prop "type" (str "profile");
                   prop "id" id;
                   prop "attributes"
                     (JObj [ prop "first_name" (JStr name);
                             prop "location" location;
                             prop "properties"
                               (JObj [ prop "postcode" (JStr code);
                                       prop "source"
                                         (str "Ferguson Livestock Website");
                                       prop "last_updated"
                                         (JStr (clock w 1)) ]) ]) ]) ]) |} in
  let add (id : jsval) :=
    {| req_method := POST_;
       req_url := ListProfiles listId;
       req_headers := headers;
       req_body :=
         Some (JObj [ prop "data"
                        (JArr [ JObj [ prop "type" (str "profile");
                                       prop "id" id ] ]) ]) |} in
  let success :=
    {| resp_status := 200;
       resp_headers := [(lit "Content-Type", lit "application/json")];
       resp_body :=
         JObj [ prop "success" (JBool true);
                prop "message"
                  (str "Successfully subscribed to the wait list!") ] |} in
  let failure :=
    {| resp_status := 500;
       resp_headers := [(lit "Content-Type", lit "application/json")];
       resp_body :=
         JObj [ prop "success" (JBool false);
                prop "error" (str "An error occurred. Please try again.") ] |}
  in
  let result := invoke w (ProfileUpsert.POST env request) in
  remote w [create] = Resolved r ->
  (forall profileData d id,
      status r = 201%Z ->
      body_json r = Normal profileData ->
      get_prop profileData (lit "data") = Normal d ->
      get_prop d (lit "id") = Normal id ->
      calls (snd result) = [create; add id]
      /\ (forall lr,
             remote w [create; add id] = Resolved lr ->
             fst result = Normal success)
      /\ (forall e,
             remote w [create; add id] = Rejected e ->
             fst result = Normal failure))
  /\ (forall errorData errors first meta id,
        status r = 409%Z ->
        body_json r = Normal errorData ->
        get_prop errorData (lit "errors") = Normal errors ->
        opt_first errors = Normal first ->
        opt_prop first (lit "meta") = Normal meta ->
        opt_prop meta (lit "duplicate_profile_id") = Normal id ->
        truthy id = true ->
        (forall e,
            remote w [create; update id] = Rejected e ->
            calls (snd result) = [create; update id]
            /\ fst result = Normal failure)
        /\ (forall ur,
               remote w [create; update id] = Resolved ur ->
               calls (snd result) = [create; update id; add id]
               /\ (forall lr,
                      remote w [create; update id; add id] = Resolved lr ->
                      fst result = Normal success)
               /\ (forall e,
                      remote w [create; update id; add id] = Rejected e ->
                      fst result = Normal failure)))
  /\ (status r = 409%Z ->
      (forall errorData errors first meta id,
          body_json r = Normal errorData ->
          get_prop errorData (lit "errors") = Normal errors ->
          opt_first errors = Normal first ->
          opt_prop first (lit "meta") = Normal meta ->
          opt_prop meta (lit "duplicate_profile_id") = Normal id ->
          truthy id = false) ->
      calls (snd result) = [create] /\ fst result = Normal failure)
  /\ (status r <> 201%Z -> status r <> 409%Z ->
      calls (snd result) = [create] /\ fst result = Normal failure).
Proof.
  intros Hjson Hvalid Hname Hphone Hcode Hkey Hkey_set Hlist Hlist_set
    headers location create update add success failure result Hr.
  assert (Hreached :
    result =
    match run w (ProfileUpsert.upsert_and_subscribe apiKey listId
                   (formattedPhone p) data) no_effects with
    | (Normal a, fx) => (Normal a, fx)
    | (Abrupt e, fx) => run w (ProfileUpsert.POST_catch e) fx
    end).
  { subst result.
    apply (@upsert_reached w env request data apiKey listId p); assumption. }
  assert (Ecreate :
    ProfileUpsert.create_request apiKey (formattedPhone p) data (clock w 0)
    = create).
  { unfold ProfileUpsert.create_request, ProfileUpsert.profilePayload.
    rewrite Hname, Hcode. reflexivity. }
  assert (Eupdate : forall id,
    ProfileUpsert.update_request apiKey id data (clock w 1) = update id).
  { intros id.
    unfold ProfileUpsert.update_request, ProfileUpsert.updatePayload.
    rewrite Hname, Hcode. reflexivity. }
  assert (Eadd : forall id, list_request apiKey listId id = add id)
    by reflexivity.
  clearbody create update add result. clear headers location.
  revert Hreached.
  unfold ProfileUpsert.upsert_and_subscribe, ProfileUpsert.create_or_update,
    ProfileUpsert.add_to_list.
  unfold_effects. rewrite Ecreate, Hr. unfold_effects.
  intros Hreached.
  split; [| split; [| split]].
  - intros profileData d id Hst Hbody Hd Hid. revert Hreached.
    rewrite Hst, Z.eqb_refl. unfold_effects.
    rewrite Hbody. unfold_effects.
    rewrite (proj2 (created_profile_id_reads profileData id))
      by (exists d; split; assumption).
    unfold_effects. rewrite Eadd. intros ->.
    split; [| split].
    + split_run; reflexivity.
    + intros lr Hlr. rewrite Hlr. split_run; reflexivity.
    + intros e He. rewrite He. reflexivity.
  - intros errorData errors first meta id Hst Hbody Herrors Hfirst Hmeta Hid
      Hid_set.
    revert Hreached.
    rewrite Hst. change (409 =? 201)%Z with false.
    change (409 =? 409)%Z with true. unfold_effects.
    rewrite Hbody. unfold_effects.
    rewrite (proj2 (duplicate_profile_id_reads errorData id))
      by (exists errors, first, meta; repeat split; assumption).
    unfold_effects. rewrite Hid_set. unfold_effects.
    rewrite Eupdate. intros ->. split.
    + intros e He. rewrite He. split; reflexivity.
    + intros ur Hur. rewrite Hur. unfold_effects. rewrite Eadd.
      split; [| split].
      * split_run; reflexivity.
      * intros lr Hlr. rewrite Hlr. split_run; reflexivity.
      * intros e He. rewrite He. reflexivity.
  - intros Hst Hlacks. revert Hreached.
    rewrite Hst. change (409 =? 201)%Z with false.
    change (409 =? 409)%Z with true. unfold_effects.
    destruct (body_json r) as [errorData | e] eqn:Hbody; unfold_effects;
      [| intros ->; split; reflexivity].
    destruct (ProfileUpsert.duplicate_profile_id errorData) as [id | e] eqn:Hid;
      unfold_effects; [| intros ->; split; reflexivity].
    apply duplicate_profile_id_reads in Hid.
    destruct Hid as (errors & first & meta & Herrors & Hfirst & Hmeta & Hid).
    rewrite (Hlacks errorData errors first meta id eq_refl Herrors Hfirst
               Hmeta Hid).
    unfold_effects. intros ->. split; reflexivity.
  - intros H201 H409. revert Hreached.
    apply Z.eqb_neq in H201, H409. rewrite H201, H409.
    unfold_effects. intros ->. split; reflexivity.
Qed.

Lemma good_is_valid : valid Samples.good.
Proof.
  split.
  - repeat split; eexists; (split; [reflexivity | discriminate]).
  - eexists. split; [reflexivity |].
    apply test_four_digits_iff. reflexivity.
Qed.

Lemma C1_witness :
  let w := Samples.world_of [ Resolved Samples.conflict;
                              Resolved Samples.accepted;
                              Resolved Samples.no_content ] in
  let result :=
    invoke w (ProfileUpsert.POST Samples.configured
                (Samples.carrying Samples.good)) in
  valid Samples.good
  /\ (exists create update add,
         calls (snd result) = [create; update; add]
         /\ req_method update = PATCH
         /\ req_url update = Profile (str "01OLD")
         /\ req_url add = ListProfiles (lit "LIST01")
         /\ req_body add
            = Some (JObj [ prop "data"
                             (JArr [ JObj [ prop "type" (str "profile");
                                            prop "id" (str "01OLD") ] ]) ]))
  /\ resp_status subscribed_response = 200%Z
  /\ fst result = Normal subscribed_response.
Proof.
  intros w result. split; [exact good_is_valid |].
  assert (Hkey : lit "sk_sample" <> []) by discriminate.
  assert (Hlist : lit "LIST01" <> []) by discriminate.
  destruct (@C1_upsert_three_branches w Samples.configured
              (Samples.carrying Samples.good) Samples.good
              (lit "sk_sample") (lit "LIST01") (lit "Ann")
              (lit "0412 345 678") (lit "2650") Samples.conflict
              eq_refl good_is_valid eq_refl eq_refl eq_refl
              eq_refl Hkey eq_refl Hlist eq_refl)
    as (_ & Hconflict & _).
  destruct (Hconflict
              (JObj [ prop "errors"
                (JArr [ JObj [ prop "meta"
                  (JObj [ prop "duplicate_profile_id" (str "01OLD") ]) ] ]) ])
              (JArr [ JObj [ prop "meta"
                (JObj [ prop "duplicate_profile_id" (str "01OLD") ]) ] ])
              (JObj [ prop "meta"
                (JObj [ prop "duplicate_profile_id" (str "01OLD") ]) ])
              (JObj [ prop "duplicate_profile_id" (str "01OLD") ])
              (str "01OLD") eq_refl eq_refl eq_refl eq_refl eq_refl eq_refl
              eq_refl)
    as (_ & Hupdated).
  destruct (Hupdated Samples.accepted eq_refl) as (Hcalls & Hanswered & _).
  split; [| split; [reflexivity |]].
  - eexists _, _, _. split; [exact Hcalls |]. repeat split.
  - exact (Hanswered Samples.no_content eq_refl).
Defined.

Section ResolutionFacts.

Variables (w : world) (apiKey formatted : jsstring).
Variable data : SubscribeRequest.

(** Step 1 resolves an identifier in two ways only: it is [data.id] of
    a 201 answer to the create call, or the truthy
    [duplicate_profile_id] of a 409 answer to it. *)
Lemma create_or_update_resolves (id : jsval) (fx : effects) :
  run w (ProfileUpsert.create_or_update apiKey formatted data) no_effects
  = (Normal id, fx) ->
  exists r body,
    remote w (firstn 1 (calls fx)) = Resolved r
    /\ body_json r = Normal body
    /\ ((status r = 201%Z
         /\ ProfileUpsert.created_profile_id body = Normal id)
        \/ (status r = 409%Z
            /\ ProfileUpsert.duplicate_profile_id body = Normal id
            /\ truthy id = true)).
Proof.
  unfold ProfileUpsert.create_or_update.
  split_run; intros H; inversion H; subst; clear H; cbn [calls firstn];
    eexists _, _; (split; [eassumption |]); (split; [eassumption |]);
    first [ left; split; [apply Z.eqb_eq; assumption | assumption]
          | right; split; [apply Z.eqb_eq; assumption |];
            split; assumption ].
Qed.

End ResolutionFacts.

(** C3: for every valid submission for which a contact identifier is
    resolved, which happens in two ways only ([data.id] of a 201 answer
    to the create call, or the truthy [duplicate_profile_id] of a 409
    answer), the list call is issued with that identifier: a POST on
    the profiles of the configured list whose body names that profile.
    Whatever response that call gets, the endpoint answers HTTP 200
    with [{success: true, message: ...}]; a non-success response is
    logged with [console.error] and changes nothing else. *)
Theorem C3_list_attach_tolerated (w : world) (env : environment)
    (request : inbound) (data : SubscribeRequest)
    (apiKey listId p : jsstring) (id : jsval) (fx : effects)
    (lr : response) :
  request_json request = Normal data ->
  valid data ->
  phone data = Some p ->
  KLAVIYO_API_KEY env = Some apiKey -> apiKey <> [] ->
  KLAVIYO_LIST_ID env = Some listId -> listId <> [] ->
  run w (ProfileUpsert.create_or_update apiKey (formattedPhone p) data)
      no_effects = (Normal id, fx) ->
  let add :=
    {| req_method := POST_;
       req_url := ListProfiles listId;
       req_headers :=
         [ (lit "Authorization", lit "Klaviyo-API-Key " ++ apiKey);
           (lit "Content-Type", lit "application/json");
           (lit "revision", lit "2024-02-15") ];
       req_body :=
         Some (JObj [ prop "data"
                        (JArr [ JObj [ prop "type" (str "profile");
                                       prop "id" id ] ]) ]) |} in
  remote w (calls fx ++ [add]) = Resolved lr ->
  (exists r body,
      remote w (firstn 1 (calls fx)) = Resolved r
      /\ body_json r = Normal body
      /\ ((status r = 201%Z
           /\ exists d,
                get_prop body (lit "data") = Normal d
                /\ get_prop d (lit "id") = Normal id)
          \/ (status r = 409%Z
              /\ truthy id = true
              /\ exists errors first meta,
                   get_prop body (lit "errors") = Normal errors
                   /\ opt_first errors = Normal first
                   /\ opt_prop first (lit "meta") = Normal meta
                   /\ opt_prop meta (lit "duplicate_profile_id")
                      = Normal id)))
  /\ invoke w (ProfileUpsert.POST env request) =
     (Normal
        {| resp_status := 200;
           resp_headers := [(lit "Content-Type", lit "application/json")];
           resp_body :=
             JObj [ (lit "success", JBool true);
                    (lit "message",
                     JStr (lit "Successfully subscribed to the wait list!")) ] |},
      {| calls := calls fx ++ [add];
         console :=
           console fx ++
           (if ok lr then []
            else [ (LogError, [ LStr (lit "Klaviyo list subscription failed:");
                                LStr (body_text lr) ]) ]);
         date_reads := date_reads fx;
         slept := slept fx |}).
Proof.
  intros Hjson Hvalid Hphone Hkey Hkey_set Hlist Hlist_set Hid add Hlr.
  split.
  - destruct (create_or_update_resolves _ _ _ _ Hid)
      as (r & body & Hr & Hbody & [[Hst Hread] | (Hst & Hread & Hset)]);
      exists r, body; (split; [exact Hr |]); (split; [exact Hbody |]).
    + left. split; [exact Hst |].
      apply created_profile_id_reads. exact Hread.
    + right. split; [exact Hst |]. split; [exact Hset |].
      apply duplicate_profile_id_reads. exact Hread.
  - rewrite (@upsert_reached w env request data apiKey listId p)
      by assumption.
    unfold ProfileUpsert.upsert_and_subscribe.
    rewrite run_bind, Hid.
    unfold ProfileUpsert.add_to_list. unfold_effects.
    change (list_request apiKey listId id) with add.
    rewrite Hlr. unfold_effects.
    rewrite refusal_test.
    destruct (ok lr); unfold_effects; [rewrite app_nil_r |]; reflexivity.
Qed.

Lemma C3_witness :
  let w := Samples.world_of [ Resolved Samples.created;
                              Resolved Samples.not_found ] in
  let create :=
    ProfileUpsert.create_request (lit "sk_sample") (lit "+61412345678")
      Samples.good (Samples.midnight 0) in
  let add :=
    {| req_method := POST_;
       req_url := ListProfiles (lit "LIST01");
       req_headers :=
         [ (lit "Authorization", lit "Klaviyo-API-Key sk_sample");
           (lit "Content-Type", lit "application/json");
           (lit "revision", lit "2024-02-15") ];
       req_body :=
         Some (JObj [ prop "data"
                        (JArr [ JObj [ prop "type" (str "profile");
                                       prop "id" (str "01NEW") ] ]) ]) |} in
  valid Samples.good
  /\ ok Samples.not_found = false
  /\ invoke w (ProfileUpsert.POST Samples.configured
                 (Samples.carrying Samples.good))
     = (Normal subscribed_response,
        {| calls := [create; add];
           console :=
             [ (LogError, [ LStr (lit "Klaviyo list subscription failed:");
                            LStr (lit "list not found") ]) ];
           date_reads := 1;
           slept := 0 |}).
Proof.
  intros w create add.
  split; [exact good_is_valid |]. split; [reflexivity |].
  assert (Hkey : lit "sk_sample" <> []) by discriminate.
  assert (Hlist : lit "LIST01" <> []) by discriminate.
  exact (proj2 (@C3_list_attach_tolerated w Samples.configured
                  (Samples.carrying Samples.good) Samples.good
                  (lit "sk_sample") (lit "LIST01") (lit "0412 345 678")
                  (str "01NEW")
                  {| calls := [create]; console := []; date_reads := 1;
                     slept := 0 |}
                  Samples.not_found
                  eq_refl good_is_valid eq_refl eq_refl Hkey eq_refl Hlist
                  eq_refl eq_refl)).
Defined.

(** ** One request, one attempt *)

Section DispatchFacts.

Variable text_gt_zero : jsval -> bool.
Variables (env : environment) (request : inbound).

(** A request either is answered before any call is issued, in the
    same way in every world, or reaches the upsert stage. *)
Lemma upsert_dispatch :
  (exists answer fx,
      calls fx = []
      /\ forall w,
           invoke w (ProfileUpsert.POST env request) = (Normal answer, fx))
  \/ (exists apiKey listId formatted data,
        forall w,
          invoke w (ProfileUpsert.POST env request) =
          match run w (ProfileUpsert.upsert_and_subscribe apiKey listId
                         formatted data) no_effects with
          | (Normal a, fx) => (Normal a, fx)
          | (Abrupt e, fx) => run w (ProfileUpsert.POST_catch e) fx
          end).
Proof.
  unfold invoke, ProfileUpsert.POST.
  destruct (request_json request) as [data | e] eqn:Hjson.
  - destruct (validation_cases data) as [Hmiss | [[Hall Hpc] | Hv]].
    + left. eexists _, _. split; [| intros w].
      2: { rewrite (upsert_try_missing env request Hjson Hmiss).
           reflexivity. }
      reflexivity.
    + left. eexists _, _. split; [| intros w].
      2: { rewrite (upsert_try_bad_postcode env request Hjson Hall Hpc).
           reflexivity. }
      reflexivity.
    + destruct (valid_checks Hv) as (p & Hp & _ & _).
      rewrite (upsert_try_valid env request Hjson Hv Hp).
      destruct (falsy (KLAVIYO_API_KEY env) || falsy (KLAVIYO_LIST_ID env)).
      * left. eexists _, _. split; [| intros w; reflexivity]. reflexivity.
      * right. eexists _, _, _, _. intros w. apply run_catch.
  - left. unfold ProfileUpsert.POST_try. rewrite Hjson.
    eexists _, _. split; [| intros w; reflexivity]. reflexivity.
Qed.


End DispatchFacts.

Section AttemptFacts.

Variable text_gt_zero : jsval -> bool.
Variables (apiKey listId formatted : jsstring) (data : SubscribeRequest).
Variable privateApiKey : option jsstring.



End AttemptFacts.

Section ClockFacts.

Variable text_gt_zero : jsval -> bool.
Variables (apiKey listId formatted : jsstring) (data : SubscribeRequest).
Variable privateApiKey : option jsstring.
Variable answers : nat -> fetch_outcome.
Variables clock1 clock2 : nat -> jsstring.



End ClockFacts.


Section WriteFacts.

Variable text_gt_zero : jsval -> bool.
Variables (apiKey listId formatted : jsstring) (data : SubscribeRequest).
Variable privateApiKey : option jsstring.



End WriteFacts.



(** ** Failures *)

Section RejectionFacts.

Variables (w : world) (apiKey listId formatted : jsstring).
Variable data : SubscribeRequest.

(** In the upsert stage no rejected call is survived: a call that is
    rejected is the last call issued, and the stage ends in the [catch]
    block with what the call was rejected with. *)
Lemma upsert_stage_rejection (n : nat) (e : exn) :
  let result :=
    match run w (ProfileUpsert.upsert_and_subscribe apiKey listId
                   formatted data) no_effects with
    | (Normal a, fx) => (Normal a, fx)
    | (Abrupt e, fx) => run w (ProfileUpsert.POST_catch e) fx
    end in
  n < List.length (calls (snd result)) ->
  remote w (firstn (S n) (calls (snd result))) = Rejected e ->
  S n = List.length (calls (snd result))
  /\ fst result = Normal ProfileUpsert.generic_error_response
  /\ console (snd result)
     = [ (LogError, [ LStr (lit "Subscribe error:"); LExn e ]) ].
Proof.
  unfold ProfileUpsert.upsert_and_subscribe, ProfileUpsert.create_or_update,
    ProfileUpsert.add_to_list, ProfileUpsert.POST_catch.
  split_run; cbn [List.length]; intros Hn Hrejected;
    destruct n as [| [| [| n]]]; try lia;
    cbn [firstn] in Hrejected; try congruence;
    repeat split; congruence.
Qed.

(** The profile-upsert handler answers with one of five fixed
    responses: nothing of a failure finds its way into the answer. *)
Lemma upsert_stage_answer :
  exists a,
    fst (match run w (ProfileUpsert.upsert_and_subscribe apiKey listId
                        formatted data) no_effects with
         | (Normal a, fx) => (Normal a, fx)
         | (Abrupt e, fx) => run w (ProfileUpsert.POST_catch e) fx
         end) = Normal a
    /\ (a = ProfileUpsert.generic_error_response \/ a = subscribed_response).
Proof.
  unfold ProfileUpsert.upsert_and_subscribe, ProfileUpsert.create_or_update,
    ProfileUpsert.add_to_list, ProfileUpsert.POST_catch.
  split_run; eexists; (split; [reflexivity |]);
    first [left; reflexivity | right; reflexivity].
Qed.

End RejectionFacts.

Lemma upsert_answer_fixed (w : world) (env : environment)
    (request : inbound) :
  exists a,
    fst (invoke w (ProfileUpsert.POST env request)) = Normal a
    /\ In a [ missing_fields_response; invalid_postcode_response;
              configuration_error_response;
              ProfileUpsert.generic_error_response; subscribed_response ].
Proof.
  unfold invoke, ProfileUpsert.POST. rewrite run_catch.
  destruct (request_json request) as [data | e] eqn:Hjson.
  - destruct (validation_cases data) as [Hmiss | [[Hall Hpc] | Hv]].
    + rewrite (upsert_try_missing env request Hjson Hmiss).
      eexists. split; [reflexivity |]. left. reflexivity.
    + rewrite (upsert_try_bad_postcode env request Hjson Hall Hpc).
      eexists. split; [reflexivity |]. right. left. reflexivity.
    + destruct (valid_checks Hv) as (p & Hp & _ & _).
      rewrite (upsert_try_valid env request Hjson Hv Hp).
      destruct (falsy (KLAVIYO_API_KEY env) || falsy (KLAVIYO_LIST_ID env)).
      * eexists. split; [reflexivity |]. do 2 right. left. reflexivity.
      * destruct (upsert_stage_answer w (to_string (KLAVIYO_API_KEY env))
                    (to_string (KLAVIYO_LIST_ID env)) (formattedPhone p) data)
          as (a & Ha & [-> | ->]);
          eexists; (split; [exact Ha |]).
        -- do 3 right. left. reflexivity.
        -- do 4 right. left. reflexivity.
  - unfold ProfileUpsert.POST_try. rewrite Hjson.
    eexists. split; [reflexivity |]. do 3 right. left. reflexivity.
Qed.

(** C5, as stated, fails for the client-subscription handler: its
    [catch] block puts the message of the failure into the answer.  Two
    bodies that fail to parse with different messages are answered
    differently, each with the message of its own failure. *)
Lemma C5_counterexample :
  let failing (message : string) : inbound :=
    {| request_json := Abrupt (JsError (lit message)) |} in
  let answer_to (message : string) : completion http_response :=
    fst (invoke (Samples.world_of [])
           (ClientSubscribe.POST Samples.no_coercion Samples.configured
              (failing message))) in
  answer_to "Unexpected end of JSON input"%string
  = Normal (json_response 500
              (JObj [ prop "success" (JBool false);
                      prop "error" (str "Unexpected end of JSON input") ]))
  /\ answer_to "Unexpected token < in JSON at position 0"%string
     = Normal (json_response 500
                 (JObj [ prop "success" (JBool false);
                         prop "error"
                           (str "Unexpected token < in JSON at position 0") ]))
  /\ answer_to "Unexpected end of JSON input"%string
     <> answer_to "Unexpected token < in JSON at position 0"%string.
Proof.
  intros failing answer_to.
  split; [reflexivity |]. split; [reflexivity |].
  vm_compute. discriminate.
Qed.

(** C5 (amended): every failure thrown inside the [try] block of a
    handler is caught, logged with [console.error] and answered with
    HTTP 500.  A body that does not parse is such a failure.  So is a
    rejected outbound call of the profile-upsert handler, whichever
    call it is: the rejected call is the last one issued.  So is a
    rejected subscription call of the client-subscription handler.  The
    profile-upsert handler answers a failure with the fixed body
    [{success: false, error: "An error occurred. Please try again."}]:
    an answer of status 500 is that one or the configuration error and
    carries nothing of the failure.  The client-subscription handler
    answers with the message of the failure when it is an [Error], and
    with "An error occurred" otherwise. *)
Theorem C5_failures_answered_with_500 (text_gt_zero : jsval -> bool)
    (w : world) (env : environment) (request : inbound) :
  let answer (message : jsstring) :=
    {| resp_status := 500;
       resp_headers := [(lit "Content-Type", lit "application/json")];
       resp_body := JObj [ (lit "success", JBool false);
                           (lit "error", JStr message) ] |}
  in
  let generic := lit "An error occurred. Please try again." in
  let message_of (e : exn) :=
    match e with
    | JsError message => message
    | NonError _ => lit "An error occurred"
    end in
  let logged (fx : effects) (e : exn) :=
    with_log fx LogError [ LStr (lit "Subscribe error:"); LExn e ]
  in
  let upsert := invoke w (ProfileUpsert.POST env request) in
  let client := invoke w (ClientSubscribe.POST text_gt_zero env request) in
  (forall e fx,
      run w (ProfileUpsert.POST_try env request) no_effects = (Abrupt e, fx) ->
      upsert = (Normal (answer generic), logged fx e))
  /\ (forall e fx,
        run w (ClientSubscribe.POST_try text_gt_zero env request) no_effects
        = (Abrupt e, fx) ->
        client = (Normal (answer (message_of e)), logged fx e))
  /\ (forall e,
        request_json request = Abrupt e ->
        upsert = (Normal (answer generic), logged no_effects e)
        /\ client = (Normal (answer (message_of e)), logged no_effects e))
  /\ (forall n e,
        n < List.length (calls (snd upsert)) ->
        remote w (firstn (S n) (calls (snd upsert))) = Rejected e ->
        S n = List.length (calls (snd upsert))
        /\ fst upsert = Normal (answer generic)
        /\ console (snd upsert)
           = [ (LogError, [ LStr (lit "Subscribe error:"); LExn e ]) ])
  /\ (exists a,
         fst upsert = Normal a
         /\ (resp_status a = 500%Z ->
             a = answer generic
             \/ a = answer (lit "Server configuration error")))
  /\ (forall data publicKey listId name p code e,
        request_json request = Normal data ->
        valid data ->
        firstName data = Some name ->
        phone data = Some p ->
        postcode data = Some code ->
        KLAVIYO_PUBLIC_API_KEY env = Some publicKey -> publicKey <> [] ->
        KLAVIYO_LIST_ID env = Some listId -> listId <> [] ->
        let subscribe :=
          {| req_method := POST_;
             req_url := ClientSubscriptions publicKey;
             req_headers := [ (lit "Content-Type", lit "application/json");
                              (lit "revision", lit "2023-06-15") ];
             req_body :=
               Some (JObj [ prop "data"
                 (JObj [ prop "type" (str "subscription");
                         prop "attributes"
                           (JObj [ prop "list_id" (JStr listId);
                                   prop "custom_source"
                                     (str "Ferguson Livestock Website");
                                   prop "phone_number"
                                     (JStr (formattedPhone p));
                                   prop "properties"
                                     (JObj [ prop "first_name" (JStr name);
                                             prop "postcode" (JStr code);
                                             prop "signup_date"
                                               (JStr (clock w 0)) ]) ]) ]) ])
          |} in
        remote w [subscribe] = Rejected e ->
        fst client = Normal (answer (message_of e))
        /\ calls (snd client) = [subscribe]).
Proof.
  intros answer generic message_of logged upsert client.
  split; [| split; [| split; [| split; [| split]]]].
  - intros e fx Htry. subst upsert. unfold invoke, ProfileUpsert.POST.
    rewrite run_catch, Htry. reflexivity.
  - intros e fx Htry. subst client. unfold invoke, ClientSubscribe.POST.
    rewrite run_catch, Htry. destruct e; reflexivity.
  - intros e Hjson. subst upsert client.
    unfold invoke, ProfileUpsert.POST, ClientSubscribe.POST.
    rewrite !run_catch.
    unfold ProfileUpsert.POST_try, ClientSubscribe.POST_try.
    rewrite Hjson. split; [reflexivity | destruct e; reflexivity].
  - intros n e. subst upsert.
    destruct (upsert_dispatch env request)
      as [(a & fx & Hfx & Hrun) | (k & l & f & d & Hrun)];
      rewrite Hrun.
    + cbn [snd]. rewrite Hfx. cbn [List.length]. lia.
    + apply upsert_stage_rejection.
  - destruct (upsert_answer_fixed w env request) as (a & Ha & Hin).
    exists a. split; [exact Ha |]. intros Hst. cbn [In] in Hin.
    destruct Hin as [<- | [<- | [<- | [<- | [<- | []]]]]];
      try discriminate Hst;
      [right; reflexivity | left; reflexivity].
  - intros data publicKey listId name p code e Hjson Hvalid Hname Hphone
      Hcode Hkey Hkey_set Hlist Hlist_set subscribe He.
    subst client.
    assert (Esubscribe :
      ClientSubscribe.subscription_request publicKey listId (formattedPhone p)
        data (clock w 0) = subscribe).
    { unfold ClientSubscribe.subscription_request, ClientSubscribe.payload.
      rewrite Hname, Hcode. reflexivity. }
    clearbody subscribe. revert Esubscribe.
    unfold invoke, ClientSubscribe.POST. rewrite run_catch.
    rewrite (client_try_valid text_gt_zero env request Hjson Hvalid Hphone).
    rewrite Hkey, Hlist.
    destruct publicKey as [| c key]; [contradiction |].
    destruct listId as [| c' lid]; [contradiction |].
    cbn [falsy nonempty negb orb to_string]. intros Esubscribe.
    unfold ClientSubscribe.subscribe_and_verify, ClientSubscribe.POST_catch.
    unfold_effects. rewrite Esubscribe, He. unfold_effects.
    destruct e; split; reflexivity.
Qed.

Lemma C5_witness :
  let w := Samples.world_of [ Resolved Samples.conflict ] in
  let result :=
    invoke w (ProfileUpsert.POST Samples.configured
                (Samples.carrying Samples.good)) in
  map req_method (calls (snd result)) = [POST_; PATCH]
  /\ remote w (calls (snd result)) = Rejected (JsError (lit "fetch failed"))
  /\ fst result = Normal ProfileUpsert.generic_error_response
  /\ console (snd result)
     = [ (LogError, [ LStr (lit "Subscribe error:");
                      LExn (JsError (lit "fetch failed")) ]) ].
Proof.
  intros w result.
  split; [reflexivity |]. split; [reflexivity |].
  destruct (@C5_failures_answered_with_500 Samples.no_coercion w
              Samples.configured (Samples.carrying Samples.good))
    as (_ & _ & _ & Hrejected & _).
  destruct (Hrejected 1 (JsError (lit "fetch failed")))
    as (_ & Hanswer & Hlogged).
  - vm_compute. lia.
  - reflexivity.
  - split; [exact Hanswer | exact Hlogged].
Defined.

(** ** Sample runs *)

(** The profile-upsert handler, profile created, list call refused. *)
Example upsert_created_run :
  let w := Samples.world_of [ Resolved Samples.created;
                              Resolved Samples.not_found ] in
  let result :=
    invoke w (ProfileUpsert.POST Samples.configured
                (Samples.carrying Samples.good)) in
  fst result = Normal subscribed_response
  /\ map req_url (calls (snd result))
     = [ Profiles; ListProfiles (lit "LIST01") ]
  /\ map req_method (calls (snd result)) = [ POST_; POST_ ].
Proof. repeat split. Qed.

(** The profile-upsert handler, remote API unavailable. *)
Example upsert_unavailable_run :
  let w := Samples.world_of [ Resolved Samples.unavailable ] in
  invoke w (ProfileUpsert.POST Samples.configured
              (Samples.carrying Samples.good))
  = (Normal ProfileUpsert.generic_error_response,
     {| calls := [ ProfileUpsert.create_request (lit "sk_sample")
                     (lit "+61412345678") Samples.good (Samples.midnight 0) ];
        console :=
          [ (LogError, [ LStr (lit "Klaviyo profile creation failed:");
                         LStr (lit "service unavailable") ]);
            (LogError, [ LStr (lit "Subscribe error:");
                         LExn (JsError (lit "Failed to create profile")) ]) ];
        date_reads := 1;
        slept := 0 |}).
Proof. reflexivity. Qed.

(** The profile-upsert handler, conflict without identifier. *)
Example upsert_bare_conflict_run :
  let w := Samples.world_of [ Resolved Samples.bare_conflict ] in
  let result :=
    invoke w (ProfileUpsert.POST Samples.configured
                (Samples.carrying Samples.good)) in
  fst result = Normal ProfileUpsert.generic_error_response
  /\ console (snd result)
     = [ (LogError, [ LStr (lit "Subscribe error:");
                      LExn (JsError (lit "Could not get existing profile ID")) ]) ].
Proof. repeat split. Qed.

(** The client-subscription handler, profile found: subscription,
    search, update, list. *)
Example client_found_run :
  let w := Samples.world_of [ Resolved Samples.accepted;
                              Resolved Samples.one_found;
                              Resolved Samples.accepted;
                              Resolved Samples.no_content ] in
  let result :=
    invoke w (ClientSubscribe.POST Samples.no_coercion Samples.configured
                (Samples.carrying Samples.good)) in
  fst result = Normal subscribed_response
  /\ map req_url (calls (snd result))
     = [ ClientSubscriptions (lit "pk_sample");
         ProfileSearch (lit "+61412345678");
         Profile (str "01OLD");
         ListProfiles (lit "LIST01") ]
  /\ map req_method (calls (snd result)) = [ POST_; GET; PATCH; POST_ ]
  /\ slept (snd result) = 1000%N.
Proof. repeat split. Qed.

(** The client-subscription handler, profile not found: subscription,
    search, create, list. *)
Example client_missing_run :
  let w := Samples.world_of [ Resolved Samples.accepted;
                              Resolved Samples.none_found;
                              Resolved Samples.created;
                              Resolved Samples.no_content ] in
  let result :=
    invoke w (ClientSubscribe.POST Samples.no_coercion Samples.configured
                (Samples.carrying Samples.good)) in
  fst result = Normal subscribed_response
  /\ map req_url (calls (snd result))
     = [ ClientSubscriptions (lit "pk_sample");
         ProfileSearch (lit "+61412345678");
         Profiles;
         ListProfiles (lit "LIST01") ]
  /\ map req_method (calls (snd result)) = [ POST_; GET; POST_; POST_ ].
Proof. repeat split. Qed.

(** The client-subscription handler, remote API out of reach after the
    search: the inner [catch] block logs the rejection and the request
    still succeeds. *)
Example client_offline_after_search_run :
  let w := Samples.world_of [ Resolved Samples.accepted;
                              Resolved Samples.none_found ] in
  let result :=
    invoke w (ClientSubscribe.POST Samples.no_coercion Samples.configured
                (Samples.carrying Samples.good)) in
  fst result = Normal subscribed_response
  /\ List.length (calls (snd result)) = 3
  /\ last (console (snd result)) (LogInfo, [])
     = (LogError, [ LStr (lit "Error parsing search response:");
                    LExn (JsError (lit "fetch failed")) ]).
Proof. repeat split. Qed.

(* ===================================================================== *)
(** * Further properties of the code *)
(* ===================================================================== *)

(** ** The normalised phone *)

Section NormalisedPhoneFacts.

Lemma keep_iff (c : N) : PhoneSpec.keep c = true <-> phone_char c.
Proof.
  unfold PhoneSpec.keep, phone_char.
  rewrite orb_true_iff, is_digit_iff, N.eqb_eq. reflexivity.
Qed.

Lemma strip_kept (s : jsstring) :
  Forall phone_char s -> PhoneSpec.strip s = s.
Proof.
  unfold PhoneSpec.strip. induction 1 as [| c s Hc _ IH]; [reflexivity |].
  simpl. apply keep_iff in Hc. rewrite Hc, IH. reflexivity.
Qed.

Lemma strip_separators (s : jsstring) :
  Forall separator s -> PhoneSpec.strip s = [].
Proof.
  unfold PhoneSpec.strip. induction 1 as [| c s Hc _ IH]; [reflexivity |].
  simpl. destruct (PhoneSpec.keep c) eqn:E; [| exact IH].
  apply keep_iff in E. contradiction.
Qed.

Lemma strip_chars (s : jsstring) : Forall phone_char (PhoneSpec.strip s).
Proof.
  unfold PhoneSpec.strip. apply Forall_forall. intros c Hin.
  apply filter_In in Hin. apply keep_iff. exact (proj2 Hin).
Qed.

Lemma country_code_chars : Forall phone_char (lit "+61").
Proof.
  change (lit "+61") with [43%N; 54%N; 49%N].
  repeat (apply Forall_cons; [apply keep_iff; reflexivity |]).
  apply Forall_nil.
Qed.

Lemma formattedPhone_head (p : jsstring) :
  exists rest, formattedPhone p = 43%N :: rest.
Proof.
  rewrite formattedPhone_cases.
  destruct (stripped p) as [| c rest]; [eexists; reflexivity |].
  destruct (c =? 48)%N; [eexists; reflexivity |].
  destruct (N.eqb_spec c 43) as [-> | _]; eexists; reflexivity.
Qed.

Lemma formattedPhone_chars (p : jsstring) :
  Forall phone_char (formattedPhone p).
Proof.
  rewrite formattedPhone_cases, stripped_is_strip.
  pose proof (strip_chars p) as H.
  destruct (PhoneSpec.strip p) as [| c rest]; [exact country_code_chars |].
  inversion H as [| ? ? Hc Hrest]; subst.
  destruct (c =? 48)%N.
  - apply Forall_app. split; [exact country_code_chars | exact Hrest].
  - destruct (c =? 43)%N; [exact H |].
    apply Forall_app. split; [exact country_code_chars | exact H].
Qed.

End NormalisedPhoneFacts.

(** X1: whatever the input, the normalised phone holds nothing but
    decimal digits and plus signs, and it is at most three code units
    longer than the input. *)
Theorem X1_formatted_phone_alphabet (p : jsstring) :
  Forall phone_char (formattedPhone p)
  /\ List.length (formattedPhone p) <= List.length p + 3.
Proof.
  split; [apply formattedPhone_chars |].
  rewrite formattedPhone_cases, stripped_is_strip.
  assert (Hlen : List.length (PhoneSpec.strip p) <= List.length p)
    by apply filter_length_le.
  destruct (PhoneSpec.strip p) as [| c rest]; [cbn; lia |].
  cbn [List.length] in Hlen.
  destruct (c =? 48)%N; [rewrite length_app; cbn; lia |].
  destruct (c =? 43)%N; [cbn [List.length]; lia |].
  rewrite length_app. cbn. lia.
Qed.

(** X2: the normalisation is idempotent: a phone that was normalised is
    left as it is when it is normalised again. *)
Theorem X2_formatted_phone_idempotent (p : jsstring) :
  formattedPhone (formattedPhone p) = formattedPhone p.
Proof.
  pose proof (formattedPhone_chars p) as Hchars.
  destruct (formattedPhone_head p) as (rest & Hhead).
  rewrite (formattedPhone_cases (formattedPhone p)), stripped_is_strip.
  rewrite (strip_kept Hchars), Hhead. reflexivity.
Qed.

(** X3: separators do not matter: code units that are neither digits
    nor plus signs (spaces, dashes, brackets, letters) can be put
    anywhere in a phone without changing its normal form. *)
Theorem X3_formatted_phone_ignores_separators (a sep b : jsstring) :
  Forall separator sep ->
  formattedPhone (a ++ sep ++ b) = formattedPhone (a ++ b).
Proof.
  intros Hsep.
  rewrite (formattedPhone_cases (a ++ sep ++ b)), (formattedPhone_cases (a ++ b)).
  rewrite !stripped_is_strip. unfold PhoneSpec.strip.
  rewrite !filter_app.
  change (filter PhoneSpec.keep sep) with (PhoneSpec.strip sep).
  rewrite (strip_separators Hsep). reflexivity.
Qed.

Lemma X3_witness :
  Forall separator (lit ") - ")
  /\ formattedPhone (lit "(04" ++ lit ") - " ++ lit "1234 5678")
     = formattedPhone (lit "(04" ++ lit "1234 5678").
Proof.
  assert (Hsep : Forall separator (lit ") - ")).
  { change (lit ") - ") with [41%N; 32%N; 45%N; 32%N].
    repeat (apply Forall_cons;
            [intros H; apply keep_iff in H; discriminate H |]).
    apply Forall_nil. }
  split; [exact Hsep |].
  exact (@X3_formatted_phone_ignores_separators
           (lit "(04") (lit ") - ") (lit "1234 5678") Hsep).
Defined.

(** ** Reading identifiers out of the answers of the remote API *)

Section ReadFacts.

Lemma get_prop_defined (v : jsval) (k : jsstring) :
  nullish v = false -> exists x, get_prop v k = Normal x.
Proof.
  destruct v; cbn; intros H; try discriminate; eexists; reflexivity.
Qed.

Lemma get_prop_throws (v : jsval) (k : jsstring) :
  nullish v = true -> get_prop v k = Abrupt (type_error v k).
Proof.
  destruct v; cbn; intros H; try discriminate; reflexivity.
Qed.

Lemma opt_prop_defined (v : jsval) (k : jsstring) :
  exists x, opt_prop v k = Normal x.
Proof.
  unfold opt_prop. destruct (nullish v) eqn:E; [eexists; reflexivity |].
  apply get_prop_defined. exact E.
Qed.

Lemma opt_first_defined (v : jsval) : exists x, opt_first v = Normal x.
Proof.
  unfold opt_first.
  destruct v; cbn; eexists; reflexivity.
Qed.

End ReadFacts.

(** X4: reading [duplicate_profile_id] out of a conflict payload throws
    only when the payload itself is [null] or [undefined]: a level
    missing below it gives [undefined].  Reading [data.id] out of a
    creation payload throws exactly when the payload, or its [data], is
    [null] or [undefined]. *)
Theorem X4_identifier_reads (v : jsval) :
  (nullish v = false ->
     exists x, ProfileUpsert.duplicate_profile_id v = Normal x)
  /\ (nullish v = true ->
        ProfileUpsert.duplicate_profile_id v
        = Abrupt (type_error v (lit "errors")))
  /\ ((exists e, ProfileUpsert.created_profile_id v = Abrupt e)
      <-> (nullish v = true
           \/ exists d, get_prop v (lit "data") = Normal d
                        /\ nullish d = true)).
Proof.
  split; [| split].
  - intros Hv. unfold ProfileUpsert.duplicate_profile_id.
    destruct (get_prop_defined v (lit "errors") Hv) as (errors & ->).
    destruct (opt_first_defined errors) as (first & ->).
    destruct (opt_prop_defined first (lit "meta")) as (meta & ->).
    apply opt_prop_defined.
  - intros Hv. unfold ProfileUpsert.duplicate_profile_id.
    rewrite (get_prop_throws v (lit "errors") Hv). reflexivity.
  - unfold ProfileUpsert.created_profile_id. split.
    + intros (e & He). destruct (nullish v) eqn:Hv; [left; reflexivity |].
      right. destruct (get_prop_defined v (lit "data") Hv) as (d & Hd).
      rewrite Hd in He. exists d. split; [exact Hd |].
      destruct (nullish d) eqn:Hn; [reflexivity |].
      destruct (get_prop_defined d (lit "id") Hn) as (x & Hx).
      rewrite Hx in He. discriminate He.
    + intros [Hv | (d & Hd & Hn)].
      * rewrite (get_prop_throws v (lit "data") Hv). eexists. reflexivity.
      * rewrite Hd, (get_prop_throws d (lit "id") Hn). eexists. reflexivity.
Qed.

Lemma X4_witness :
  ProfileUpsert.duplicate_profile_id (JObj [ prop "errors" (JArr []) ])
  = Normal JUndefined
  /\ ProfileUpsert.duplicate_profile_id JNull
     = Abrupt (type_error JNull (lit "errors"))
  /\ exists e,
       ProfileUpsert.created_profile_id (JObj [ prop "data" JNull ])
       = Abrupt e.
Proof.
  split; [reflexivity |].
  split.
  - exact (proj1 (proj2 (X4_identifier_reads JNull)) eq_refl).
  - apply (proj2 (proj2 (X4_identifier_reads (JObj [ prop "data" JNull ])))).
    right. exists JNull. split; reflexivity.
Defined.

(** ** More on the profile-upsert handler *)

(** X5: a 201 answer to the create call that cannot be read (its body
    is not JSON, or it holds no [data]) is a failure: the endpoint
    answers HTTP 500 with the fixed body and the list call is not
    issued, although the remote API reported the profile created. *)
Theorem X5_unreadable_creation_fails (w : world) (env : environment)
    (request : inbound) (data : SubscribeRequest)
    (apiKey listId p : jsstring) (r : response) :
  request_json request = Normal data ->
  valid data ->
  phone data = Some p ->
  KLAVIYO_API_KEY env = Some apiKey -> apiKey <> [] ->
  KLAVIYO_LIST_ID env = Some listId -> listId <> [] ->
  let create :=
    ProfileUpsert.create_request apiKey (formattedPhone p) data (clock w 0) in
  remote w [create] = Resolved r ->
  status r = 201%Z ->
  (forall profileData,
      body_json r = Normal profileData ->
      exists e, ProfileUpsert.created_profile_id profileData = Abrupt e) ->
  exists e,
    invoke w (ProfileUpsert.POST env request)
    = (Normal ProfileUpsert.generic_error_response,
       {| calls := [create];
          console := [ (LogError, [ LStr (lit "Subscribe error:"); LExn e ]) ];
          date_reads := 1;
          slept := 0 |}).
Proof.
  intros Hjson Hvalid Hphone Hkey Hkey_set Hlist Hlist_set create Hr Hst Hbad.
  rewrite (@upsert_reached w env request data apiKey listId p) by assumption.
  unfold ProfileUpsert.upsert_and_subscribe, ProfileUpsert.create_or_update,
    ProfileUpsert.add_to_list.
  unfold_effects. fold create. rewrite Hr. unfold_effects.
  rewrite Hst, Z.eqb_refl. unfold_effects.
  destruct (body_json r) as [profileData | e] eqn:Hbody; unfold_effects.
  - destruct (Hbad profileData eq_refl) as (e & He). rewrite He.
    unfold_effects. exists e. reflexivity.
  - exists e. reflexivity.
Qed.

Lemma X5_witness :
  let w := Samples.world_of
             [ Resolved {| status := 201;
                           body_text := lit "Created";
                           body_json :=
                             Abrupt (JsError (lit "Unexpected token C in JSON")) |} ]
  in
  valid Samples.good
  /\ exists e,
       invoke w (ProfileUpsert.POST Samples.configured
                   (Samples.carrying Samples.good))
       = (Normal ProfileUpsert.generic_error_response,
          {| calls := [ ProfileUpsert.create_request (lit "sk_sample")
                          (lit "+61412345678") Samples.good
                          (Samples.midnight 0) ];
             console := [ (LogError, [ LStr (lit "Subscribe error:");
                                       LExn e ]) ];
             date_reads := 1;
             slept := 0 |}).
Proof.
  intros w. split; [exact good_is_valid |].
  assert (Hkey : lit "sk_sample" <> []) by discriminate.
  assert (Hlist : lit "LIST01" <> []) by discriminate.
  apply (@X5_unreadable_creation_fails w Samples.configured
           (Samples.carrying Samples.good) Samples.good
           (lit "sk_sample") (lit "LIST01") (lit "0412 345 678")
           {| status := 201;
              body_text := lit "Created";
              body_json := Abrupt (JsError (lit "Unexpected token C in JSON")) |}
           eq_refl good_is_valid eq_refl eq_refl Hkey eq_refl Hlist
           eq_refl eq_refl).
  intros profileData Hbody. discriminate Hbody.
Defined.

(** ** What the handlers send, and when *)

Section SentFacts.

Lemma configured_from_check (a b : option jsstring) :
  falsy a || falsy b = false ->
  exists ka kb,
    configured_as a ka /\ configured_as b kb
    /\ to_string a = ka /\ to_string b = kb.
Proof.
  intros H. apply orb_false_iff in H. destruct H as [Ha Hb].
  destruct a as [[| c ka] |]; try discriminate Ha.
  destruct b as [[| d kb] |]; try discriminate Hb.
  exists (c :: ka), (d :: kb).
  repeat split; discriminate.
Qed.


Variables (w : world) (apiKey listId formatted : jsstring).
Variable data : SubscribeRequest.

(** Every call of the upsert stage carries the credential. *)
Lemma upsert_stage_headers (rq : request) :
  In rq (calls (snd (match run w (ProfileUpsert.upsert_and_subscribe apiKey
                                   listId formatted data) no_effects with
                     | (Normal a, fx) => (Normal a, fx)
                     | (Abrupt e, fx) =>
                         run w (ProfileUpsert.POST_catch e) fx
                     end))) ->
  req_headers rq = api_headers apiKey.
Proof.
  unfold ProfileUpsert.upsert_and_subscribe, ProfileUpsert.create_or_update,
    ProfileUpsert.add_to_list, ProfileUpsert.POST_catch.
  split_run; cbn [In]; intros H;
    repeat (destruct H as [<- | H]; [reflexivity |]); contradiction.
Qed.

Variable text_gt_zero : jsval -> bool.
Variable privateApiKey : option jsstring.


End SentFacts.

(** X6: the profile-upsert handler calls the remote API only for a
    valid submission under a complete configuration, and every call it
    issues carries the configured credential in its [Authorization]
    header. *)
Theorem X6_upsert_calls_authorised (w : world) (env : environment)
    (submitted : inbound) (rq : request) :
  In rq (calls (snd (invoke w (ProfileUpsert.POST env submitted)))) ->
  exists data key listId,
    request_json submitted = Normal data
    /\ valid data
    /\ configured_as (KLAVIYO_API_KEY env) key
    /\ configured_as (KLAVIYO_LIST_ID env) listId
    /\ req_headers rq
       = [ (lit "Authorization", lit "Klaviyo-API-Key " ++ key);
           (lit "Content-Type", lit "application/json");
           (lit "revision", lit "2024-02-15") ].
Proof.
  unfold invoke, ProfileUpsert.POST. rewrite run_catch.
  destruct (request_json submitted) as [data | e] eqn:Hjson.
  - destruct (validation_cases data) as [Hmiss | [[Hall Hpc] | Hv]].
    + rewrite (upsert_try_missing env submitted Hjson Hmiss).
      intros H. contradiction H.
    + rewrite (upsert_try_bad_postcode env submitted Hjson Hall Hpc).
      intros H. contradiction H.
    + destruct (valid_checks Hv) as (p & Hp & _ & _).
      rewrite (upsert_try_valid env submitted Hjson Hv Hp).
      destruct (falsy (KLAVIYO_API_KEY env) || falsy (KLAVIYO_LIST_ID env))
        eqn:Hc.
      * intros H. contradiction H.
      * destruct (configured_from_check _ _ Hc)
          as (key & listId & Hkey & Hlist & -> & ->).
        intros H. apply upsert_stage_headers in H.
        exists data, key, listId.
        split; [reflexivity |]. split; [exact Hv |].
        split; [exact Hkey |]. split; [exact Hlist | exact H].
  - unfold ProfileUpsert.POST_try. rewrite Hjson. intros H. contradiction H.
Qed.

Lemma X6_witness :
  let w := Samples.world_of [ Resolved Samples.created;
                              Resolved Samples.no_content ] in
  let add := list_request (lit "sk_sample") (lit "LIST01") (str "01NEW") in
  In add (calls (snd (invoke w (ProfileUpsert.POST Samples.configured
                                  (Samples.carrying Samples.good)))))
  /\ exists data key listId,
       request_json (Samples.carrying Samples.good) = Normal data
       /\ valid data
       /\ configured_as (KLAVIYO_API_KEY Samples.configured) key
       /\ configured_as (KLAVIYO_LIST_ID Samples.configured) listId
       /\ req_headers add
          = [ (lit "Authorization", lit "Klaviyo-API-Key " ++ key);
              (lit "Content-Type", lit "application/json");
              (lit "revision", lit "2024-02-15") ].
Proof.
  intros w add.
  assert (Hin : In add (calls (snd (invoke w
                   (ProfileUpsert.POST Samples.configured
                      (Samples.carrying Samples.good))))))
    by (right; left; reflexivity).
  split; [exact Hin |].
  exact (@X6_upsert_calls_authorised w Samples.configured
           (Samples.carrying Samples.good) add Hin).
Defined.



(** ** The answer of the client-subscription handler *)

Section ClientAnswerFacts.

Variable text_gt_zero : jsval -> bool.
Variables (w : world) (env : environment) (submitted : inbound).
Variables (data : SubscribeRequest) (publicKey listId p : jsstring).
Hypothesis Hjson : request_json submitted = Normal data.
Hypothesis Hvalid : valid data.
Hypothesis Hphone : phone data = Some p.
Hypothesis Hpublic : configured_as (KLAVIYO_PUBLIC_API_KEY env) publicKey.
Hypothesis Hlist : configured_as (KLAVIYO_LIST_ID env) listId.

Lemma client_reached :
  invoke w (ClientSubscribe.POST text_gt_zero env submitted) =
  match run w (ClientSubscribe.subscribe_and_verify text_gt_zero publicKey
                 (KLAVIYO_API_KEY env) listId (formattedPhone p) data)
            no_effects with
  | (Normal a, fx) => (Normal a, fx)
  | (Abrupt e, fx) => run w (ClientSubscribe.POST_catch e) fx
  end.
Proof.
  unfold invoke, ClientSubscribe.POST. rewrite run_catch.
  rewrite (client_try_valid text_gt_zero env submitted Hjson Hvalid Hphone).
  destruct Hpublic as [-> Hp1]. destruct Hlist as [-> Hl1].
  destruct publicKey; [contradiction |]. destruct listId; [contradiction |].
  reflexivity.
Qed.

End ClientAnswerFacts.

(** X8: for a valid submission under a complete public configuration
    the client-subscription handler answers by the fate of at most two
    calls.  A rejected subscription call gives HTTP 500.  Once that call
    got a response, whatever its status, the answer is 200 when no
    private key is configured (and nothing else is called); with a
    private key the handler waits one second and searches the profile:
    a rejected search gives HTTP 500, and once the search got a
    response the answer is 200 whatever happens afterwards. *)
Theorem X8_client_answer (text_gt_zero : jsval -> bool) (w : world)
    (env : environment) (submitted : inbound) (data : SubscribeRequest)
    (publicKey listId p : jsstring) :
  request_json submitted = Normal data ->
  valid data ->
  phone data = Some p ->
  configured_as (KLAVIYO_PUBLIC_API_KEY env) publicKey ->
  configured_as (KLAVIYO_LIST_ID env) listId ->
  let subscribe :=
    ClientSubscribe.subscription_request publicKey listId (formattedPhone p)
      data (clock w 0) in
  let result := invoke w (ClientSubscribe.POST text_gt_zero env submitted) in
  let failure (e : exn) :=
    json_response 500
      (JObj [ prop "success" (JBool false);
              prop "error" (JStr (ClientSubscribe.error_text e)) ]) in
  (forall e,
      remote w [subscribe] = Rejected e ->
      fst result = Normal (failure e) /\ calls (snd result) = [subscribe])
  /\ (forall r,
        remote w [subscribe] = Resolved r ->
        absent_or_empty (KLAVIYO_API_KEY env) ->
        fst result = Normal subscribed_response
        /\ calls (snd result) = [subscribe]
        /\ slept (snd result) = 0%N)
  /\ (forall r privateKey,
        remote w [subscribe] = Resolved r ->
        configured_as (KLAVIYO_API_KEY env) privateKey ->
        let search :=
          ClientSubscribe.search_request privateKey (formattedPhone p) in
        slept (snd result) = 1000%N
        /\ (forall e,
               remote w [subscribe; search] = Rejected e ->
               fst result = Normal (failure e)
               /\ calls (snd result) = [subscribe; search])
        /\ (forall r',
               remote w [subscribe; search] = Resolved r' ->
               fst result = Normal subscribed_response)).
Proof.
  intros Hjson Hvalid Hphone Hpublic Hlist subscribe result failure.
  assert (Hreached := @client_reached text_gt_zero w env submitted data
                        publicKey listId p Hjson Hvalid Hphone Hpublic Hlist).
  fold result in Hreached. revert Hreached.
  unfold ClientSubscribe.subscribe_and_verify, ClientSubscribe.verify_profile,
    ClientSubscribe.update_found, ClientSubscribe.create_missing,
    ClientSubscribe.POST_catch.
  intros Hreached. split; [| split].
  - intros e He. revert Hreached. unfold_effects. fold subscribe.
    rewrite He. unfold_effects. intros ->. split; reflexivity.
  - intros r Hr Hprivate. apply falsy_iff in Hprivate. revert Hreached.
    unfold_effects. fold subscribe. rewrite Hr. unfold_effects.
    rewrite Hprivate. unfold_effects. intros ->. repeat split.
  - intros r privateKey Hr [Hprivate Hset].
    revert Hreached. rewrite Hprivate.
    destruct privateKey as [| c key]; [contradiction |].
    cbn [falsy nonempty negb to_string].
    unfold_effects. fold subscribe. rewrite Hr. unfold_effects.
    intros ->. split; [| split].
    + split_run; reflexivity.
    + intros e He. rewrite He. unfold_effects. split; reflexivity.
    + intros r' Hr'. rewrite Hr'. split_run; reflexivity.
Qed.

Lemma X8_witness :
  let w := Samples.world_of [ Resolved Samples.unavailable ] in
  valid Samples.good
  /\ configured_as (KLAVIYO_PUBLIC_API_KEY MoreSamples.public_only)
       (lit "pk_sample")
  /\ absent_or_empty (KLAVIYO_API_KEY MoreSamples.public_only)
  /\ status Samples.unavailable = 503%Z
  /\ fst (invoke w (ClientSubscribe.POST Samples.no_coercion
                      MoreSamples.public_only
                      (Samples.carrying Samples.good)))
     = Normal subscribed_response.
Proof.
  intros w.
  assert (Hpublic : configured_as
                      (KLAVIYO_PUBLIC_API_KEY MoreSamples.public_only)
                      (lit "pk_sample"))
    by (split; [reflexivity | discriminate]).
  assert (Hlist : configured_as (KLAVIYO_LIST_ID MoreSamples.public_only)
                    (lit "LIST01"))
    by (split; [reflexivity | discriminate]).
  assert (Hprivate : absent_or_empty (KLAVIYO_API_KEY MoreSamples.public_only))
    by (left; reflexivity).
  split; [exact good_is_valid |]. split; [exact Hpublic |].
  split; [exact Hprivate |]. split; [reflexivity |].
  destruct (@X8_client_answer Samples.no_coercion w MoreSamples.public_only
              (Samples.carrying Samples.good) Samples.good
              (lit "pk_sample") (lit "LIST01") (lit "0412 345 678")
              eq_refl good_is_valid eq_refl Hpublic Hlist)
    as (_ & Hanswered & _).
  exact (proj1 (Hanswered Samples.unavailable eq_refl Hprivate)).
Defined.

(* ===================================================================== *)
(** * The bulk-subscription handler and the preview-image script *)
(* ===================================================================== *)

Import Runtime.
Import Traces.

(** ** Running tasks *)

Section ExecFacts.

Context {A B : Type} (pf : platform).

Lemma exec_bind (t : task A) (f : A -> task B) (m : machine) :
  exec pf (bind t f) m =
  match exec pf t m with
  | (Normal a, m') => exec pf (f a) m'
  | (Abrupt e, m') => (Abrupt e, m')
  end.
Proof.
  revert m.
  induction t as [a | e | rq k IH | p k IH | ps k IH | p c k IH | p k IH
                  | k IH | lvl args k IH]; intros m; cbn; try reflexivity;
    try apply IH.
  - destruct (write_error pf p); apply IH.
  - destruct (mkdir_error pf p); apply IH.
Qed.

Lemma exec_catch (t : task A) (h : exn -> task A) (m : machine) :
  exec pf (catch t h) m =
  match exec pf t m with
  | (Normal a, m') => (Normal a, m')
  | (Abrupt e, m') => exec pf (h e) m'
  end.
Proof.
  revert m.
  induction t as [a | e | rq k IH | p k IH | ps k IH | p c k IH | p k IH
                  | k IH | lvl args k IH]; intros m; cbn; try reflexivity;
    try apply IH.
  - destruct (write_error pf p); apply IH.
  - destruct (mkdir_error pf p); apply IH.
Qed.

End ExecFacts.

(** Runs a task symbolically. *)
Ltac unfold_tasks :=
  repeat progress
    (unfold attempt, web_fetch, readFile, readFiles, writeFile, mkdir,
       date_now, print_log, print_error, fresh, OgImage.download_one;
     cbn [exec tbind rescue bind ret raise catch Monad_task Exc_task
          files requested printed dates made app fst snd
          time web missing first_rejection mkdir_error write_error negb
          OgImage.download_each OgImage.url OgImage.filename]).

Ltac split_exec :=
  repeat (unfold_tasks;
          match goal with
          | |- context [match ?o with Answered _ => _ | Unreachable _ => _ end] =>
              destruct o eqn:?
          | |- context [match ?c with Normal _ => _ | Abrupt _ => _ end] =>
              destruct c eqn:?
          | |- context [match write_error ?pf ?p with _ => _ end] =>
              destruct (write_error pf p) eqn:?
          | |- context [match mkdir_error ?pf ?p with _ => _ end] =>
              destruct (mkdir_error pf p) eqn:?
          | |- context [if ?b then _ else _] => destruct b eqn:?
          end);
  unfold_tasks.

(** ** The bulk-subscription handler *)

Section BulkFacts.

Variables (pf : platform) (env : environment) (submitted : inbound).

Lemma bulk_try_unparsable (e : exn) :
  request_json submitted = Abrupt e ->
  BulkSubscribe.POST_try env submitted = Fail e.
Proof.
  intros H. unfold BulkSubscribe.POST_try. rewrite H. reflexivity.
Qed.

Variable data : SubscribeRequest.
Hypothesis Hjson : request_json submitted = Normal data.

Lemma bulk_try_missing :
  missing_required data ->
  BulkSubscribe.POST_try env submitted = Done missing_fields_response.
Proof.
  intros H. apply missing_required_iff in H.
  unfold BulkSubscribe.POST_try. rewrite Hjson.
  cbn [attempt bind ret Monad_task tbind]. rewrite H. reflexivity.
Qed.

Lemma bulk_try_bad_postcode :
  all_present data -> ~ postcode_well_formed data ->
  BulkSubscribe.POST_try env submitted = Done invalid_postcode_response.
Proof.
  intros Hall Hpc.
  unfold BulkSubscribe.POST_try. rewrite Hjson.
  cbn [attempt bind ret Monad_task tbind].
  rewrite (all_present_checks Hall).
  rewrite (postcode_check_fails (proj2 (proj2 Hall)) Hpc).
  reflexivity.
Qed.

Lemma bulk_try_valid (p : jsstring) :
  valid data -> phone data = Some p ->
  BulkSubscribe.POST_try env submitted =
  if falsy (KLAVIYO_API_KEY env) || falsy (KLAVIYO_LIST_ID env) then
    print_error [ LStr (lit "Missing Klaviyo configuration") ] ;;
    ret configuration_error_response
  else
    BulkSubscribe.subscribe
      (to_string (KLAVIYO_API_KEY env)) (to_string (KLAVIYO_LIST_ID env))
      (formattedPhone p) data.
Proof.
  intros Hv Hp. destruct (valid_checks Hv) as (p' & Hp' & Hm & Hc).
  unfold BulkSubscribe.POST_try. rewrite Hjson.
  cbn [attempt bind ret Monad_task tbind].
  rewrite Hm, Hc, Hp. reflexivity.
Qed.

End BulkFacts.

(** X9: on every request that does not reach the remote API (a body
    that does not parse, an invalid submission, an incomplete
    configuration) the bulk-subscription handler behaves as the
    profile-upsert handler: same answer, same lines on the console, and
    no request sent. *)
Theorem X9_bulk_agrees_before_remote (pf : platform) (w : world)
    (env : environment) (submitted : inbound) :
  (forall data,
      request_json submitted = Normal data -> valid data ->
      upsert_unconfigured env) ->
  let bulk := BulkSubscribe.serve pf (BulkSubscribe.POST env submitted) in
  let upsert := invoke w (ProfileUpsert.POST env submitted) in
  fst bulk = fst upsert
  /\ printed (snd bulk) = console (snd upsert)
  /\ requested (snd bulk) = []
  /\ calls (snd upsert) = [].
Proof.
  intros Hstops bulk upsert. subst bulk upsert.
  unfold BulkSubscribe.serve, BulkSubscribe.POST, invoke, ProfileUpsert.POST.
  rewrite exec_catch, run_catch.
  destruct (request_json submitted) as [data | e] eqn:Hjson.
  - destruct (validation_cases data) as [Hmiss | [[Hall Hpc] | Hv]].
    + rewrite (bulk_try_missing env submitted Hjson Hmiss).
      rewrite (upsert_try_missing env submitted Hjson Hmiss).
      repeat split.
    + rewrite (bulk_try_bad_postcode env submitted Hjson Hall Hpc).
      rewrite (upsert_try_bad_postcode env submitted Hjson Hall Hpc).
      repeat split.
    + destruct (valid_checks Hv) as (p & Hp & _ & _).
      rewrite (bulk_try_valid env submitted Hjson Hv Hp).
      rewrite (upsert_try_valid env submitted Hjson Hv Hp).
      rewrite (unconfigured_check (Hstops data eq_refl Hv)).
      repeat split.
  - rewrite (bulk_try_unparsable env submitted Hjson).
    unfold ProfileUpsert.POST_try. rewrite Hjson. repeat split.
Qed.

Lemma X9_witness :
  let bulk :=
    BulkSubscribe.serve (MoreSamples.platform_of [])
      (BulkSubscribe.POST Samples.configured Samples.unparsable) in
  let upsert :=
    invoke (Samples.world_of [])
      (ProfileUpsert.POST Samples.configured Samples.unparsable) in
  fst bulk = Normal ProfileUpsert.generic_error_response
  /\ fst bulk = fst upsert
  /\ printed (snd bulk) = console (snd upsert).
Proof.
  intros bulk upsert. split; [reflexivity |].
  destruct (@X9_bulk_agrees_before_remote (MoreSamples.platform_of [])
              (Samples.world_of []) Samples.configured Samples.unparsable)
    as (Hanswer & Hprinted & _).
  - intros data Hjson. discriminate Hjson.
  - split; [exact Hanswer | exact Hprinted].
Defined.

(** X10: for a valid submission under a complete configuration the
    bulk-subscription handler sends exactly one request: a POST to the
    bulk-subscription endpoint with the configured credential in its
    [Authorization] header, whose body is the subscription job for the
    normalised phone, the submitted name and postcode and the configured
    list.  It answers by the fate of that request alone: HTTP 200 when
    the response is a success, HTTP 500 with the fixed body when the
    response is not a success (its text is logged) or when the request
    is rejected. *)
Theorem X10_bulk_answer (pf : platform) (env : environment)
    (submitted : inbound) (data : SubscribeRequest)
    (apiKey listId name p code : jsstring) :
  request_json submitted = Normal data ->
  valid data ->
  firstName data = Some name ->
  phone data = Some p ->
  postcode data = Some code ->
  configured_as (KLAVIYO_API_KEY env) apiKey ->
  configured_as (KLAVIYO_LIST_ID env) listId ->
  let profile :=
    JObj [ prop "type" (str "profile");
           prop "attributes"
             (JObj [ prop "phone_number" (JStr (formattedPhone p));
                     prop "first_name" (JStr name);
                     prop "location"
                       (JObj [ prop "zip" (JStr code);
                               prop "country" (str "Australia") ]);
                     prop "properties"
                       (JObj [ prop "postcode" (JStr code);
                               prop "source"
                                 (str "Ferguson Livestock Website");
                               prop "signup_date" (JStr (time pf 0)) ]) ]) ]
  in
  let job :=
    {| web_method := POST_;
       web_url :=
         lit "https://a.klaviyo.com/api/profile-subscription-bulk-create-jobs";
       web_headers :=
         [ (lit "Authorization", lit "Klaviyo-API-Key " ++ apiKey);
           (lit "Content-Type", lit "application/json");
           (lit "revision", lit "2024-02-15") ];
       web_body :=
         Some (JObj [ prop "data"
           (JObj [ prop "type" (str "profile-subscription-bulk-create-job");
                   prop "attributes"
                     (JObj [ prop "profiles"
                               (JObj [ prop "data" (JArr [ profile ]) ]);
                             prop "historical_import" (JBool false) ]);
                   prop "relationships"
                     (JObj [ prop "list"
                       (JObj [ prop "data"
                         (JObj [ prop "type" (str "list");
                                 prop "id" (JStr listId) ]) ]) ]) ]) ]) |} in
  let result := BulkSubscribe.serve pf (BulkSubscribe.POST env submitted) in
  let success :=
    {| resp_status := 200;
       resp_headers := [(lit "Content-Type", lit "application/json")];
       resp_body :=
         JObj [ prop "success" (JBool true);
                prop "message"
                  (str "Successfully subscribed to the wait list!") ] |} in
  let failure :=
    {| resp_status := 500;
       resp_headers := [(lit "Content-Type", lit "application/json")];
       resp_body :=
         JObj [ prop "success" (JBool false);
                prop "error" (str "An error occurred. Please try again.") ] |}
  in
  requested (snd result) = [job]
  /\ (forall r,
        web pf [job] = Answered r -> web_ok r = true ->
        fst result = Normal success
        /\ printed (snd result) = [])
  /\ (forall r,
        web pf [job] = Answered r -> web_ok r = false ->
        fst result = Normal failure
        /\ printed (snd result)
           = [ (LogError, [ LStr (lit "Klaviyo subscription failed:");
                            LStr (web_text r) ]);
               (LogError, [ LStr (lit "Subscribe error:");
                            LExn (JsError (lit "Failed to subscribe")) ]) ])
  /\ (forall e,
        web pf [job] = Unreachable e ->
        fst result = Normal failure
        /\ printed (snd result)
           = [ (LogError, [ LStr (lit "Subscribe error:"); LExn e ]) ]).
Proof.
  intros Hjson Hvalid Hname Hphone Hcode [Hkey Hkey_set] [Hlist Hlist_set]
    profile job result success failure.
  assert (Ejob :
    BulkSubscribe.subscribe_request apiKey listId (formattedPhone p) data
      (time pf 0) = job).
  { unfold BulkSubscribe.subscribe_request, BulkSubscribe.subscribePayload.
    rewrite Hname, Hcode. reflexivity. }
  clearbody job. clear profile.
  subst result.
  unfold BulkSubscribe.serve, BulkSubscribe.POST. rewrite exec_catch.
  rewrite (bulk_try_valid env submitted Hjson Hvalid Hphone).
  rewrite Hkey, Hlist.
  destruct apiKey as [| c key]; [contradiction |].
  destruct listId as [| d lid]; [contradiction |].
  cbn [falsy nonempty negb orb to_string].
  unfold BulkSubscribe.subscribe, BulkSubscribe.POST_catch.
  unfold_tasks. rewrite Ejob.
  split; [split_exec; reflexivity |].
  split; [| split].
  - intros r Hr Hok. rewrite Hr. unfold_tasks. rewrite Hok.
    unfold_tasks. split; reflexivity.
  - intros r Hr Hok. rewrite Hr. unfold_tasks. rewrite Hok.
    unfold_tasks. split; reflexivity.
  - intros e He. rewrite He. unfold_tasks. split; reflexivity.
Qed.

Lemma X10_witness :
  let pf := MoreSamples.platform_of [ Answered MoreSamples.throttled ] in
  let result :=
    BulkSubscribe.serve pf
      (BulkSubscribe.POST Samples.configured (Samples.carrying Samples.good)) in
  valid Samples.good
  /\ web_ok MoreSamples.throttled = false
  /\ fst result = Normal ProfileUpsert.generic_error_response
  /\ printed (snd result)
     = [ (LogError, [ LStr (lit "Klaviyo subscription failed:");
                      LStr (lit "throttled") ]);
         (LogError, [ LStr (lit "Subscribe error:");
                      LExn (JsError (lit "Failed to subscribe")) ]) ].
Proof.
  intros pf result.
  split; [exact good_is_valid |]. split; [reflexivity |].
  assert (Hkey : configured_as (KLAVIYO_API_KEY Samples.configured)
                   (lit "sk_sample"))
    by (split; [reflexivity | discriminate]).
  assert (Hlist : configured_as (KLAVIYO_LIST_ID Samples.configured)
                    (lit "LIST01"))
    by (split; [reflexivity | discriminate]).
  destruct (@X10_bulk_answer pf Samples.configured
              (Samples.carrying Samples.good) Samples.good
              (lit "sk_sample") (lit "LIST01") (lit "Ann")
              (lit "0412 345 678") (lit "2650")
              eq_refl good_is_valid eq_refl eq_refl eq_refl Hkey Hlist)
    as (_ & _ & Hrefused & _).
  exact (Hrefused MoreSamples.throttled eq_refl eq_refl).
Defined.

(** ** Paths and files *)

Section PathFacts.

Lemma jsstring_eqb_eq (a b : jsstring) : JsString.eqb a b = true <-> a = b.
Proof.
  revert b. induction a as [| x a IH]; intros [| y b]; cbn;
    try (split; [discriminate | discriminate]); [tauto |].
  rewrite andb_true_iff, N.eqb_eq, IH.
  split; [intros [-> ->]; reflexivity | intros [= -> ->]; split; reflexivity].
Qed.

Lemma path_eqb_eq (p q : path) : path_eqb p q = true <-> p = q.
Proof.
  revert q. induction p as [| a p IH]; intros [| b q]; cbn;
    try (split; [discriminate | discriminate]); [tauto |].
  rewrite andb_true_iff, jsstring_eqb_eq, IH.
  split; [intros [-> ->]; reflexivity | intros [= -> ->]; split; reflexivity].
Qed.

Lemma path_eqb_refl (p : path) : path_eqb p p = true.
Proof. apply path_eqb_eq. reflexivity. Qed.

Lemma path_eqb_neq (p q : path) : p <> q -> path_eqb p q = false.
Proof.
  intros H. destruct (path_eqb p q) eqn:E; [| reflexivity].
  apply path_eqb_eq in E. contradiction.
Qed.

Lemma path_eqb_prefix (r a b : path) :
  path_eqb (r ++ a) (r ++ b) = path_eqb a b.
Proof.
  induction r as [| s r IH]; [reflexivity |].
  cbn. rewrite IH.
  assert (H : JsString.eqb s s = true) by (apply jsstring_eqb_eq; reflexivity).
  rewrite H. reflexivity.
Qed.

Lemma written_same (fs : path -> option bytes) (p : path) (c : bytes) :
  written fs p c p = Some c.
Proof. unfold written. rewrite path_eqb_refl. reflexivity. Qed.

Lemma written_other (fs : path -> option bytes) (p q : path) (c : bytes) :
  q <> p -> written fs p c q = fs q.
Proof. intros H. unfold written. rewrite (path_eqb_neq H). reflexivity. Qed.

Variable dirname : path.

Lemma fonts_dir_regular :
  join (join (OgImage.rootDir dirname) (lit "scripts/fonts")) (lit "SourceSans3-Regular.ttf")
  = OgImage.fontRegularPath dirname.
Proof. reflexivity. Qed.

Lemma fonts_dir_bold :
  join (join (OgImage.rootDir dirname) (lit "scripts/fonts")) (lit "SourceSans3-Bold.ttf")
  = OgImage.fontBoldPath dirname.
Proof. reflexivity. Qed.

Lemma fonts_dir_display :
  join (join (OgImage.rootDir dirname) (lit "scripts/fonts")) (lit "CormorantGaramond-SemiBold.ttf")
  = OgImage.fontDisplayPath dirname.
Proof. reflexivity. Qed.

Lemma regular_path :
  OgImage.fontRegularPath dirname
  = OgImage.rootDir dirname ++ [lit "scripts"; lit "fonts"; lit "SourceSans3-Regular.ttf"].
Proof.
  unfold OgImage.fontRegularPath. generalize (OgImage.rootDir dirname). intros r.
  cbn. rewrite <- !app_assoc. reflexivity.
Qed.

Lemma bold_path :
  OgImage.fontBoldPath dirname
  = OgImage.rootDir dirname ++ [lit "scripts"; lit "fonts"; lit "SourceSans3-Bold.ttf"].
Proof.
  unfold OgImage.fontBoldPath. generalize (OgImage.rootDir dirname). intros r.
  cbn. rewrite <- !app_assoc. reflexivity.
Qed.

Lemma display_path :
  OgImage.fontDisplayPath dirname
  = OgImage.rootDir dirname ++ [lit "scripts"; lit "fonts"; lit "CormorantGaramond-SemiBold.ttf"].
Proof.
  unfold OgImage.fontDisplayPath. generalize (OgImage.rootDir dirname). intros r.
  cbn. rewrite <- !app_assoc. reflexivity.
Qed.

Lemma output_path :
  OgImage.outputPath dirname = OgImage.rootDir dirname ++ [lit "public"; lit "og-image.jpg"].
Proof.
  unfold OgImage.outputPath. generalize (OgImage.rootDir dirname). intros r.
  cbn. rewrite <- !app_assoc. reflexivity.
Qed.

Lemma background_path :
  OgImage.backgroundImagePath dirname
  = OgImage.rootDir dirname ++ [lit "src"; lit "assets"; lit "images"; lit "cows-1.webp"].
Proof.
  unfold OgImage.backgroundImagePath. generalize (OgImage.rootDir dirname). intros r.
  cbn. rewrite <- !app_assoc. reflexivity.
Qed.

End PathFacts.

(** ** The download loop *)

Section DownloadFacts.

Variables (pf : platform) (fontsDir : path).

(** What one round of the loop does when it ends normally. *)
Lemma download_one_normal (f : OgImage.font_source) (m m' : machine)
    (u : unit) :
  exec pf (OgImage.download_one fontsDir f) m = (Normal u, m') ->
  exists r,
    web pf (requested m ++ [get (OgImage.url f)]) = Answered r
    /\ web_ok r = true
    /\ write_error pf (join fontsDir (OgImage.filename f)) = None
    /\ files m' = written (files m) (join fontsDir (OgImage.filename f))
                    (web_bytes r)
    /\ requested m' = requested m ++ [get (OgImage.url f)].
Proof.
  unfold OgImage.download_one. unfold_tasks.
  destruct (web pf (requested m ++ [get (OgImage.url f)])) as [r | e] eqn:Hweb;
    unfold_tasks; [| discriminate].
  destruct (web_ok r) eqn:Hok; unfold_tasks; [| discriminate].
  destruct (write_error pf (join fontsDir (OgImage.filename f))) eqn:Hwrite;
    unfold_tasks; [discriminate |].
  intros [= _ <-]. exists r. repeat split; try assumption; reflexivity.
Qed.

(** The loop over [a ++ b] is the loop over [a] followed, unless it
    throws, by the loop over [b]. *)
Lemma download_each_app (a b : list OgImage.font_source) (m : machine) :
  exec pf (OgImage.download_each fontsDir (a ++ b)) m =
  match exec pf (OgImage.download_each fontsDir a) m with
  | (Normal _, m1) => exec pf (OgImage.download_each fontsDir b) m1
  | (Abrupt e, m1) => (Abrupt e, m1)
  end.
Proof.
  revert m. induction a as [| f a IH]; intros m; [reflexivity |].
  cbn [app OgImage.download_each]. rewrite !exec_bind.
  destruct (exec pf (OgImage.download_one fontsDir f) m) as [[u | e] m1];
    [apply IH | reflexivity].
Qed.

End DownloadFacts.

(** X11: the download loop stops at the first font that cannot be
    fetched.  When the fonts before it were downloaded and its own
    response is not a success, the loop throws
    "Failed to download <filename>: <status>"; when its request is
    rejected, the loop throws the rejection.  Either way nothing is
    written for that font and no request is sent for the fonts after
    it. *)
Theorem X11_download_stops_at_first_failure (pf : platform) (fontsDir : path)
    (before after : list OgImage.font_source) (f : OgImage.font_source)
    (m m1 : machine) :
  exec pf (OgImage.download_each fontsDir before) m = (Normal tt, m1) ->
  let attempt_f :=
    exec pf (OgImage.download_each fontsDir (before ++ f :: after)) m in
  (forall r,
      web pf (requested m1 ++ [get (OgImage.url f)]) = Answered r ->
      web_ok r = false ->
      attempt_f
      = (Abrupt (JsError (lit "Failed to download " ++ OgImage.filename f
                          ++ lit ": " ++ decimal (web_status r))),
         after_request m1 f))
  /\ (forall e,
        web pf (requested m1 ++ [get (OgImage.url f)]) = Unreachable e ->
        attempt_f = (Abrupt e, after_request m1 f)).
Proof.
  intros Hbefore attempt_f. subst attempt_f.
  rewrite download_each_app, Hbefore.
  cbn [OgImage.download_each]. rewrite exec_bind.
  unfold OgImage.download_one. unfold_tasks.
  split.
  - intros r Hr Hok. rewrite Hr. unfold_tasks. rewrite Hok. reflexivity.
  - intros e He. rewrite He. reflexivity.
Qed.

Lemma X11_witness :
  let pf := MoreSamples.platform_of
              [ Answered (MoreSamples.font_file Byte.x01);
                Answered MoreSamples.gone;
                Answered (MoreSamples.font_file Byte.x03) ] in
  let dir := [lit "site"; lit "scripts"; lit "fonts"] in
  let result :=
    exec pf (OgImage.download_each dir OgImage.font_sources)
         (fresh (fun _ => None)) in
  fst result
  = Abrupt (JsError (lit "Failed to download SourceSans3-Bold.ttf: 404"))
  /\ List.length (requested (snd result)) = 2
  /\ files (snd result) (dir ++ [lit "SourceSans3-Regular.ttf"])
     = Some [Byte.x01; Byte.x01]
  /\ files (snd result) (dir ++ [lit "SourceSans3-Bold.ttf"]) = None
  /\ files (snd result) (dir ++ [lit "CormorantGaramond-SemiBold.ttf"]) = None.
Proof.
  intros pf dir result.
  assert (Hstop := proj1 (@X11_download_stops_at_first_failure pf dir
            [ nth 0 OgImage.font_sources (OgImage.Build_font_source [] []) ]
            [ nth 2 OgImage.font_sources (OgImage.Build_font_source [] []) ]
            (nth 1 OgImage.font_sources (OgImage.Build_font_source [] []))
            (fresh (fun _ => None)) _ eq_refl)
          MoreSamples.gone eq_refl eq_refl).
  change (exec pf (OgImage.download_each dir _) (fresh (fun _ => None)))
    with result in Hstop.
  rewrite Hstop. repeat split.
Defined.

Section LoopInvariant.

Variables (pf : platform) (fontsDir : path).

(** What a loop that ends normally leaves behind. *)
Lemma download_each_normal (fonts : list OgImage.font_source) :
  forall (m m' : machine) (u : unit),
    exec pf (OgImage.download_each fontsDir fonts) m = (Normal u, m') ->
    requested m' = requested m ++ map request_for fonts
    /\ (forall q, files m q <> None -> files m' q <> None)
    /\ (forall f, In f fonts -> files m' (target fontsDir f) <> None)
    /\ (forall q,
           (forall f, In f fonts -> q <> target fontsDir f) ->
           files m' q = files m q).
Proof.
  induction fonts as [| f rest IH]; intros m m' u.
  - cbn. intros [= _ <-]. rewrite app_nil_r.
    repeat split; [tauto | contradiction].
  - cbn [OgImage.download_each]. rewrite exec_bind.
    destruct (exec pf (OgImage.download_one fontsDir f) m) as [[u1 | e] m1]
      eqn:Hone; [| discriminate].
    intros Hrest.
    destruct (download_one_normal pf fontsDir f m Hone)
      as (r & _ & _ & _ & Hfiles & Hsent).
    destruct (IH m1 m' u Hrest) as (Hsent' & Hkept & Hthere & Hother).
    fold (target fontsDir f) in Hfiles.
    assert (Hstep : forall q, files m q <> None -> files m1 q <> None).
    { intros q Hq. rewrite Hfiles. unfold written.
      destruct (path_eqb q (target fontsDir f)); [discriminate | exact Hq]. }
    split; [| split; [| split]].
    + rewrite Hsent', Hsent, <- app_assoc. reflexivity.
    + intros q Hq. apply Hkept, Hstep, Hq.
    + intros g [<- | Hg]; [| apply Hthere, Hg].
      apply Hkept. rewrite Hfiles, written_same. discriminate.
    + intros q Hq. rewrite Hother.
      * rewrite Hfiles. apply written_other. apply Hq. left. reflexivity.
      * intros g Hg. apply Hq. right. exact Hg.
Qed.

End LoopInvariant.

(** X12: when the download loop ends normally it has sent one request
    per font, in the order of the list, every file it was to write
    exists afterwards, every file that existed still exists, and no
    file other than its targets was changed. *)
Theorem X12_download_leaves_fonts (pf : platform) (fontsDir : path)
    (fonts : list OgImage.font_source) (m m' : machine) :
  exec pf (OgImage.download_each fontsDir fonts) m = (Normal tt, m') ->
  requested m'
  = requested m ++ map (fun f => get (OgImage.url f)) fonts
  /\ (forall f,
         In f fonts ->
         files m' (join fontsDir (OgImage.filename f)) <> None)
  /\ (forall q, files m q <> None -> files m' q <> None)
  /\ (forall q,
         (forall f, In f fonts -> q <> join fontsDir (OgImage.filename f)) ->
         files m' q = files m q).
Proof.
  intros Hrun.
  destruct (download_each_normal pf fontsDir fonts m Hrun)
    as (Hsent & Hkept & Hthere & Hother).
  repeat split; assumption.
Qed.

Lemma X12_witness :
  let pf := MoreSamples.platform_of
              [ Answered (MoreSamples.font_file Byte.x01);
                Answered (MoreSamples.font_file Byte.x02);
                Answered (MoreSamples.font_file Byte.x03) ] in
  let dir := [lit "site"; lit "scripts"; lit "fonts"] in
  let m' :=
    snd (exec pf (OgImage.download_each dir OgImage.font_sources)
              (fresh MoreSamples.checkout)) in
  List.length (requested m') = 3
  /\ files m' (dir ++ [lit "SourceSans3-Bold.ttf"]) <> None
  /\ files m' [lit "site"; lit "src"; lit "assets"; lit "images";
               lit "cows-1.webp"]
     = Some [Byte.x52; Byte.x49; Byte.x46; Byte.x46].
Proof.
  intros pf dir m'.
  destruct (@X12_download_leaves_fonts pf dir OgImage.font_sources
              (fresh MoreSamples.checkout) m' eq_refl)
    as (Hsent & Hthere & _ & Hother).
  split; [rewrite Hsent; reflexivity |].
  split.
  - apply (Hthere (nth 1 OgImage.font_sources
                       (OgImage.Build_font_source [] []))).
    right. left. reflexivity.
  - rewrite Hother; [reflexivity |].
    intros f [<- | [<- | [<- | []]]]; discriminate.
Defined.

(** ** The script *)

Section ScriptFacts.

Variable dirname : path.

Lemma output_is_no_font :
  path_eqb (OgImage.outputPath dirname) (OgImage.fontRegularPath dirname)
  = false
  /\ path_eqb (OgImage.outputPath dirname) (OgImage.fontBoldPath dirname)
     = false
  /\ path_eqb (OgImage.outputPath dirname) (OgImage.fontDisplayPath dirname)
     = false.
Proof.
  rewrite output_path, regular_path, bold_path, display_path.
  repeat split; apply path_eqb_prefix.
Qed.

(** Writing the three fonts and reading them back gives what was
    written. *)
Lemma fonts_read_back (pf : platform) (fs : path -> option bytes)
    (b1 b2 b3 : bytes) :
  read_all pf
    (written (written (written fs (OgImage.fontRegularPath dirname) b1)
                      (OgImage.fontBoldPath dirname) b2)
             (OgImage.fontDisplayPath dirname) b3)
    [ OgImage.fontRegularPath dirname; OgImage.fontBoldPath dirname;
      OgImage.fontDisplayPath dirname ]
  = Normal [b1; b2; b3].
Proof.
  rewrite regular_path, bold_path, display_path.
  set (r := OgImage.rootDir dirname).
  set (p1 := [lit "scripts"; lit "fonts"; lit "SourceSans3-Regular.ttf"]).
  set (p2 := [lit "scripts"; lit "fonts"; lit "SourceSans3-Bold.ttf"]).
  set (p3 := [lit "scripts"; lit "fonts"; lit "CormorantGaramond-SemiBold.ttf"]).
  unfold read_all, read_each, read, written.
  rewrite (path_eqb_prefix r p1 p3), (path_eqb_prefix r p1 p2),
    (path_eqb_prefix r p1 p1), (path_eqb_prefix r p2 p3),
    (path_eqb_prefix r p2 p2), (path_eqb_prefix r p3 p3).
  reflexivity.
Qed.

Lemma fonts_on_disk (pf : platform) (fs : path -> option bytes)
    (a b c : bytes) :
  fs (OgImage.fontRegularPath dirname) = Some a ->
  fs (OgImage.fontBoldPath dirname) = Some b ->
  fs (OgImage.fontDisplayPath dirname) = Some c ->
  read_all pf fs
    [ OgImage.fontRegularPath dirname; OgImage.fontBoldPath dirname;
      OgImage.fontDisplayPath dirname ]
  = Normal [a; b; c].
Proof.
  intros Ha Hb Hc. unfold read_all, read_each, read.
  rewrite Ha, Hb, Hc. reflexivity.
Qed.

End ScriptFacts.

(** X13: a failure to create the fonts directory is swallowed.  No
    directory is made, and the first font is requested all the same.
    When the file of that font then cannot be written, as happens when
    the directory is missing, the download ends there with the error of
    the write: no file changed, nothing more requested. *)
Theorem X13_mkdir_failure_is_swallowed (pf : platform) (dirname : path)
    (m : machine) (e : exn) :
  let fontsDir := join (OgImage.rootDir dirname) (lit "scripts/fonts") in
  let first :=
    {| web_method := GET;
       web_url := lit "https://cdn.jsdelivr.net/fontsource/fonts/source-sans-3@latest/latin-400-normal.ttf";
       web_headers := [];
       web_body := None |} in
  let result := exec pf (OgImage.downloadFonts dirname) m in
  mkdir_error pf fontsDir = Some e ->
  made (snd result) = made m
  /\ (exists rest, requested (snd result) = requested m ++ first :: rest)
  /\ (forall r e',
        web pf (requested m ++ [first]) = Answered r ->
        web_ok r = true ->
        write_error pf (OgImage.fontRegularPath dirname) = Some e' ->
        fst result = Abrupt e'
        /\ files (snd result) = files m
        /\ requested (snd result) = requested m ++ [first]).
Proof.
  intros fontsDir first result Hmkdir. subst result.
  unfold OgImage.downloadFonts. fold fontsDir.
  unfold OgImage.font_sources. unfold_tasks. rewrite Hmkdir. unfold_tasks.
  change (get (lit "https://cdn.jsdelivr.net/fontsource/fonts/source-sans-3@latest/latin-400-normal.ttf"))
    with first.
  split; [| split].
  - split_exec; reflexivity.
  - split_exec; rewrite <- ?app_assoc; cbn [app]; eexists; reflexivity.
  - intros r e' Hr Hok Hwrite. rewrite Hr. unfold_tasks. rewrite Hok.
    unfold_tasks. subst fontsDir. rewrite fonts_dir_regular, Hwrite.
    unfold_tasks. repeat split.
Qed.

Lemma X13_witness :
  let pf :=
    {| time := Samples.midnight;
       web := fun sent =>
                MoreSamples.replies [ Answered (MoreSamples.font_file Byte.x01) ]
                                    (List.length sent);
       missing := MoreSamples.enoent;
       first_rejection := fun errors => hd (JsError []) errors;
       mkdir_error := fun _ => Some (JsError (lit "EACCES: permission denied"));
       write_error := fun p => Some (MoreSamples.enoent p) |} in
  let result :=
    exec pf (OgImage.downloadFonts MoreSamples.scripts_dir)
         (fresh MoreSamples.checkout) in
  fst result
  = Abrupt (MoreSamples.enoent
              (OgImage.fontRegularPath MoreSamples.scripts_dir))
  /\ files (snd result) = MoreSamples.checkout
  /\ List.length (requested (snd result)) = 1.
Proof.
  intros pf result.
  destruct (@X13_mkdir_failure_is_swallowed pf MoreSamples.scripts_dir
              (fresh MoreSamples.checkout)
              (JsError (lit "EACCES: permission denied")) eq_refl)
    as (_ & _ & Hends).
  destruct (Hends (MoreSamples.font_file Byte.x01)
              (MoreSamples.enoent
                 (OgImage.fontRegularPath MoreSamples.scripts_dir))
              eq_refl eq_refl eq_refl)
    as (Hthrown & Hfiles & Hsent).
  split; [exact Hthrown |]. split; [exact Hfiles |].
  fold result in Hsent. rewrite Hsent. reflexivity.
Defined.

(** X14: downloading and then loading is a round trip.  When the three
    requests are answered with a success and the three files can be
    written, the fonts loaded afterwards carry exactly the bodies of
    the three responses, in the order regular, bold, display, whatever
    was on disk before and whether or not the directory could be
    made. *)
Theorem X14_download_then_load (pf : platform) (dirname : path)
    (m : machine) (r1 r2 r3 : web_response) :
  let sources := map (fun f => get (OgImage.url f)) OgImage.font_sources in
  web pf (requested m ++ firstn 1 sources) = Answered r1 -> web_ok r1 = true ->
  web pf (requested m ++ firstn 2 sources) = Answered r2 -> web_ok r2 = true ->
  web pf (requested m ++ firstn 3 sources) = Answered r3 -> web_ok r3 = true ->
  write_error pf (OgImage.fontRegularPath dirname) = None ->
  write_error pf (OgImage.fontBoldPath dirname) = None ->
  write_error pf (OgImage.fontDisplayPath dirname) = None ->
  exists m',
    exec pf (OgImage.downloadFonts dirname ;; OgImage.load_fonts dirname) m
    = (Normal (fonts_with (web_bytes r1) (web_bytes r2) (web_bytes r3)), m')
    /\ files m'
       = written (written (written (files m)
                                   (OgImage.fontRegularPath dirname)
                                   (web_bytes r1))
                          (OgImage.fontBoldPath dirname) (web_bytes r2))
                 (OgImage.fontDisplayPath dirname) (web_bytes r3)
    /\ requested m' = requested m ++ sources.
Proof.
  intros sources H1 Hok1 H2 Hok2 H3 Hok3 Hw1 Hw2 Hw3.
  subst sources. unfold OgImage.downloadFonts.
  unfold OgImage.font_sources in H1, H2, H3 |- *.
  cbn [map firstn OgImage.url] in H1, H2, H3 |- *.
  set (g1 := get (lit "https://cdn.jsdelivr.net/fontsource/fonts/source-sans-3@latest/latin-400-normal.ttf")) in *.
  set (g2 := get (lit "https://cdn.jsdelivr.net/fontsource/fonts/source-sans-3@latest/latin-700-normal.ttf")) in *.
  set (g3 := get (lit "https://cdn.jsdelivr.net/fontsource/fonts/cormorant-garamond@latest/latin-600-normal.ttf")) in *.
  assert (E2 : (requested m ++ [g1]) ++ [g2] = requested m ++ [g1; g2])
    by (rewrite <- app_assoc; reflexivity).
  assert (E3 : (requested m ++ [g1; g2]) ++ [g3] = requested m ++ [g1; g2; g3])
    by (rewrite <- app_assoc; reflexivity).
  unfold OgImage.downloadFonts, OgImage.load_fonts, OgImage.download_one.
  unfold_tasks.
  destruct (mkdir_error pf (join (OgImage.rootDir dirname) (lit "scripts/fonts")));
    unfold_tasks; unfold_tasks; fold g1 g2 g3;
    rewrite H1; unfold_tasks; rewrite Hok1; unfold_tasks;
    rewrite fonts_dir_regular, Hw1; unfold_tasks;
    fold g2; rewrite E2, H2; unfold_tasks; rewrite Hok2; unfold_tasks;
    rewrite fonts_dir_bold, Hw2; unfold_tasks;
    fold g3; rewrite E3, H3; unfold_tasks; rewrite Hok3; unfold_tasks;
    rewrite fonts_dir_display, Hw3; unfold_tasks;
    rewrite fonts_read_back; unfold_tasks;
    eexists; repeat split.
Qed.

Lemma X14_witness :
  let pf := MoreSamples.platform_of
              [ Answered (MoreSamples.font_file Byte.x01);
                Answered (MoreSamples.font_file Byte.x02);
                Answered (MoreSamples.font_file Byte.x03) ] in
  exists m',
    exec pf (OgImage.downloadFonts MoreSamples.scripts_dir ;;
             OgImage.load_fonts MoreSamples.scripts_dir)
         (fresh MoreSamples.checkout)
    = (Normal (fonts_with [Byte.x01; Byte.x01] [Byte.x02; Byte.x02]
                          [Byte.x03; Byte.x03]), m')
    /\ List.length (requested m') = 3.
Proof.
  intros pf.
  destruct (@X14_download_then_load pf MoreSamples.scripts_dir
              (fresh MoreSamples.checkout)
              (MoreSamples.font_file Byte.x01) (MoreSamples.font_file Byte.x02)
              (MoreSamples.font_file Byte.x03)
              eq_refl eq_refl eq_refl eq_refl eq_refl eq_refl
              eq_refl eq_refl eq_refl)
    as (m' & Hrun & _ & Hsent).
  exists m'. split; [exact Hrun |]. rewrite Hsent. reflexivity.
Defined.

Section ScriptRunFacts.

Variable dirname : path.
Variable sharp_cover_png : Z -> Z -> bytes -> completion bytes.
Variable base64 : bytes -> jsstring.
Variable satori : OgImage.node -> Z -> Z -> list OgImage.font
                  -> completion jsstring.
Variable resvg_png : jsstring -> Z -> completion bytes.
Variable sharp_jpeg : Z -> bytes -> completion bytes.
Variables (pf : platform) (m : machine).

Lemma main_never_throws :
  fst (exec pf (OgImage.main dirname sharp_cover_png base64 satori resvg_png
                  sharp_jpeg) m) = Normal tt.
Proof.
  unfold OgImage.main, OgImage.generateOGImage, OgImage.load_fonts,
    OgImage.downloadFonts, OgImage.font_sources.
  split_exec; reflexivity.
Qed.

(** The script writes nowhere but to the fonts and to the image. *)
Lemma main_keeps_other_files (q : path) :
  ~ In q (script_targets dirname) ->
  files (snd (exec pf (OgImage.main dirname sharp_cover_png base64 satori
                         resvg_png sharp_jpeg) m)) q
  = files m q.
Proof.
  intros Hq.
  assert (H1 : path_eqb q (OgImage.fontRegularPath dirname) = false)
    by (apply path_eqb_neq; intros ->; apply Hq; left; reflexivity).
  assert (H2 : path_eqb q (OgImage.fontBoldPath dirname) = false)
    by (apply path_eqb_neq; intros ->; apply Hq; right; left; reflexivity).
  assert (H3 : path_eqb q (OgImage.fontDisplayPath dirname) = false)
    by (apply path_eqb_neq; intros ->; apply Hq; do 2 right; left;
        reflexivity).
  assert (H4 : path_eqb q (OgImage.outputPath dirname) = false)
    by (apply path_eqb_neq; intros ->; apply Hq; do 3 right; left;
        reflexivity).
  unfold OgImage.main, OgImage.generateOGImage, OgImage.load_fonts,
    OgImage.downloadFonts, OgImage.font_sources.
  split_exec;
    rewrite ?fonts_dir_regular, ?fonts_dir_bold, ?fonts_dir_display;
    unfold written; rewrite ?H1, ?H2, ?H3, ?H4; reflexivity.
Qed.

(** The image is written last, and only when everything before it
    succeeded. *)
Lemma image_written_on_success_only :
  let result :=
    exec pf (OgImage.generateOGImage dirname sharp_cover_png base64 satori
               resvg_png sharp_jpeg) m in
  (forall e,
      fst result = Abrupt e ->
      files (snd result) (OgImage.outputPath dirname)
      = files m (OgImage.outputPath dirname))
  /\ (fst result = Normal tt ->
      exists png jpeg,
        sharp_jpeg 90 png = Normal jpeg
        /\ files (snd result) (OgImage.outputPath dirname) = Some jpeg).
Proof.
  destruct (output_is_no_font dirname) as (H1 & H2 & H3).
  unfold OgImage.generateOGImage, OgImage.load_fonts,
    OgImage.downloadFonts, OgImage.font_sources.
  split_exec;
    rewrite ?fonts_dir_regular, ?fonts_dir_bold, ?fonts_dir_display;
    (split;
     [ intros err Herr;
       first [ discriminate Herr
             | unfold written; rewrite ?H1, ?H2, ?H3; reflexivity ]
     | intros Hdone;
       first [ discriminate Hdone
             | rewrite written_same; eexists _, _;
               split; [eassumption | reflexivity] ] ]).
Qed.

End ScriptRunFacts.

(** Runs a task symbolically, using what is known of a read. *)
Ltac split_exec_knowing Hread :=
  repeat (unfold_tasks; rewrite ?Hread; unfold_tasks;
          match goal with
          | |- context [match ?o with Answered _ => _ | Unreachable _ => _ end] =>
              destruct o eqn:?
          | |- context [match ?c with Normal _ => _ | Abrupt _ => _ end] =>
              destruct c eqn:?
          | |- context [match write_error ?pf ?p with _ => _ end] =>
              destruct (write_error pf p) eqn:?
          | |- context [if ?b then _ else _] => destruct b eqn:?
          end);
  unfold_tasks; rewrite ?Hread; unfold_tasks.

(** X15: with the three fonts on disk the script stays offline: it
    sends no request and makes no directory, whatever else happens.  And
    the renderer is handed the card over the resized background, the
    size 1200 by 630 and the three fonts with the contents of the files:
    what the renderer does on exactly these arguments decides the run.
    When it throws, the script prints the error and writes nothing; when
    it returns and the two encoders succeed, the image written is the
    JPEG made from its output. *)
Theorem X15_fonts_on_disk_stay_offline (dirname : path)
    (sharp_cover_png : Z -> Z -> bytes -> completion bytes)
    (base64 : bytes -> jsstring)
    (satori : OgImage.node -> Z -> Z -> list OgImage.font
              -> completion jsstring)
    (resvg_png : jsstring -> Z -> completion bytes)
    (sharp_jpeg : Z -> bytes -> completion bytes)
    (pf : platform) (m : machine) (regular bold display : bytes) :
  files m (OgImage.fontRegularPath dirname) = Some regular ->
  files m (OgImage.fontBoldPath dirname) = Some bold ->
  files m (OgImage.fontDisplayPath dirname) = Some display ->
  let result :=
    exec pf (OgImage.main dirname sharp_cover_png base64 satori resvg_png
               sharp_jpeg) m in
  requested (snd result) = requested m
  /\ made (snd result) = made m
  /\ (forall background cover,
        files m (OgImage.backgroundImagePath dirname) = Some background ->
        sharp_cover_png 1200%Z 630%Z background = Normal cover ->
        let element :=
          OgImage.og_card (lit "data:image/png;base64," ++ base64 cover) in
        let fonts :=
          [ {| OgImage.font_name := lit "Source Sans 3";
               OgImage.font_data := regular;
               OgImage.font_weight := 400;
               OgImage.font_style := lit "normal" |};
            {| OgImage.font_name := lit "Source Sans 3";
               OgImage.font_data := bold;
               OgImage.font_weight := 700;
               OgImage.font_style := lit "normal" |};
            {| OgImage.font_name := lit "Cormorant Garamond";
               OgImage.font_data := display;
               OgImage.font_weight := 600;
               OgImage.font_style := lit "normal" |} ] in
        (forall e,
            satori element 1200%Z 630%Z fonts = Abrupt e ->
            fst result = Normal tt
            /\ files (snd result) = files m
            /\ last (printed (snd result)) (LogInfo, [])
               = (LogError, [ LExn e ]))
        /\ (forall svg png jpeg,
               satori element 1200%Z 630%Z fonts = Normal svg ->
               resvg_png svg 1200%Z = Normal png ->
               sharp_jpeg 90%Z png = Normal jpeg ->
               write_error pf (OgImage.outputPath dirname) = None ->
               fst result = Normal tt
               /\ files (snd result)
                  = written (files m) (OgImage.outputPath dirname) jpeg)).
Proof.
  intros Hregular Hbold Hdisplay result. subst result.
  pose proof (fonts_on_disk dirname pf (files m) Hregular Hbold Hdisplay)
    as Hread.
  split; [| split].
  - unfold OgImage.main, OgImage.generateOGImage, OgImage.load_fonts.
    split_exec_knowing Hread; reflexivity.
  - unfold OgImage.main, OgImage.generateOGImage, OgImage.load_fonts.
    split_exec_knowing Hread; reflexivity.
  - intros background cover Hbackground Hcover element fonts.
    unfold OgImage.main, OgImage.generateOGImage, OgImage.load_fonts,
      OgImage.WIDTH, OgImage.HEIGHT.
    unfold_tasks. unfold read. rewrite Hbackground. unfold_tasks.
    rewrite Hcover. unfold_tasks. rewrite Hread. unfold_tasks.
    cbn [nth]. fold element. fold fonts.
    split.
    + intros e He. rewrite He. unfold_tasks.
      split; [reflexivity |]. split; [reflexivity |].
      rewrite last_last. reflexivity.
    + intros svg png jpeg Hsvg Hpng Hjpeg Hwrite.
      rewrite Hsvg. unfold_tasks. rewrite Hpng. unfold_tasks.
      rewrite Hjpeg. unfold_tasks. rewrite Hwrite. unfold_tasks.
      split; reflexivity.
Qed.

Lemma X15_witness :
  let fs :=
    written (written (written MoreSamples.checkout
                        (OgImage.fontRegularPath MoreSamples.scripts_dir)
                        [Byte.x01])
               (OgImage.fontBoldPath MoreSamples.scripts_dir) [Byte.x02])
      (OgImage.fontDisplayPath MoreSamples.scripts_dir) [Byte.x03] in
  let m' :=
    snd (exec (MoreSamples.platform_of [])
           (OgImage.main MoreSamples.scripts_dir MoreSamples.cover_png
              MoreSamples.as_base64 MoreSamples.render_svg
              MoreSamples.svg_to_png MoreSamples.to_jpeg)
           (fresh fs)) in
  requested m' = []
  /\ made m' = []
  /\ exists jpeg,
       files m' (OgImage.outputPath MoreSamples.scripts_dir) = Some jpeg
       /\ List.length jpeg = 16.
Proof.
  intros fs m'.
  destruct (@X15_fonts_on_disk_stay_offline MoreSamples.scripts_dir
              MoreSamples.cover_png MoreSamples.as_base64
              MoreSamples.render_svg MoreSamples.svg_to_png
              MoreSamples.to_jpeg (MoreSamples.platform_of []) (fresh fs)
              [Byte.x01] [Byte.x02] [Byte.x03] eq_refl eq_refl eq_refl)
    as (Hsent & Hmade & Hrendered).
  split; [exact Hsent |]. split; [exact Hmade |].
  destruct (Hrendered [Byte.x52; Byte.x49; Byte.x46; Byte.x46]
              [Byte.x89; Byte.x52; Byte.x49; Byte.x46; Byte.x46]
              eq_refl eq_refl)
    as (_ & Hwritten).
  eexists. split.
  - fold m' in Hwritten.
    rewrite (proj2 (Hwritten _ _ _ eq_refl eq_refl eq_refl eq_refl)).
    apply written_same.
  - vm_compute. reflexivity.
Defined.

(** X16: the image is the last thing the script writes, and it is
    written only when every step before it succeeded: when
    [generateOGImage] throws, the file at the output path is what it
    was; when it returns, that file is the JPEG the encoder made. *)
Theorem X16_image_written_on_success_only (dirname : path)
    (sharp_cover_png : Z -> Z -> bytes -> completion bytes)
    (base64 : bytes -> jsstring)
    (satori : OgImage.node -> Z -> Z -> list OgImage.font
              -> completion jsstring)
    (resvg_png : jsstring -> Z -> completion bytes)
    (sharp_jpeg : Z -> bytes -> completion bytes)
    (pf : platform) (m : machine) :
  let result :=
    exec pf (OgImage.generateOGImage dirname sharp_cover_png base64 satori
               resvg_png sharp_jpeg) m in
  (forall e,
      fst result = Abrupt e ->
      files (snd result) (OgImage.outputPath dirname)
      = files m (OgImage.outputPath dirname))
  /\ (fst result = Normal tt ->
      exists png jpeg,
        sharp_jpeg 90%Z png = Normal jpeg
        /\ files (snd result) (OgImage.outputPath dirname) = Some jpeg).
Proof.
  apply image_written_on_success_only.
Qed.

Lemma X16_witness :
  let result :=
    exec (MoreSamples.platform_of [])
      (OgImage.generateOGImage MoreSamples.scripts_dir MoreSamples.cover_png
         MoreSamples.as_base64 MoreSamples.render_svg MoreSamples.svg_to_png
         MoreSamples.to_jpeg)
      (fresh MoreSamples.checkout) in
  fst result = Abrupt (JsError (lit "fetch failed"))
  /\ files (snd result) (OgImage.outputPath MoreSamples.scripts_dir) = None.
Proof.
  intros result.
  assert (Hthrown : fst result = Abrupt (JsError (lit "fetch failed")))
    by (vm_compute; reflexivity).
  split; [exact Hthrown |].
  exact (proj1 (@X16_image_written_on_success_only MoreSamples.scripts_dir
                  MoreSamples.cover_png MoreSamples.as_base64
                  MoreSamples.render_svg MoreSamples.svg_to_png
                  MoreSamples.to_jpeg (MoreSamples.platform_of [])
                  (fresh MoreSamples.checkout))
               (JsError (lit "fetch failed")) Hthrown).
Defined.

(** X17: the script as it is run never throws: a failure of
    [generateOGImage] is printed with [console.error].  And it changes
    no file other than the three fonts and the image. *)
Theorem X17_script_contained (dirname : path)
    (sharp_cover_png : Z -> Z -> bytes -> completion bytes)
    (base64 : bytes -> jsstring)
    (satori : OgImage.node -> Z -> Z -> list OgImage.font
              -> completion jsstring)
    (resvg_png : jsstring -> Z -> completion bytes)
    (sharp_jpeg : Z -> bytes -> completion bytes)
    (pf : platform) (m : machine) :
  let result :=
    exec pf (OgImage.main dirname sharp_cover_png base64 satori resvg_png
               sharp_jpeg) m in
  fst result = Normal tt
  /\ (forall q,
         ~ In q [ OgImage.fontRegularPath dirname;
                  OgImage.fontBoldPath dirname;
                  OgImage.fontDisplayPath dirname;
                  OgImage.outputPath dirname ] ->
         files (snd result) q = files m q).
Proof.
  intros result. split.
  - apply main_never_throws.
  - intros q Hq. apply main_keeps_other_files. exact Hq.
Qed.

Lemma X17_witness :
  let background :=
    [lit "site"; lit "src"; lit "assets"; lit "images"; lit "cows-1.webp"] in
  let result :=
    exec (MoreSamples.platform_of
            [ Answered (MoreSamples.font_file Byte.x01);
              Answered (MoreSamples.font_file Byte.x02);
              Answered (MoreSamples.font_file Byte.x03) ])
      (OgImage.main MoreSamples.scripts_dir MoreSamples.cover_png
         MoreSamples.as_base64 MoreSamples.render_svg MoreSamples.svg_to_png
         MoreSamples.to_jpeg)
      (fresh MoreSamples.checkout) in
  files (snd result) background
  = Some [Byte.x52; Byte.x49; Byte.x46; Byte.x46]
  /\ files (snd result) (OgImage.outputPath MoreSamples.scripts_dir) <> None.
Proof.
  intros background result.
  assert (Hother :
    ~ In background
        [ OgImage.fontRegularPath MoreSamples.scripts_dir;
          OgImage.fontBoldPath MoreSamples.scripts_dir;
          OgImage.fontDisplayPath MoreSamples.scripts_dir;
          OgImage.outputPath MoreSamples.scripts_dir ])
    by (intros [H | [H | [H | [H | []]]]]; discriminate H).
  split.
  - exact (eq_trans
             (proj2 (@X17_script_contained MoreSamples.scripts_dir
                       MoreSamples.cover_png MoreSamples.as_base64
                       MoreSamples.render_svg MoreSamples.svg_to_png
                       MoreSamples.to_jpeg
                       (MoreSamples.platform_of
                          [ Answered (MoreSamples.font_file Byte.x01);
                            Answered (MoreSamples.font_file Byte.x02);
                            Answered (MoreSamples.font_file Byte.x03) ])
                       (fresh MoreSamples.checkout))
                    background Hother)
             eq_refl).
  - vm_compute. discriminate.
Defined.
